(** * ENCOS motor SDK: protocol codec, motor endpoint and fleet registry

    A shallow embedding of [data_types.py], [protocol_layer.py],
    [hardware_layer.py] (the part of [send_frame] the motor API relies on) and
    [motor_api.py], followed by the properties of the specification that are
    settled against it.

    Modelling conventions.
    - A Python [float] is an IEEE-754 binary64 number: Rocq's primitive
      [float].  NaN payloads and the sign of a NaN are not represented
      (Rocq has one NaN): the embedding packs a NaN as the quiet NaN
      [0x7FC00000], where [struct.pack] also keeps the sign bit, so no
      property below speaks of the bytes of a packed NaN.
    - A Python [int] is a [Z]; [bytes] is a [list byte].
    - A Python exception is the [Raise] branch of [result]; [try/except]
      is a [match] on it.
    - The clock ([time.time()]) and the outcome of [can.Bus.send] belong to
      the environment and are passed in explicitly.  Logging is dropped. *)

From Stdlib Require Import ZArith Floats Uint63 Lia.
From Stdlib.Strings Require Import Byte.
From stdpp Require Import gmap strings list sorting.

Set Warnings "-inexact-float".
Local Open Scope Z_scope.

(** ** Exceptions *)

Inductive exn : Set :=
| ValueError
| OverflowError
| IndexError
| StructError.

Inductive result (A : Type) : Type :=
| Ok (a : A)
| Raise (e : exn).
Arguments Ok {A} a.
Arguments Raise {A} e.

#[global] Instance result_ret : MRet result := fun _ a => Ok a.
#[global] Instance result_bind : MBind result := fun _ _ f m =>
  match m with
  | Ok a => f a
  | Raise e => Raise e
  end.
#[global] Instance result_fmap : FMap result := fun _ _ f m =>
  match m with
  | Ok a => Ok (f a)
  | Raise e => Raise e
  end.

Definition is_ok {A} (r : result A) : bool :=
  match r with Ok _ => true | Raise _ => false end.

(** ** Python numbers *)

Module Py.

(** [float(z)] for an [int] of magnitude below [2^63] (every integer the
    codec converts is a 16-bit field or a small constant). *)
Definition float_of_int (z : Z) : float :=
  if z <? 0 then PrimFloat.opp (of_uint63 (Uint63.of_Z (- z)))
  else of_uint63 (Uint63.of_Z z).

(** [int(x)]: truncation toward zero; [ValueError] on NaN and
    [OverflowError] on an infinity. *)
Definition int_of_float (x : float) : result Z :=
  match Prim2SF x with
  | S754_nan => Raise ValueError
  | S754_infinity _ => Raise OverflowError
  | S754_zero _ => Ok 0
  | S754_finite s m e => Ok (cond_Zopp s (Z.shiftl (Zpos m) e))
  end.

(** A float that is neither NaN nor an infinity. *)
Definition is_finite (x : float) : bool :=
  match Prim2SF x with
  | S754_zero _ | S754_finite _ _ _ => true
  | _ => false
  end.

Definition math_pi : float := 3.141592653589793%float.
(** CPython: [degToRad = pi / 180.0], [radToDeg = 180.0 / pi]. *)
Definition degToRad : float := (math_pi / 180)%float.
Definition radToDeg : float := (180 / math_pi)%float.
Definition radians (x : float) : float := (x * degToRad)%float.
Definition degrees (x : float) : float := (x * radToDeg)%float.

(** [x > y] and [abs], written as Python does. *)
Definition gt (x y : float) : bool := PrimFloat.ltb y x.
Definition lt (x y : float) : bool := PrimFloat.ltb x y.
Definition abs (x : float) : float := PrimFloat.abs x.
(** [x == 0] on a float. *)
Definition eq0 (x : float) : bool := PrimFloat.eqb x 0%float.

(** [max(lo, min(z, hi))] on ints. *)
Definition clamp (lo hi z : Z) : Z := Z.max lo (Z.min z hi).

End Py.

(** ** Bytes *)

Definition Z_of_byte (b : byte) : Z := Z.of_N (Byte.to_N b).

Definition byte_of_Z (z : Z) : byte :=
  default "000"%byte (Byte.of_N (Z.to_N (z mod 256))).

(** [bytes(l)] for a list of ints: [ValueError] unless each is in
    [range(256)]. *)
Fixpoint bytes_of_ints (l : list Z) : result (list byte) :=
  match l with
  | [] => Ok []
  | z :: l' =>
      if (0 <=? z) && (z <? 256)
      then bs ← bytes_of_ints l'; mret (byte_of_Z z :: bs)
      else Raise ValueError
  end.

(** [int.from_bytes(bs, 'big')]. *)
Definition int_from_bytes_big (bs : list byte) : Z :=
  fold_left (fun acc b => acc * 256 + Z_of_byte b) bs 0.

(** The [n] low bytes of [z], most significant first. *)
Fixpoint big_endian (n : nat) (z : Z) : list byte :=
  match n with
  | O => []
  | S n' => byte_of_Z (Z.shiftr z (8 * Z.of_nat n')) :: big_endian n' z
  end.

(** [z.to_bytes(n, 'big')]: [OverflowError] when [z] is negative or does
    not fit. *)
Definition int_to_bytes_big (n : nat) (z : Z) : result (list byte) :=
  if (0 <=? z) && (z <? 256 ^ Z.of_nat n) then Ok (big_endian n z)
  else Raise OverflowError.

(** ** [struct.pack('>f', _)] and [struct.unpack('>f', _)] *)

Module Binary32.

Definition prec : Z := 24.
Definition emax : Z := 128.

(** The C conversion [(float)x]: round to nearest, ties to even. *)
Definition of_binary64 (x : spec_float) : spec_float :=
  match x with
  | S754_finite s m e => binary_normalize prec emax (cond_Zopp s (Zpos m)) e s
  | _ => x
  end.

Definition sign_bit (s : bool) : Z := if s then 2 ^ 31 else 0.

(** The 32-bit pattern of a binary32 value. *)
Definition bits (x : spec_float) : Z :=
  match x with
  | S754_zero s => sign_bit s
  | S754_infinity s => sign_bit s + 0x7F800000
  | S754_nan => 0x7FC00000
  | S754_finite s m e =>
      if Zpos m <? 2 ^ 23 then sign_bit s + Zpos m
      else sign_bit s + (e + 150) * 2 ^ 23 + (Zpos m - 2 ^ 23)
  end.

(** The value of a 32-bit pattern, as a binary64 number (exact). *)
Definition value (w : Z) : float :=
  let s := Z.testbit w 31 in
  let e := Z.land (Z.shiftr w 23) 0xFF in
  let m := Z.land w 0x7FFFFF in
  let mag :=
    if e =? 255 then (if m =? 0 then infinity else nan)
    else if e =? 0 then FloatOps.Z.ldexp (of_uint63 (Uint63.of_Z m)) (-149)
    else FloatOps.Z.ldexp (of_uint63 (Uint63.of_Z (m + 2 ^ 23))) (e - 150) in
  if s then PrimFloat.opp mag else mag.

End Binary32.

(** [float_to_bytes]: [struct.pack('>f', value)].  CPython raises
    [OverflowError] when a finite value rounds to an infinity. *)
Definition float_to_bytes (value : float) : result (list byte) :=
  let x := Prim2SF value in
  let y := Binary32.of_binary64 x in
  match x, y with
  | S754_finite _ _ _, S754_infinity _ => Raise OverflowError
  | _, _ => Ok (big_endian 4 (Binary32.bits y))
  end.

(** [bytes_to_float]: [struct.unpack('>f', data)[0]]; [struct.error] unless
    [data] has four bytes. *)
Definition bytes_to_float (data : list byte) : result float :=
  if (length data =? 4)%nat then Ok (Binary32.value (int_from_bytes_big data))
  else Raise StructError.

(** ** [data_types.py] *)

Inductive FeedbackType : Set := TYPE_1 | TYPE_2 | TYPE_3 | TYPE_4 | TYPE_5.

Definition FeedbackType_value (t : FeedbackType) : Z :=
  match t with
  | TYPE_1 => 1 | TYPE_2 => 2 | TYPE_3 => 3 | TYPE_4 => 4 | TYPE_5 => 5
  end.

Inductive ErrorCode : Set :=
| NO_ERROR
| OVER_VOLTAGE
| UNDER_VOLTAGE
| OVER_CURRENT
| OVER_TEMPERATURE
| ENCODER_ERROR
| HALL_ERROR
| UNKNOWN_ERROR.

Definition ErrorCode_value (e : ErrorCode) : Z :=
  match e with
  | NO_ERROR => 0x00
  | OVER_VOLTAGE => 0x01
  | UNDER_VOLTAGE => 0x02
  | OVER_CURRENT => 0x04
  | OVER_TEMPERATURE => 0x08
  | ENCODER_ERROR => 0x10
  | HALL_ERROR => 0x20
  | UNKNOWN_ERROR => 0xFF
  end.

Record MotorStatus : Set := {
  status_motor_id : Z;
  position : float;
  velocity : float;
  current : float;
  torque : float;
  temperature : float;
  error_code : ErrorCode;
  voltage : float;
  feedback_type : option FeedbackType
}.

(** The dataclass defaults. *)
Definition MotorStatus_default (motor_id : Z) : MotorStatus :=
  {| status_motor_id := motor_id;
     position := 0; velocity := 0; current := 0; torque := 0;
     temperature := 0; error_code := NO_ERROR; voltage := 0;
     feedback_type := None |}.

Definition has_error (s : MotorStatus) : bool :=
  match error_code s with NO_ERROR => false | _ => true end.

Record CANFrame : Set := {
  arbitration_id : Z;
  data : list byte;
  is_extended : bool
}.

(** [CANFrame(arbitration_id=..., data=...)]: [__post_init__] rejects a
    payload of more than eight bytes. *)
Definition CANFrame_init (arbitration_id : Z) (data : list byte) : result CANFrame :=
  if (8 <? length data)%nat then Raise ValueError
  else Ok {| arbitration_id := arbitration_id; data := data; is_extended := false |}.

(** The invariant every constructed frame satisfies. *)
Definition frame_wf (f : CANFrame) : Prop := (length (data f) <= 8)%nat.

Module ProtocolConstants.
Definition HEARTBEAT_TIMEOUT_MS : Z := 500.
Definition COMMAND_INTERVAL_MS : Z := 500.
Definition POSITION_SCALE : float := (6.28318 / 65536)%float.
Definition VELOCITY_SCALE : float := 0.1%float.
Definition CURRENT_SCALE : float := 0.01%float.
Definition TORQUE_SCALE : float := 0.01%float.
Definition TEMPERATURE_SCALE : float := 0.1%float.
Definition KP_MAX : Z := 4095.
Definition KD_MAX : Z := 511.
Definition POSITION_MAX : Z := 65535.
Definition VELOCITY_MAX : Z := 2047.
Definition TORQUE_MAX : Z := 2047.
End ProtocolConstants.

(** ** [protocol_layer.py]: the encoder *)

Module ProtocolEncoder.
Import ProtocolConstants.

Definition encode_query_id : result CANFrame :=
  CANFrame_init 0x000 [x55; xaa; x00; x00; x00; x00; x00; x00].

Definition encode_reset_id (new_id : Z) : result CANFrame :=
  if negb ((1 <=? new_id) && (new_id <=? 32)) then Raise ValueError
  else
    bs ← bytes_of_ints [0x55; 0xAA; 0x55; 0xAA; new_id; 0x00; 0x00; 0x00];
    CANFrame_init 0x000 bs.

Definition encode_set_zero_point (motor_id : Z) : result CANFrame :=
  CANFrame_init motor_id [x55; xaa; x00; x00; x00; x00; x00; x00].

(** The three scaled values handed to [int(...)]. *)
Definition pos_scaled (position : float) : float :=
  let pos_normalized := ((position + Py.math_pi) / (2 * Py.math_pi))%float in
  (pos_normalized * 65535)%float.
Definition vel_scaled (velocity : float) : float :=
  let vel_normalized := ((velocity + 10) / 20)%float in
  (vel_normalized * 2047)%float.
Definition tor_scaled (torque : float) : float :=
  let tor_normalized := ((torque + 10) / 20)%float in
  (tor_normalized * 2047)%float.

(** The bit packing of the five integer fields. *)
Definition pack_command (kp_int kd_int pos_int vel_int tor_int : Z) : Z :=
  let command_data := 0 in
  let command_data := Z.lor command_data (Z.shiftl (Z.land kp_int 0xFFF) 52) in
  let command_data := Z.lor command_data (Z.shiftl (Z.land kd_int 0x1FF) 43) in
  let command_data := Z.lor command_data (Z.shiftl (Z.land pos_int 0xFFFF) 27) in
  let command_data := Z.lor command_data (Z.shiftl (Z.land vel_int 0x7FF) 16) in
  let command_data := Z.lor command_data (Z.shiftl (Z.land tor_int 0x7FF) 5) in
  command_data.

(** [for i in range(8): data.append((command_data >> (56 - 8*i)) & 0xFF)]. *)
Definition split_bytes (command_data : Z) : list Z :=
  map (fun i => Z.land (Z.shiftr command_data (56 - 8 * i)) 0xFF) (seqZ 0 8).

Definition encode_force_position_command
    (motor_id : Z) (kp kd position velocity torque : float) : result CANFrame :=
  kp_i ← Py.int_of_float kp;
  let kp_int := Z.max 0 (Z.min kp_i KP_MAX) in
  kd_i ← Py.int_of_float kd;
  let kd_int := Z.max 0 (Z.min kd_i KD_MAX) in
  pos_i ← Py.int_of_float (pos_scaled position);
  let pos_int := Z.max 0 (Z.min pos_i 65535) in
  vel_i ← Py.int_of_float (vel_scaled velocity);
  let vel_int := Z.max 0 (Z.min vel_i 2047) in
  tor_i ← Py.int_of_float (tor_scaled torque);
  let tor_int := Z.max 0 (Z.min tor_i 2047) in
  let command_data := pack_command kp_int kd_int pos_int vel_int tor_int in
  bs ← bytes_of_ints (split_bytes command_data);
  CANFrame_init motor_id bs.

(** [data[i:j] = bs] on a bytearray. *)
Definition set_slice (data : list byte) (i j : nat) (bs : list byte) : list byte :=
  take i data ++ bs ++ drop j data.

Definition bytearray (n : nat) : list byte := replicate n x00.

Definition encode_servo_position_command
    (motor_id : Z) (position speed_limit current_limit : float) : result CANFrame :=
  pos_bytes ← float_to_bytes (Py.radians position);
  speed_bytes ← float_to_bytes speed_limit;
  current_bytes ← float_to_bytes current_limit;
  let data := bytearray 8 in
  let data := set_slice data 0 4 pos_bytes in
  speed_i ← Py.int_of_float (speed_limit * 10)%float;
  let speed_int := Z.max 0 (Z.min speed_i 65535) in
  current_i ← Py.int_of_float (current_limit * 100)%float;
  let current_int := Z.max 0 (Z.min current_i 65535) in
  sb ← int_to_bytes_big 2 speed_int;
  let data := set_slice data 4 6 sb in
  cb ← int_to_bytes_big 2 current_int;
  let data := set_slice data 6 8 cb in
  CANFrame_init motor_id data.

Definition encode_servo_speed_command
    (motor_id : Z) (speed current_limit : float) : result CANFrame :=
  speed_bytes ← float_to_bytes speed;
  current_bytes ← float_to_bytes current_limit;
  let data := bytearray 8 in
  let data := set_slice data 0 4 speed_bytes in
  let data := set_slice data 4 8 current_bytes in
  CANFrame_init motor_id data.

Definition encode_status_request (motor_id : Z) (feedback_type : FeedbackType)
  : result CANFrame :=
  bs ← bytes_of_ints [0xAA; 0x55; FeedbackType_value feedback_type;
                      0x00; 0x00; 0x00; 0x00; 0x00];
  CANFrame_init motor_id bs.

End ProtocolEncoder.

(** ** [protocol_layer.py]: the decoder *)

Module ProtocolDecoder.
Import ProtocolConstants.

(** [data[i]]: [IndexError] past the end. *)
Definition index (data : list byte) (i : nat) : result Z :=
  match data !! i with
  | Some b => Ok (Z_of_byte b)
  | None => Raise IndexError
  end.

(** [data[i:j]]: never raises, may be short. *)
Definition slice (data : list byte) (i j : nat) : list byte :=
  take (j - i) (drop i data).

(** Two's-complement reading of a 16-bit pattern. *)
Definition signed16 (u : Z) : Z := if u <? 32768 then u else u - 65536.

(** [struct.unpack('>h', bs)[0]]. *)
Definition unpack_h (bs : list byte) : result Z :=
  if (length bs =? 2)%nat then Ok (signed16 (int_from_bytes_big bs))
  else Raise StructError.

Definition _decode_type1_feedback (frame : CANFrame) : result MotorStatus :=
  let data := data frame in
  d1 ← index data 1;
  d2 ← index data 2;
  let pos_raw := Z.lor (Z.shiftl d1 8) d2 in
  let position_rad := (Py.float_of_int pos_raw * POSITION_SCALE)%float in
  let position_deg := Py.degrees position_rad in
  vel_raw ← unpack_h (slice data 3 5);
  let velocity_rpm := (Py.float_of_int vel_raw * VELOCITY_SCALE)%float in
  tor_raw ← unpack_h (slice data 5 7);
  let torque_nm := (Py.float_of_int tor_raw * TORQUE_SCALE)%float in
  d7 ← index data 7;
  let temperature := (Py.float_of_int d7 * TEMPERATURE_SCALE)%float in
  mret {| status_motor_id := arbitration_id frame;
          position := position_deg;
          velocity := velocity_rpm;
          current := 0;
          torque := torque_nm;
          temperature := temperature;
          error_code := NO_ERROR;
          voltage := 0;
          feedback_type := Some TYPE_1 |}.

Definition _decode_type2_feedback (frame : CANFrame) : result MotorStatus :=
  let data := data frame in
  d1 ← index data 1;
  d2 ← index data 2;
  let pos_raw := Z.lor (Z.shiftl d1 8) d2 in
  let position_rad := (Py.float_of_int pos_raw * POSITION_SCALE)%float in
  let position_deg := Py.degrees position_rad in
  vel_raw ← unpack_h (slice data 3 5);
  let velocity_rpm := (Py.float_of_int vel_raw * VELOCITY_SCALE)%float in
  cur_raw ← unpack_h (slice data 5 7);
  let current_a := (Py.float_of_int cur_raw * CURRENT_SCALE)%float in
  d7 ← index data 7;
  let temperature := (Py.float_of_int d7 * TEMPERATURE_SCALE)%float in
  mret {| status_motor_id := arbitration_id frame;
          position := position_deg;
          velocity := velocity_rpm;
          current := current_a;
          torque := 0;
          temperature := temperature;
          error_code := NO_ERROR;
          voltage := 0;
          feedback_type := Some TYPE_2 |}.

Definition _decode_type3_feedback (frame : CANFrame) : result MotorStatus :=
  let data := data frame in
  position_rad ← bytes_to_float (slice data 1 5);
  let position_deg := Py.degrees position_rad in
  velocity_rpm ← (if (9 <=? length data)%nat then bytes_to_float (slice data 5 9)
                  else Ok 0%float);
  mret {| status_motor_id := arbitration_id frame;
          position := position_deg;
          velocity := velocity_rpm;
          current := 0;
          torque := 0;
          temperature := 0;
          error_code := NO_ERROR;
          voltage := 0;
          feedback_type := Some TYPE_3 |}.

Definition _decode_type4_feedback (frame : CANFrame) : result MotorStatus :=
  let data := data frame in
  d1 ← index data 1;
  let temperature := (Py.float_of_int d1 * TEMPERATURE_SCALE)%float in
  d2 ← index data 2;
  d3 ← index data 3;
  let voltage_raw := Z.lor (Z.shiftl d2 8) d3 in
  let voltage := (Py.float_of_int voltage_raw * 0.1)%float in
  mret {| status_motor_id := arbitration_id frame;
          position := 0;
          velocity := 0;
          current := 0;
          torque := 0;
          temperature := temperature;
          error_code := NO_ERROR;
          voltage := voltage;
          feedback_type := Some TYPE_4 |}.

(** [x & mask] used as a condition. *)
Definition bit_set (x mask : Z) : bool := negb (Z.land x mask =? 0).

(** The [if/elif] chain over the error byte. *)
Definition error_code_of_raw (error_code_raw : Z) : ErrorCode :=
  if bit_set error_code_raw 0x01 then OVER_VOLTAGE
  else if bit_set error_code_raw 0x02 then UNDER_VOLTAGE
  else if bit_set error_code_raw 0x04 then OVER_CURRENT
  else if bit_set error_code_raw 0x08 then OVER_TEMPERATURE
  else if bit_set error_code_raw 0x10 then ENCODER_ERROR
  else if bit_set error_code_raw 0x20 then HALL_ERROR
  else if negb (error_code_raw =? 0) then UNKNOWN_ERROR
  else NO_ERROR.

Definition _decode_type5_feedback (frame : CANFrame) : result MotorStatus :=
  let data := data frame in
  error_code_raw ← index data 1;
  let error_code := error_code_of_raw error_code_raw in
  mret {| status_motor_id := arbitration_id frame;
          position := 0;
          velocity := 0;
          current := 0;
          torque := 0;
          temperature := 0;
          error_code := error_code;
          voltage := 0;
          feedback_type := Some TYPE_5 |}.

(** [(frame.data[0] >> 5) & 0x07]. *)
Definition feedback_type_code (b0 : Z) : Z := Z.land (Z.shiftr b0 5) 0x07.

(** The body of the [try] block. *)
Definition decode_feedback_body (frame : CANFrame) : result (option MotorStatus) :=
  d0 ← index (data frame) 0;
  let feedback_type_code := feedback_type_code d0 in
  if feedback_type_code =? 1 then Some <$> _decode_type1_feedback frame
  else if feedback_type_code =? 2 then Some <$> _decode_type2_feedback frame
  else if feedback_type_code =? 3 then Some <$> _decode_type3_feedback frame
  else if feedback_type_code =? 4 then Some <$> _decode_type4_feedback frame
  else if feedback_type_code =? 5 then Some <$> _decode_type5_feedback frame
  else Ok None.

Definition decode_feedback (frame : CANFrame) : result (option MotorStatus) :=
  if (length (data frame) <? 8)%nat then Ok None
  else
    match decode_feedback_body frame with
    | Ok r => Ok r
    | Raise _ => Ok None
    end.

(** The [for] loop that appends every byte in [1, 32]. *)
Definition collect_ids (data : list byte) : list Z :=
  fold_left
    (fun motor_ids b =>
       let byte_val := Z_of_byte b in
       if (1 <=? byte_val) && (byte_val <=? 32) then motor_ids ++ [byte_val]
       else motor_ids)
    data [].

Definition decode_id_query_response (frame : CANFrame) : option (list Z) :=
  if negb (arbitration_id frame =? 0x000) then None
  else
    let motor_ids := collect_ids (data frame) in
    match motor_ids with
    | [] => None
    | _ => Some motor_ids
    end.

End ProtocolDecoder.

(** ** [hardware_layer.py]: the transport, as the motor API uses it

    [bus_send frame] is the environment's answer to [self.bus.send(msg)]:
    [true] when it returns, [false] when the bus object is missing or the
    call raises.  [sent] records the frames handed to the bus successfully;
    [message_callbacks] holds the identities of the registered [Motor]
    objects. *)

Record CANHardware : Set := {
  is_connected : bool;
  sent : list CANFrame;
  message_callbacks : list nat
}.

Section Transport.
Variable bus_send : CANFrame -> bool.

Definition send_frame (self : CANHardware) (frame : CANFrame) : bool * CANHardware :=
  if negb (is_connected self) then (false, self)
  else if bus_send frame
       then (true, {| is_connected := is_connected self;
                      sent := sent self ++ [frame];
                      message_callbacks := message_callbacks self |})
       else (false, self).

(** ** [motor_api.py]: [Motor] *)

Record Motor : Set := {
  motor_id : Z;
  last_status : option MotorStatus;
  is_enabled : bool;
  last_command_time : float;
  max_position_deg : float;
  max_velocity_rpm : float;
  max_current_a : float;
  max_torque_nm : float
}.

Definition set_last_command_time (self : Motor) (t : float) : Motor :=
  {| motor_id := motor_id self;
     last_status := last_status self;
     is_enabled := is_enabled self;
     last_command_time := t;
     max_position_deg := max_position_deg self;
     max_velocity_rpm := max_velocity_rpm self;
     max_current_a := max_current_a self;
     max_torque_nm := max_torque_nm self |}.

Definition set_max_position_deg (self : Motor) (v : float) : Motor :=
  {| motor_id := motor_id self;
     last_status := last_status self;
     is_enabled := is_enabled self;
     last_command_time := last_command_time self;
     max_position_deg := v;
     max_velocity_rpm := max_velocity_rpm self;
     max_current_a := max_current_a self;
     max_torque_nm := max_torque_nm self |}.

(** [Motor.__init__], without the callback registration (see
    [add_motor]). *)
Definition Motor_init (motor_id : Z) : result Motor :=
  if negb ((1 <=? motor_id) && (motor_id <=? 32)) then Raise ValueError
  else Ok {| motor_id := motor_id;
             last_status := None;
             is_enabled := false;
             last_command_time := 0;
             max_position_deg := 360;
             max_velocity_rpm := 1000;
             max_current_a := 10;
             max_torque_nm := 5 |}.

Definition _check_position_safe (self : Motor) (position_deg : float) : bool :=
  if Py.gt (Py.abs position_deg) (max_position_deg self) then false else true.

Definition _check_velocity_safe (self : Motor) (velocity_rpm : float) : bool :=
  if Py.gt (Py.abs velocity_rpm) (max_velocity_rpm self) then false else true.

Definition _check_current_safe (self : Motor) (current_a : float) : bool :=
  if Py.gt current_a (max_current_a self) then false else true.

(** [set_zero_point]: on success the method sleeps for
    [COMMAND_INTERVAL_MS] and returns; no field of the motor changes. *)
Definition set_zero_point (self : Motor) (hw : CANHardware)
  : bool * Motor * CANHardware :=
  match ProtocolEncoder.encode_set_zero_point (motor_id self) with
  | Raise _ => (false, self, hw)
  | Ok frame =>
      let '(success, hw') := send_frame hw frame in
      if success then (true, self, hw') else (false, self, hw')
  end.

(** The frame [set_position] builds inside its [try] block. *)
Definition position_frame (self : Motor)
    (position_deg speed_limit_rpm current_limit_a : float) (mode : string)
  : result CANFrame :=
  if String.eqb mode "servo" then
    ProtocolEncoder.encode_servo_position_command
      (motor_id self) position_deg speed_limit_rpm current_limit_a
  else if String.eqb mode "force" then
    ProtocolEncoder.encode_force_position_command
      (motor_id self) 50 5 (position_deg * 3.14159 / 180)%float 0 0
  else Raise ValueError.

(** [now] is the value [time.time()] returns after a successful send. *)
Definition set_position (self : Motor) (hw : CANHardware) (now : float)
    (position_deg speed_limit_rpm current_limit_a : float) (mode : string)
  : bool * Motor * CANHardware :=
  if negb (_check_position_safe self position_deg) then (false, self, hw)
  else if negb (_check_velocity_safe self speed_limit_rpm) then (false, self, hw)
  else if negb (_check_current_safe self current_limit_a) then (false, self, hw)
  else
    match position_frame self position_deg speed_limit_rpm current_limit_a mode with
    | Raise _ => (false, self, hw)
    | Ok frame =>
        let '(success, hw') := send_frame hw frame in
        if success then (true, set_last_command_time self now, hw')
        else (false, self, hw')
    end.

Definition set_velocity (self : Motor) (hw : CANHardware) (now : float)
    (velocity_rpm current_limit_a : float)
  : bool * Motor * CANHardware :=
  if negb (_check_velocity_safe self velocity_rpm) then (false, self, hw)
  else if negb (_check_current_safe self current_limit_a) then (false, self, hw)
  else
    match ProtocolEncoder.encode_servo_speed_command
            (motor_id self) velocity_rpm current_limit_a with
    | Raise _ => (false, self, hw)
    | Ok frame =>
        let '(success, hw') := send_frame hw frame in
        if success then (true, set_last_command_time self now, hw')
        else (false, self, hw')
    end.

Definition stop (self : Motor) (hw : CANHardware) (now : float)
  : bool * Motor * CANHardware :=
  set_velocity self hw now 0 0.

(** [HEARTBEAT_TIMEOUT_MS / 1000.0]. *)
Definition heartbeat_window : float :=
  (Py.float_of_int ProtocolConstants.HEARTBEAT_TIMEOUT_MS / 1000)%float.

(** [now] is the value [time.time()] returns inside the method. *)
Definition is_heartbeat_alive (self : Motor) (now : float) : bool :=
  if Py.eq0 (last_command_time self) then true
  else
    let elapsed := (now - last_command_time self)%float in
    Py.lt elapsed heartbeat_window.

(** ** [motor_api.py]: [MotorManager]

    [Motor] objects live in [objects], keyed by their identity; the
    manager's dict [motors] maps a motor id to an identity, so that two
    lookups of one id alias. *)

Record MotorManager : Set := {
  can_hardware : CANHardware;
  objects : gmap nat Motor;
  next_object : nat;
  motors : gmap Z nat
}.

(** [Motor(motor_id, can_hardware)]: validates the id, allocates the
    object and registers its [_on_can_message] with the hardware. *)
Definition new_Motor (self : MotorManager) (motor_id : Z) : result (nat * MotorManager) :=
  m ← Motor_init motor_id;
  let r := next_object self in
  let hw := can_hardware self in
  mret (r, {| can_hardware :=
                {| is_connected := is_connected hw;
                   sent := sent hw;
                   message_callbacks := message_callbacks hw ++ [r] |};
              objects := <[r := m]> (objects self);
              next_object := S r;
              motors := motors self |}).

Definition add_motor (self : MotorManager) (motor_id : Z) : result (nat * MotorManager) :=
  match motors self !! motor_id with
  | Some motor => Ok (motor, self)
  | None =>
      '(motor, self) ← new_Motor self motor_id;
      mret (motor, {| can_hardware := can_hardware self;
                      objects := objects self;
                      next_object := next_object self;
                      motors := <[motor_id := motor]> (motors self) |})
  end.

(** One iteration of the collecting loop; [response_frame] is what
    [receive_frame(timeout=0.1)] returned. *)
Definition scan_step (detected_ids : gset Z) (response_frame : option CANFrame) : gset Z :=
  match response_frame with
  | Some response_frame =>
      match ProtocolDecoder.decode_id_query_response response_frame with
      | Some motor_ids => detected_ids ∪ list_to_set motor_ids
      | None => detected_ids
      end
  | None => detected_ids
  end.

(** [sorted(list(s))]. *)
Definition sorted (s : gset Z) : list Z := merge_sort Z.le (elements s).

(** [polls] lists what each [receive_frame] call of the loop returned, in
    order, until the timeout ended the loop. *)
Definition scan_motors (hw : CANHardware) (polls : list (option CANFrame))
  : list Z * CANHardware :=
  match ProtocolEncoder.encode_query_id with
  | Raise _ => ([], hw)
  | Ok frame =>
      let '(success, hw') := send_frame hw frame in
      if negb success then ([], hw')
      else
        let detected_ids := fold_left scan_step polls ∅ in
        (sorted detected_ids, hw')
  end.

End Transport.

(** * The embedding, continued

    The remaining methods of [CANHardware], [Motor] and [MotorManager]. *)

(** ** [hardware_layer.py]: callback registration *)

Definition add_message_callback (self : CANHardware) (callback : nat) : CANHardware :=
  {| is_connected := is_connected self;
     sent := sent self;
     message_callbacks := message_callbacks self ++ [callback] |}.

(** [l.remove(x)]: drops the first occurrence of [x]. *)
Fixpoint list_remove_first (x : nat) (l : list nat) : list nat :=
  match l with
  | [] => []
  | y :: l' => if Nat.eqb y x then l' else y :: list_remove_first x l'
  end.

Definition remove_message_callback (self : CANHardware) (callback : nat) : CANHardware :=
  if bool_decide (callback ∈ message_callbacks self)
  then {| is_connected := is_connected self;
          sent := sent self;
          message_callbacks := list_remove_first callback (message_callbacks self) |}
  else self.

(** ** [motor_api.py]: status query, enable, observers *)

Definition set_last_status (self : Motor) (status : MotorStatus) : Motor :=
  {| motor_id := motor_id self;
     last_status := Some status;
     is_enabled := is_enabled self;
     last_command_time := last_command_time self;
     max_position_deg := max_position_deg self;
     max_velocity_rpm := max_velocity_rpm self;
     max_current_a := max_current_a self;
     max_torque_nm := max_torque_nm self |}.

Definition set_is_enabled (self : Motor) (b : bool) : Motor :=
  {| motor_id := motor_id self;
     last_status := last_status self;
     is_enabled := b;
     last_command_time := last_command_time self;
     max_position_deg := max_position_deg self;
     max_velocity_rpm := max_velocity_rpm self;
     max_current_a := max_current_a self;
     max_torque_nm := max_torque_nm self |}.

Definition enable (self : Motor) : bool * Motor := (true, set_is_enabled self true).
Definition disable (self : Motor) : bool * Motor := (true, set_is_enabled self false).

(** The waiting loop of [get_status]: [polls] lists what the successive
    [receive_frame(timeout=0.1)] calls return until the timeout; the loop
    returns at the first frame of this motor that decodes. *)
Fixpoint await_status (motor_id : Z) (polls : list (option CANFrame))
  : option MotorStatus :=
  match polls with
  | [] => None
  | response_frame :: polls' =>
      match response_frame with
      | Some response_frame =>
          if arbitration_id response_frame =? motor_id then
            match ProtocolDecoder.decode_feedback response_frame with
            | Ok (Some status) => Some status
            | _ => await_status motor_id polls'
            end
          else await_status motor_id polls'
      | None => await_status motor_id polls'
      end
  end.

Section StatusQuery.
Variable bus_send : CANFrame -> bool.

Definition get_status (self : Motor) (hw : CANHardware)
    (feedback_type : FeedbackType) (polls : list (option CANFrame))
  : option MotorStatus * Motor * CANHardware :=
  match ProtocolEncoder.encode_status_request (motor_id self) feedback_type with
  | Raise _ => (None, self, hw)
  | Ok frame =>
      let '(success, hw') := send_frame bus_send hw frame in
      if negb success then (None, self, hw')
      else
        match await_status (motor_id self) polls with
        | Some status => (Some status, set_last_status self status, hw')
        | None => (None, self, hw')
        end
  end.

End StatusQuery.

(** The two callback dicts of a [Motor].  A callback is known by its
    identity; a dict keeps insertion order, and assigning to a present key
    replaces the value in place. *)
Record Observers : Set := {
  status_callbacks : list (string * nat);
  error_callbacks : list (string * nat)
}.

Fixpoint dict_set (name : string) (callback : nat) (d : list (string * nat))
  : list (string * nat) :=
  match d with
  | [] => [(name, callback)]
  | (name', callback') :: d' =>
      if String.eqb name' name then (name, callback) :: d'
      else (name', callback') :: dict_set name callback d'
  end.

Fixpoint dict_del (name : string) (d : list (string * nat)) : list (string * nat) :=
  match d with
  | [] => []
  | (name', callback') :: d' =>
      if String.eqb name' name then d'
      else (name', callback') :: dict_del name d'
  end.

Definition add_status_callback (obs : Observers) (name : string) (callback : nat) : Observers :=
  {| status_callbacks := dict_set name callback (status_callbacks obs);
     error_callbacks := error_callbacks obs |}.

Definition remove_status_callback (obs : Observers) (name : string) : Observers :=
  {| status_callbacks := dict_del name (status_callbacks obs);
     error_callbacks := error_callbacks obs |}.

Definition add_error_callback (obs : Observers) (name : string) (callback : nat) : Observers :=
  {| status_callbacks := status_callbacks obs;
     error_callbacks := dict_set name callback (error_callbacks obs) |}.

Definition remove_error_callback (obs : Observers) (name : string) : Observers :=
  {| status_callbacks := status_callbacks obs;
     error_callbacks := dict_del name (error_callbacks obs) |}.

(** One call made by [_on_can_message], with the argument as the callback
    finds it. *)
Inductive notification : Set :=
| StatusNotified (callback : nat) (status : MotorStatus)
| ErrorNotified (callback : nat) (code : ErrorCode).

(** The method with observers that leave the motor, its callback dicts and
    the status object alone and raise nothing but an [Exception], which the
    method catches: every registered callback is then called.
    [Reacting._on_can_message] below is the method without that
    assumption. *)
Definition _on_can_message (self : Motor) (obs : Observers) (frame : CANFrame)
  : Motor * list notification :=
  if negb (arbitration_id frame =? motor_id self) then (self, [])
  else
    match ProtocolDecoder.decode_feedback frame with
    | Ok (Some status) =>
        let self := set_last_status self status in
        let calls :=
          map (fun entry => StatusNotified (snd entry) status) (status_callbacks obs) in
        if has_error status
        then (self,
              calls ++ map (fun entry => ErrorNotified (snd entry) (error_code status))
                           (error_callbacks obs))
        else (self, calls)
    | _ => (self, [])
    end.

(** ** [motor_api.py]: [_on_can_message] with observers that act

    A callback is code of the caller.  Of what it may do, the method goes
    on to read: the two callback dicts, which it iterates live, and the
    status object, which it handed out, which [last_status] refers to, and
    whose [error_code] it reads after the status callbacks have run.
    - Only the call itself is inside [try]; the loop header is not.  A
      dict's iterator checks, at every step and before anything else, that
      the dict still has the size it had when the loop began, and raises
      [RuntimeError] otherwise; that exception leaves the method.
    - [except Exception] catches what derives from [Exception]; a
      [KeyboardInterrupt] or [SystemExit] raised by a callback leaves the
      method.
    An observer is modelled by its [reaction] to the world it finds: at
    most one registration call on the motor or one overwrite of the status
    object, and the way its call ends.  (Several registration calls in one
    callback can keep the size while changing the keys, where what the
    iterator meets depends on the dict's internal layout; that is outside
    the model, as are changes to other fields of the motor.) *)
Module Reacting.

Inductive action : Set :=
| Nothing
| AddStatusCallback (name : string) (callback : nat)
| RemoveStatusCallback (name : string)
| AddErrorCallback (name : string) (callback : nat)
| RemoveErrorCallback (name : string)
| Mutate (f : MotorStatus -> MotorStatus).

Inductive ending : Set := Returns | RaisesException | RaisesBaseException.

Record reaction : Set := { does : action; ends : ending }.

(** The status object and the motor's two dicts. *)
Record world : Set := { w_status : MotorStatus; w_observers : Observers }.

Definition act (a : action) (w : world) : world :=
  match a with
  | Nothing => w
  | AddStatusCallback name callback =>
      {| w_status := w_status w;
         w_observers := add_status_callback (w_observers w) name callback |}
  | RemoveStatusCallback name =>
      {| w_status := w_status w;
         w_observers := remove_status_callback (w_observers w) name |}
  | AddErrorCallback name callback =>
      {| w_status := w_status w;
         w_observers := add_error_callback (w_observers w) name callback |}
  | RemoveErrorCallback name =>
      {| w_status := w_status w;
         w_observers := remove_error_callback (w_observers w) name |}
  | Mutate f => {| w_status := f (w_status w); w_observers := w_observers w |}
  end.

Inductive dict_kind : Set := StatusCallbacks | ErrorCallbacks.

Definition callbacks (kind : dict_kind) (obs : Observers) : list (string * nat) :=
  match kind with
  | StatusCallbacks => status_callbacks obs
  | ErrorCallbacks => error_callbacks obs
  end.

(** [callback(status)] and [callback(status.error_code)]. *)
Definition call (kind : dict_kind) (callback : nat) (status : MotorStatus)
  : notification :=
  match kind with
  | StatusCallbacks => StatusNotified callback status
  | ErrorCallbacks => ErrorNotified callback (error_code status)
  end.

(** How the method ends: it returns, [RuntimeError] leaves it, or an
    exception of a callback that is no [Exception] leaves it. *)
Inductive completion : Set := Completes | RuntimeError | Propagates.

Record outcome : Set := {
  o_motor : Motor;
  o_observers : Observers;
  o_calls : list notification;
  o_exit : completion
}.

Section Method.
Variable react : dict_kind -> nat -> world -> reaction.

(** [for callback in self.<kind>.values(): try: callback(...) except
    Exception: ...] over the live dict; [size] is the dict's size when the
    loop began and [remaining] counts the entries not yet visited. *)
Fixpoint fan_out (kind : dict_kind) (size remaining : nat) (w : world)
  : world * list notification * completion :=
  if negb (length (callbacks kind (w_observers w)) =? size)%nat
  then (w, [], RuntimeError)
  else
    match remaining with
    | O => (w, [], Completes)
    | S remaining' =>
        match callbacks kind (w_observers w) !! (size - S remaining')%nat with
        | None => (w, [], Completes)
        | Some (_, callback) =>
            let r := react kind callback w in
            let w' := act (does r) w in
            let n := call kind callback (w_status w) in
            match ends r with
            | RaisesBaseException => (w', [n], Propagates)
            | _ =>
                let '(w'', calls, c) := fan_out kind size remaining' w' in
                (w'', n :: calls, c)
            end
        end
    end.

(** [last_status] is the status object itself: what an observer writes to
    it shows there. *)
Definition _on_can_message (self : Motor) (obs : Observers) (frame : CANFrame)
  : outcome :=
  if negb (arbitration_id frame =? motor_id self)
  then {| o_motor := self; o_observers := obs; o_calls := []; o_exit := Completes |}
  else
    match ProtocolDecoder.decode_feedback frame with
    | Ok (Some status) =>
        let w := {| w_status := status; w_observers := obs |} in
        let size := length (status_callbacks obs) in
        let '(w, calls, c) := fan_out StatusCallbacks size size w in
        match c with
        | Completes =>
            if has_error (w_status w) then
              let size := length (error_callbacks (w_observers w)) in
              let '(w', calls', c') := fan_out ErrorCallbacks size size w in
              {| o_motor := set_last_status self (w_status w');
                 o_observers := w_observers w';
                 o_calls := calls ++ calls';
                 o_exit := c' |}
            else
              {| o_motor := set_last_status self (w_status w);
                 o_observers := w_observers w;
                 o_calls := calls;
                 o_exit := Completes |}
        | _ =>
            {| o_motor := set_last_status self (w_status w);
               o_observers := w_observers w;
               o_calls := calls;
               o_exit := c |}
        end
    | _ => {| o_motor := self; o_observers := obs; o_calls := []; o_exit := Completes |}
    end.

End Method.

End Reacting.

(** ** [motor_api.py]: the rest of [MotorManager] *)

Definition remove_motor (self : MotorManager) (motor_id : Z) : MotorManager :=
  match motors self !! motor_id with
  | Some _ =>
      {| can_hardware := can_hardware self;
         objects := objects self;
         next_object := next_object self;
         motors := delete motor_id (motors self) |}
  | None => self
  end.

Definition get_motor (self : MotorManager) (motor_id : Z) : option nat :=
  motors self !! motor_id.

(** ** [hardware_layer.py]: the receive loop

    One message taken from the bus by [_receive_loop].  Building the
    [CANFrame] raises on more than eight bytes and the loop goes on to the
    next message; otherwise every registered handler is called with the
    frame, in registration order.  The handlers are the [_on_can_message]
    of the [Motor] objects of the store, taken with callbacks that leave
    the status object alone; what a handler raises is caught by the loop.
    [observers] gives the callback dicts of each object.  The frame also
    enters the receive queue, which the polling methods see as their
    [polls]. *)
Definition handle (observers : nat -> Observers) (frame : CANFrame)
    (objects : gmap nat Motor) (callback : nat) : gmap nat Motor :=
  match objects !! callback with
  | Some motor =>
      <[callback := fst (_on_can_message motor (observers callback) frame)]> objects
  | None => objects
  end.

Definition _receive_loop_message (observers : nat -> Observers)
    (self : MotorManager) (msg : CANFrame) : MotorManager :=
  if (8 <? length (data msg))%nat then self
  else
    let frame := {| arbitration_id := arbitration_id msg;
                    data := data msg;
                    is_extended := is_extended msg |} in
    {| can_hardware := can_hardware self;
       objects := fold_left (handle observers frame)
                            (message_callbacks (can_hardware self)) (objects self);
       next_object := next_object self;
       motors := motors self |}.

(** * Vocabulary of the properties

    Readings of a frame, the specification's own wording of some
    computations, and the concrete motors, transports and frames the
    statements below are instantiated at. *)

(** The payload byte at index [i] ([0] past the end), and the dispatch key
    of a frame. *)
Definition frame_byte (f : CANFrame) (i : nat) : Z :=
  default 0 (Z_of_byte <$> data f !! i).

Definition frame_kind (f : CANFrame) : option Z :=
  (fun b => ProtocolDecoder.feedback_type_code (Z_of_byte b)) <$> data f !! 0%nat.

(** Following the specification's words: the fixed priority order, first
    matching bit wins. *)
Definition error_priority : list (Z * ErrorCode) :=
  [ (0x01, OVER_VOLTAGE); (0x02, UNDER_VOLTAGE); (0x04, OVER_CURRENT);
    (0x08, OVER_TEMPERATURE); (0x10, ENCODER_ERROR); (0x20, HALL_ERROR) ].

Definition first_matching_error (error_byte : Z) : ErrorCode :=
  match List.find (fun p => ProtocolDecoder.bit_set error_byte (fst p)) error_priority with
  | Some p => snd p
  | None => if error_byte =? 0 then NO_ERROR else UNKNOWN_ERROR
  end.

(** The unsigned big-endian reading of two bytes. *)
Definition u16_be (hi lo : Z) : Z := hi * 256 + lo.

Definition frame_error_05 : CANFrame :=
  {| arbitration_id := 1;
     data := [xa0; x05; x00; x00; x00; x00; x00; x00];
     is_extended := false |}.

Definition frame_short : CANFrame :=
  {| arbitration_id := 1; data := [x20; x10; x00]; is_extended := false |}.

Definition frame_key7 : CANFrame :=
  {| arbitration_id := 1;
     data := [xe0; x10; x00; x01; x00; x00; x10; x1e];
     is_extended := false |}.

(** Following the specification's words: the position field times a
    position LSB of 2π/65536 rad, converted to degrees. *)
Definition spec_position_deg (pos_raw : Z) : float :=
  Py.degrees (Py.float_of_int pos_raw * (2 * Py.math_pi / 65536))%float.

(** What the decoder computes: the LSB is the constant
    [POSITION_SCALE = 6.28318 / 65536]. *)
Definition code_position_deg (pos_raw : Z) : float :=
  Py.degrees (Py.float_of_int pos_raw * (6.28318 / 65536))%float.

Definition frame_half_turn : CANFrame :=
  {| arbitration_id := 1;
     data := [x20; x80; x00; x00; x00; x00; x00; x00];
     is_extended := false |}.

Definition frame_type1_test : CANFrame :=
  {| arbitration_id := 1;
     data := [x20; x10; x00; x01; x00; x00; x10; x1e];
     is_extended := false |}.

Definition is_address (z : Z) : Prop := 1 <= z <= 32.

#[global] Instance is_address_dec z : Decision (is_address z).
Proof. unfold is_address. apply _. Defined.

(** The payload as integers, and the set of its values in [1, 32]. *)
Definition payload (f : CANFrame) : list Z := Z_of_byte <$> data f.

Definition payload_addresses (f : CANFrame) : gset Z :=
  filter is_address (list_to_set (payload f)).

Definition frame_discovery : CANFrame :=
  {| arbitration_id := 0;
     data := [x55; x03; x00; x03; x21; x01; x20; xaa];
     is_extended := false |}.

Definition frame_not_discovery : CANFrame :=
  {| arbitration_id := 5;
     data := [x01; x02; x03; x00; x00; x00; x00; x00];
     is_extended := false |}.

(** [fexp] at single precision, and the test for an infinity. *)
Definition fexp32 (x : Z) : Z := Z.max (x - 24) (-149).

Definition is_infinity (x : spec_float) : bool :=
  match x with S754_infinity _ => true | _ => false end.

(** Bits [lo .. lo + n - 1] of [w]. *)
Definition bit_field (w lo n : Z) : Z := Z.land (Z.shiftr w lo) (Z.ones n).

(** The value of [int(x)] when it does not raise. *)
Definition trunc (x : float) : Z :=
  match Py.int_of_float x with
  | Ok z => z
  | Raise _ => 0
  end.

Definition command_word (kp_int kd_int pos_int vel_int tor_int : Z) : Z :=
  kp_int * 2 ^ 52 + kd_int * 2 ^ 43 + pos_int * 2 ^ 27
  + vel_int * 2 ^ 16 + tor_int * 2 ^ 5.

(** The hardware after [frame] went out. *)
Definition hw_sent (hw : CANHardware) (frame : CANFrame) : CANHardware :=
  {| is_connected := is_connected hw;
     sent := sent hw ++ [frame];
     message_callbacks := message_callbacks hw |}.

(** The [try] block of [set_position] and [set_velocity] once the frame
    expression has been evaluated to [r]. *)
Definition send_stage (bus_send : CANFrame -> bool) (self : Motor) (hw : CANHardware)
    (now : float) (r : result CANFrame) : bool * Motor * CANHardware :=
  match r with
  | Raise _ => (false, self, hw)
  | Ok frame =>
      if is_connected hw && bus_send frame
      then (true, set_last_command_time self now, hw_sent hw frame)
      else (false, self, hw)
  end.

Definition accept_all (_ : CANFrame) : bool := true.

Definition hw_up : CANHardware :=
  {| is_connected := true; sent := []; message_callbacks := [] |}.

(** Motor 1 as [Motor.__init__] leaves it. *)
Definition motor_1 : Motor :=
  {| motor_id := 1; last_status := None; is_enabled := false;
     last_command_time := 0;
     max_position_deg := 360; max_velocity_rpm := 1000;
     max_current_a := 10; max_torque_nm := 5 |}.

(** Motor 1 after [motor.max_position_deg = 90.0]. *)
Definition motor_1_max_90 : Motor := set_max_position_deg motor_1 90.

Definition manager_empty : MotorManager :=
  {| can_hardware := hw_up; objects := ∅; next_object := 0; motors := ∅ |}.

Definition manager_with_3 : MotorManager :=
  match add_motor manager_empty 3 with
  | Ok (_, self) => self
  | Raise _ => manager_empty
  end.

(** Following the specification's words: [round(x)], the nearest integer
    with ties to even, where the encoder has [int(x)]. *)
Definition py_round (x : float) : result Z :=
  match Prim2SF x with
  | S754_nan => Raise ValueError
  | S754_infinity _ => Raise OverflowError
  | S754_zero _ => Ok 0
  | S754_finite s m e =>
      if 0 <=? e then Ok (cond_Zopp s (Z.shiftl (Zpos m) e))
      else
        let q := Z.shiftr (Zpos m) (- e) in
        let r := Zpos m - Z.shiftl q (- e) in
        let half := Z.shiftl 1 (- e - 1) in
        let n := if r <? half then q
                 else if half <? r then q + 1
                 else if Z.even q then q else q + 1 in
        Ok (cond_Zopp s n)
  end.

(** The payload the specification's words describe. *)
Definition spec_servo_position_payload
    (position speed_limit current_limit : float) : result (list byte) :=
  pos_bytes ← float_to_bytes (Py.radians position);
  speed ← py_round (speed_limit * 10)%float;
  current ← py_round (current_limit * 100)%float;
  mret (pos_bytes ++ big_endian 2 (Py.clamp 0 65535 speed)
                  ++ big_endian 2 (Py.clamp 0 65535 current)).

(** What a motor command may do: nothing at all and return [False], or
    send one eight-byte frame addressed to the motor and return [True]; it
    never touches the id or the safety limits. *)
Definition same_settings (self self' : Motor) : Prop :=
  motor_id self' = motor_id self
  /\ max_position_deg self' = max_position_deg self
  /\ max_velocity_rpm self' = max_velocity_rpm self
  /\ max_current_a self' = max_current_a self
  /\ max_torque_nm self' = max_torque_nm self
  /\ last_status self' = last_status self
  /\ is_enabled self' = is_enabled self.

Definition command_outcome (self : Motor) (hw : CANHardware)
    (r : bool * Motor * CANHardware) : Prop :=
  match r with
  | (true, self', hw') =>
      same_settings self self'
      /\ exists frame,
           hw' = hw_sent hw frame
           /\ arbitration_id frame = motor_id self
           /\ length (data frame) = 8%nat
  | (false, self', hw') => self' = self /\ hw' = hw
  end.

Definition zero_payload : list byte := [x00; x00; x00; x00; x00; x00; x00; x00].

(** Motor 1 with a negative velocity limit. *)
Definition motor_1_negative_limit : Motor :=
  {| motor_id := 1; last_status := None; is_enabled := false;
     last_command_time := 0;
     max_position_deg := 360; max_velocity_rpm := -1;
     max_current_a := 10; max_torque_nm := 5 |}.

(** The feedback type a dispatch key selects. *)
Definition FeedbackType_of_key (k : Z) : option FeedbackType :=
  if k =? 1 then Some TYPE_1
  else if k =? 2 then Some TYPE_2
  else if k =? 3 then Some TYPE_3
  else if k =? 4 then Some TYPE_4
  else if k =? 5 then Some TYPE_5
  else None.

Definition frame_type2_test : CANFrame :=
  {| arbitration_id := 7;
     data := [x40; x40; x00; xff; xff; x01; x23; x28];
     is_extended := false |}.

Definition frame_type3_test : CANFrame :=
  {| arbitration_id := 7;
     data := [x60; x3f; xc9; x0f; xdb; x11; x22; x33];
     is_extended := false |}.

Definition frame_type4_test : CANFrame :=
  {| arbitration_id := 7;
     data := [x80; x3f; x00; xf0; x00; x00; x00; x00];
     is_extended := false |}.

(** A poll that [get_status] of motor [id] passes over: a timeout, a frame
    of another motor, or a frame that does not decode. *)
Definition passed_over (id : Z) (poll : option CANFrame) : Prop :=
  match poll with
  | None => True
  | Some frame =>
      arbitration_id frame <> id
      \/ ProtocolDecoder.decode_feedback frame = Ok None
  end.

(** The request frame of [get_status]. *)
Definition status_request_frame (id : Z) (t : FeedbackType) : CANFrame :=
  {| arbitration_id := id;
     data := [xaa; x55; byte_of_Z (FeedbackType_value t); x00; x00; x00; x00; x00];
     is_extended := false |}.

Definition frame_type1_motor_1 : CANFrame :=
  {| arbitration_id := 1;
     data := [x20; x10; x00; x01; x00; x00; x10; x1e];
     is_extended := false |}.

Definition frame_type2_motor_1 : CANFrame :=
  {| arbitration_id := 1;
     data := [x40; x40; x00; xff; xff; x01; x23; x28];
     is_extended := false |}.

(** What [frame_type1_motor_1] decodes to. *)
Definition status_type1_motor_1 : MotorStatus :=
  {| status_motor_id := 1;
     position := code_position_deg 0x1000;
     velocity := (Py.float_of_int 0x0100 * 0.1)%float;
     current := 0;
     torque := (Py.float_of_int 0x0010 * 0.01)%float;
     temperature := (Py.float_of_int 0x1e * 0.1)%float;
     error_code := NO_ERROR;
     voltage := 0;
     feedback_type := Some TYPE_1 |}.

(** The status an echoed status request decodes to. *)
Definition echo_status (id : Z) : MotorStatus :=
  {| status_motor_id := id;
     position := 0; velocity := 0; current := 0; torque := 0; temperature := 0;
     error_code := OVER_VOLTAGE;
     voltage := 0;
     feedback_type := Some TYPE_5 |}.

Definition frame_motor_2 : CANFrame :=
  {| arbitration_id := 2;
     data := [x20; x10; x00; x01; x00; x00; x10; x1e];
     is_extended := false |}.

Definition frame_key0_motor_1 : CANFrame :=
  {| arbitration_id := 1;
     data := [x00; x10; x00; x01; x00; x00; x10; x1e];
     is_extended := false |}.

(** The names of a callback dict. *)
Definition dict_keys (d : list (string * nat)) : list string := map fst d.

Definition observers_two : Observers :=
  {| status_callbacks := [("log"%string, 10%nat); ("ui"%string, 11%nat)];
     error_callbacks := [("alarm"%string, 20%nat)] |}.

(** What a manager built by [add_motor] and [remove_motor] keeps true:
    every entry of [motors] leads to a live [Motor] that carries the key
    as its id, an address, and whose handler is registered with the
    hardware; every live object was allocated before [next_object]. *)
Definition registry_inv (self : MotorManager) : Prop :=
  (forall id r, motors self !! id = Some r ->
     is_address id
     /\ (exists m, objects self !! r = Some m /\ motor_id m = id)
     /\ r ∈ message_callbacks (can_hardware self))
  /\ (forall r, is_Some (objects self !! r) -> (r < next_object self)%nat).

(** The discovery query, and what a scan hears: [id] is an address found
    in the payload of a polled frame sent to 0x000. *)
Definition query_frame : CANFrame :=
  {| arbitration_id := 0;
     data := [x55; xaa; x00; x00; x00; x00; x00; x00];
     is_extended := false |}.

Definition heard (polls : list (option CANFrame)) (id : Z) : Prop :=
  exists f, Some f ∈ polls /\ arbitration_id f = 0 /\ id ∈ payload f /\ is_address id.

Definition reset_payload (new_id : Z) : list Z :=
  [0x55; 0xAA; 0x55; 0xAA; new_id; 0x00; 0x00; 0x00].

(** [lo <= x <= hi] on floats (false on a NaN), and a check of a
    predicate on every integer below [n]. *)
Definition withinb (lo hi x : float) : bool := PrimFloat.leb lo x && PrimFloat.leb x hi.

Definition within (lo hi x : float) : Prop := withinb lo hi x = true.

Fixpoint all_below (n : nat) (P : Z -> bool) : bool :=
  match n with
  | O => true
  | S n' => P (Z.of_nat n') && all_below n' P
  end.

Definition all_u16 (P : Z -> bool) : bool :=
  all_below 256 (fun hi => all_below 256 (fun lo => P (u16_be hi lo))).

(** The outcome of a command with the motor's [is_enabled] overwritten. *)
Definition with_flag (b : bool) (r : bool * Motor * CANHardware)
  : bool * Motor * CANHardware :=
  let '(success, self, hw) := r in (success, set_is_enabled self b, hw).

(** How often handler [c] is registered. *)
Definition registrations (c : nat) (hw : CANHardware) : nat :=
  count_occ Nat.eq_dec (message_callbacks hw) c.

Definition hw_two_handlers : CANHardware :=
  add_message_callback (add_message_callback hw_up 4) 4.

(** The motor after its handler has seen [frame]. *)
Definition status_after (frame : CANFrame) (self : Motor) : Motor :=
  if arbitration_id frame =? motor_id self then
    match ProtocolDecoder.decode_feedback frame with
    | Ok (Some status) => set_last_status self status
    | _ => self
    end
  else self.

Definition no_observers (_ : nat) : Observers :=
  {| status_callbacks := []; error_callbacks := [] |}.

Definition frame_type1_motor_3 : CANFrame :=
  {| arbitration_id := 3;
     data := [x20; x10; x00; x01; x00; x00; x10; x1e];
     is_extended := false |}.

(** An observer is quiet when it leaves the motor alone and raises
    nothing that the method does not catch. *)
Definition quiet (r : Reacting.reaction) : Prop :=
  Reacting.does r = Reacting.Nothing
  /\ Reacting.ends r <> Reacting.RaisesBaseException.

Definition quiet_at
    (react : Reacting.dict_kind -> nat -> Reacting.world -> Reacting.reaction)
    (kind : Reacting.dict_kind) (w : Reacting.world)
    (entries : list (string * nat)) : Prop :=
  Forall (fun entry => quiet (react kind (snd entry) w)) entries.

Definition calm : Reacting.reaction :=
  {| Reacting.does := Reacting.Nothing; Reacting.ends := Reacting.Returns |}.

Definition react_calm
  : Reacting.dict_kind -> nat -> Reacting.world -> Reacting.reaction :=
  fun _ _ _ => calm.

(** Observer 10, told of a status, unsubscribes its name ["log"]. *)
Definition react_unsubscribe
  : Reacting.dict_kind -> nat -> Reacting.world -> Reacting.reaction :=
  fun kind callback _ =>
    match kind with
    | Reacting.StatusCallbacks =>
        if (callback =? 10)%nat
        then {| Reacting.does := Reacting.RemoveStatusCallback "log";
                Reacting.ends := Reacting.Returns |}
        else calm
    | Reacting.ErrorCallbacks => calm
    end.

(** [status.error_code = ErrorCode.NO_ERROR]. *)
Definition clear_error (status : MotorStatus) : MotorStatus :=
  {| status_motor_id := status_motor_id status;
     position := position status;
     velocity := velocity status;
     current := current status;
     torque := torque status;
     temperature := temperature status;
     error_code := NO_ERROR;
     voltage := voltage status;
     feedback_type := feedback_type status |}.

(** Observer 11, told of a status, clears its error code. *)
Definition react_clear_error
  : Reacting.dict_kind -> nat -> Reacting.world -> Reacting.reaction :=
  fun kind callback _ =>
    match kind with
    | Reacting.StatusCallbacks =>
        if (callback =? 11)%nat
        then {| Reacting.does := Reacting.Mutate clear_error;
                Reacting.ends := Reacting.Returns |}
        else calm
    | Reacting.ErrorCallbacks => calm
    end.

Definition status_error_05 : MotorStatus :=
  {| status_motor_id := 1;
     position := 0; velocity := 0; current := 0; torque := 0; temperature := 0;
     error_code := OVER_VOLTAGE;
     voltage := 0;
     feedback_type := Some TYPE_5 |}.

(** * Properties *)

Example float_to_bytes_pi_2 :
  float_to_bytes (Py.radians 90) = Ok [x3f; xc9; x0f; xdb].
Proof. vm_compute. reflexivity. Qed.

Example encode_servo_position_test :
  data <$> (match ProtocolEncoder.encode_servo_position_command 1 90 100 3 with
            | Ok f => Some f | Raise _ => None end)
  = Some [x3f; xc9; x0f; xdb; x03; xe8; x01; x2c].
Proof. vm_compute. reflexivity. Qed.

Example encode_query_id_test :
  ProtocolEncoder.encode_query_id
  = Ok {| arbitration_id := 0;
          data := [x55; xaa; x00; x00; x00; x00; x00; x00];
          is_extended := false |}.
Proof. reflexivity. Qed.

Example encode_set_zero_point_test :
  ProtocolEncoder.encode_set_zero_point 1
  = Ok {| arbitration_id := 1;
          data := [x55; xaa; x00; x00; x00; x00; x00; x00];
          is_extended := false |}.
Proof. reflexivity. Qed.

(** ** Bytes and frames *)

Lemma Z_of_byte_range (b : byte) : 0 <= Z_of_byte b < 256.
Proof.
  unfold Z_of_byte. pose proof (Byte.to_N_bounded b). lia.
Qed.

Lemma Z_of_byte_of_Z (z : Z) : Z_of_byte (byte_of_Z z) = z mod 256.
Proof.
  unfold Z_of_byte, byte_of_Z.
  assert (Hr : 0 <= z mod 256 < 256) by (apply Z.mod_pos_bound; lia).
  destruct (Byte.of_N (Z.to_N (z mod 256))) as [b|] eqn:E.
  - simpl. apply Byte.to_of_N in E. rewrite E. lia.
  - apply Byte.of_N_None_iff in E. lia.
Qed.

Lemma byte_of_Z_of_byte (b : byte) : byte_of_Z (Z_of_byte b) = b.
Proof.
  unfold byte_of_Z. rewrite Z.mod_small by apply Z_of_byte_range.
  unfold Z_of_byte. rewrite N2Z.id, Byte.of_to_N. reflexivity.
Qed.

(** Every frame the constructor returns satisfies the length invariant. *)
Lemma CANFrame_init_wf (id : Z) (d : list byte) (f : CANFrame) :
  CANFrame_init id d = Ok f -> frame_wf f.
Proof.
  unfold CANFrame_init, frame_wf.
  destruct (Nat.ltb_spec 8 (length d)) as [Hlong|Hfit]; [discriminate|].
  intros Hinit. injection Hinit as <-. cbn [data]. lia.
Qed.

Lemma length_8_inv {A} (l : list A) :
  length l = 8%nat ->
  exists a0 a1 a2 a3 a4 a5 a6 a7, l = [a0; a1; a2; a3; a4; a5; a6; a7].
Proof.
  intros H.
  do 8 (destruct l as [|? l]; [discriminate H|]).
  destruct l; [|discriminate H]. eauto 10.
Qed.

(** ** Integer layout lemmas *)

Lemma lor_shifted_add (hi lo n : Z) :
  0 <= n -> 0 <= lo < 2 ^ n -> Z.lor (hi * 2 ^ n) lo = hi * 2 ^ n + lo.
Proof.
  intros Hn Hlo.
  assert (Hdisj : Z.land (hi * 2 ^ n) lo = 0).
  { destruct (Z.eq_dec lo 0) as [->|Hnz]; [apply Z.land_0_r|].
    apply Z.bits_inj'. intros k Hk. rewrite Z.land_spec, Z.bits_0.
    destruct (Z.lt_ge_cases k n).
    - rewrite Z.mul_pow2_bits_low by lia. reflexivity.
    - rewrite (Z.bits_above_log2 lo k), andb_false_r; [reflexivity|lia|].
      apply Z.lt_le_trans with n; [|lia].
      apply Z.log2_lt_pow2; lia. }
  rewrite <- Z.lxor_lor by exact Hdisj.
  symmetry. apply Z.add_nocarry_lxor, Hdisj.
Qed.

(** [(hi << 8) | lo] is the big-endian reading of two bytes. *)
Lemma shift_or_bytes (hi lo : Z) :
  0 <= hi < 256 -> 0 <= lo < 256 ->
  Z.lor (Z.shiftl hi 8) lo = hi * 256 + lo.
Proof.
  intros Hhi Hlo. rewrite Z.shiftl_mul_pow2 by lia.
  rewrite lor_shifted_add; [reflexivity|lia|]. change (2 ^ 8) with 256. lia.
Qed.

Lemma land_mask_small (x n : Z) :
  0 <= n -> 0 <= x < 2 ^ n -> Z.land x (Z.ones n) = x.
Proof. intros Hn Hx. rewrite Z.land_ones by lia. apply Z.mod_small, Hx. Qed.

Lemma bit_field_middle (u x r lo n : Z) :
  0 <= lo -> 0 <= n -> 0 <= r < 2 ^ lo -> 0 <= x < 2 ^ n ->
  bit_field ((u * 2 ^ n + x) * 2 ^ lo + r) lo n = x.
Proof.
  intros Hlo Hn Hr Hx. unfold bit_field.
  rewrite Z.shiftr_div_pow2, Z.land_ones by lia.
  rewrite Z.div_add_l by lia. rewrite (Z.div_small r) by lia.
  rewrite Z.add_0_r, Z.add_comm, Z.mod_add by lia.
  apply Z.mod_small, Hx.
Qed.

Lemma fold_big_endian (n : nat) (w acc : Z) :
  fold_left (fun acc b => acc * 256 + Z_of_byte b) (big_endian n w) acc
  = acc * 256 ^ Z.of_nat n + w mod 256 ^ Z.of_nat n.
Proof.
  revert acc. induction n as [|n IH]; intros acc.
  - cbn [big_endian fold_left]. change (256 ^ Z.of_nat 0) with 1.
    rewrite Z.mod_1_r. lia.
  - cbn [big_endian fold_left]. rewrite IH, Z_of_byte_of_Z.
    rewrite Z.shiftr_div_pow2 by lia.
    replace (2 ^ (8 * Z.of_nat n)) with (256 ^ Z.of_nat n)
      by (change 256 with (2 ^ 8); rewrite <- Z.pow_mul_r by lia; reflexivity).
    rewrite Nat2Z.inj_succ, Z.pow_succ_r by lia.
    assert (Hp : 0 < 256 ^ Z.of_nat n) by (apply Z.pow_pos_nonneg; lia).
    rewrite (Z.mul_comm 256 (256 ^ Z.of_nat n)).
    rewrite (Z.rem_mul_r w (256 ^ Z.of_nat n) 256) by lia.
    lia.
Qed.

(** Reading back the big-endian bytes of [w] gives [w]. *)
Lemma int_from_bytes_big_endian (n : nat) (w : Z) :
  0 <= w < 256 ^ Z.of_nat n ->
  int_from_bytes_big (big_endian n w) = w.
Proof.
  intros Hw. unfold int_from_bytes_big. rewrite fold_big_endian.
  rewrite Z.mod_small by exact Hw. lia.
Qed.

Lemma length_big_endian (n : nat) (w : Z) : length (big_endian n w) = n.
Proof. induction n as [|n IH]; cbn [big_endian length]; congruence. Qed.

Lemma byte_of_Z_land (z : Z) : byte_of_Z (Z.land z 0xFF) = byte_of_Z z.
Proof.
  unfold byte_of_Z. change 0xFF with (Z.ones 8).
  rewrite Z.land_ones by lia. change (2 ^ 8) with 256.
  rewrite Z.mod_mod by lia. reflexivity.
Qed.

Lemma land_FF_range (z : Z) : 0 <= Z.land z 0xFF < 256.
Proof.
  change 0xFF with (Z.ones 8). rewrite Z.land_ones by lia.
  apply Z.mod_pos_bound. reflexivity.
Qed.

(** The loop that splits the command word yields its big-endian bytes. *)
Lemma bytes_of_split_bytes (w : Z) :
  bytes_of_ints (ProtocolEncoder.split_bytes w) = Ok (big_endian 8 w).
Proof.
  change (bytes_of_ints
            [Z.land (Z.shiftr w 56) 0xFF; Z.land (Z.shiftr w 48) 0xFF;
             Z.land (Z.shiftr w 40) 0xFF; Z.land (Z.shiftr w 32) 0xFF;
             Z.land (Z.shiftr w 24) 0xFF; Z.land (Z.shiftr w 16) 0xFF;
             Z.land (Z.shiftr w 8) 0xFF; Z.land (Z.shiftr w 0) 0xFF]
          = Ok [byte_of_Z (Z.shiftr w 56); byte_of_Z (Z.shiftr w 48);
                byte_of_Z (Z.shiftr w 40); byte_of_Z (Z.shiftr w 32);
                byte_of_Z (Z.shiftr w 24); byte_of_Z (Z.shiftr w 16);
                byte_of_Z (Z.shiftr w 8); byte_of_Z (Z.shiftr w 0)]).
  cbn [bytes_of_ints].
  repeat match goal with
  | |- context [(0 <=? Z.land ?z 255) && (Z.land ?z 255 <? 256)] =>
      let H := fresh in
      pose proof (land_FF_range z) as H;
      replace ((0 <=? Z.land z 255) && (Z.land z 255 <? 256)) with true
        by (symmetry; apply andb_true_iff; split; [apply Z.leb_le|apply Z.ltb_lt]; lia);
      clear H
  end.
  cbn [mbind result_bind mret result_ret].
  rewrite !byte_of_Z_land. reflexivity.
Qed.

(** ** Comparison and subtraction of doubles *)

Lemma SFcompare_antisym (x y : spec_float) :
  SFcompare y x = option_map CompOpp (SFcompare x y).
Proof.
  destruct x as [sx|sx| |sx mx ex], y as [sy|sy| |sy my ey];
    cbn [SFcompare option_map]; try reflexivity;
    try (destruct sx; reflexivity); try (destruct sy; reflexivity);
    try (destruct sx, sy; reflexivity).
  destruct sx, sy; cbn [CompOpp]; try reflexivity;
    rewrite (Z.compare_antisym ex ey);
    destruct (ex ?= ey); cbn [CompOpp]; try reflexivity;
    change (Pos.compare_cont Eq mx my) with (Pos.compare mx my);
    change (Pos.compare_cont Eq my mx) with (Pos.compare my mx);
    rewrite (Pos.compare_antisym mx my);
    destruct (Pos.compare mx my); reflexivity.
Qed.

(** [x <= y] excludes [x > y]. *)
Lemma leb_not_gt (x y : float) :
  PrimFloat.leb x y = true -> Py.gt x y = false.
Proof.
  unfold Py.gt. rewrite FloatAxioms.leb_spec, FloatAxioms.ltb_spec. unfold SFleb, SFltb.
  rewrite (SFcompare_antisym (Prim2SF x) (Prim2SF y)).
  destruct (SFcompare (Prim2SF x) (Prim2SF y)) as [[ | | ]|];
    cbn [option_map CompOpp]; intros H; try discriminate H; reflexivity.
Qed.

(** [x > y] excludes [x < y]. *)
Lemma gt_not_lt (x y : float) :
  Py.gt x y = true -> Py.lt x y = false.
Proof.
  unfold Py.gt, Py.lt. rewrite !FloatAxioms.ltb_spec. unfold SFltb.
  rewrite (SFcompare_antisym (Prim2SF x) (Prim2SF y)).
  destruct (SFcompare (Prim2SF x) (Prim2SF y)) as [[ | | ]|];
    cbn [option_map CompOpp]; intros H; try discriminate H; reflexivity.
Qed.

(** A finite double minus itself is [+0.0]. *)
Lemma sub_diag_finite (x : float) :
  Py.is_finite x = true -> Prim2SF (x - x)%float = S754_zero false.
Proof.
  unfold Py.is_finite. rewrite FloatAxioms.sub_spec. unfold SF64sub.
  destruct (Prim2SF x) as [s|s| |s m e]; intros H; try discriminate H.
  - destruct s; reflexivity.
  - cbn [SFsub]. rewrite Z.sub_diag. reflexivity.
Qed.

Lemma zero_lt_window (x : float) :
  Prim2SF x = S754_zero false -> Py.lt x 0.5 = true.
Proof.
  intros H. unfold Py.lt. rewrite FloatAxioms.ltb_spec, H. vm_compute. reflexivity.
Qed.

(** ** Single-precision range

    A double of magnitude at most 1000 rounds to a finite single, so
    [struct.pack('>f', _)] does not raise on it. *)

Lemma digits2_pos_succ_le (p : positive) :
  Zpos (digits2_pos (Pos.succ p)) <= Zpos (digits2_pos p) + 1.
Proof.
  induction p as [p IH|p IH|].
  - change (Pos.succ (xI p)) with (xO (Pos.succ p)).
    cbn [digits2_pos]. rewrite !Pos2Z.inj_succ. lia.
  - change (Pos.succ (xO p)) with (xI p).
    cbn [digits2_pos]. lia.
  - cbv. discriminate.
Qed.

Lemma Zdigits2_succ_le (m : Z) : 0 <= m -> Zdigits2 (m + 1) <= Zdigits2 m + 1.
Proof.
  destruct m as [|p|p]; intros Hm; [cbv; discriminate| |lia].
  change (Zpos p + 1) with (Zpos (p + 1)). rewrite Pos.add_1_r.
  cbn [Zdigits2]. apply digits2_pos_succ_le.
Qed.

Lemma digits2_pos_iter_xO (d m : positive) :
  Zpos (digits2_pos (Pos.iter xO m d)) = Zpos (digits2_pos m) + Zpos d.
Proof.
  induction d as [|d IH] using Pos.peano_ind.
  - cbn [Pos.iter digits2_pos]. rewrite Pos2Z.inj_succ. lia.
  - rewrite Pos.iter_succ. cbn [digits2_pos]. rewrite !Pos2Z.inj_succ. lia.
Qed.

Lemma shr_1_digits (mrs : shr_record) :
  0 <= shr_m mrs ->
  0 <= shr_m (shr_1 mrs)
  /\ Zdigits2 (shr_m (shr_1 mrs)) = Z.max 0 (Zdigits2 (shr_m mrs) - 1).
Proof.
  destruct mrs as [m r s]. cbn [shr_m]. intros Hm.
  destruct m as [|[p|p|]|p]; cbn [shr_1 shr_m Zdigits2 digits2_pos];
    rewrite ?Pos2Z.inj_succ; lia.
Qed.

Lemma iter_shr_1_digits (p : positive) (mrs : shr_record) :
  0 <= shr_m mrs ->
  0 <= shr_m (SpecFloat.iter_pos shr_1 p mrs)
  /\ Zdigits2 (shr_m (SpecFloat.iter_pos shr_1 p mrs))
     = Z.max 0 (Zdigits2 (shr_m mrs) - Zpos p).
Proof.
  revert mrs. induction p as [p IH|p IH|]; intros mrs Hm; cbn [SpecFloat.iter_pos].
  - destruct (shr_1_digits mrs Hm) as [H1 E1].
    destruct (IH _ H1) as [H2 E2]. destruct (IH _ H2) as [H3 E3].
    split; [exact H3|]. rewrite E3, E2, E1. lia.
  - destruct (IH _ Hm) as [H2 E2]. destruct (IH _ H2) as [H3 E3].
    split; [exact H3|]. rewrite E3, E2. lia.
  - apply shr_1_digits, Hm.
Qed.

Lemma shr_m_of_loc (m : Z) (l : location) : shr_m (shr_record_of_loc m l) = m.
Proof. destruct l as [|[ | | ]]; reflexivity. Qed.

Lemma fexp32_eq (x : Z) : fexp Binary32.prec Binary32.emax x = fexp32 x.
Proof. reflexivity. Qed.

(** The exponent [shr_fexp] returns, and the width of its mantissa. *)
Lemma shr_fexp_bounds (m e : Z) (l : location) :
  0 <= m ->
  let r := shr_fexp Binary32.prec Binary32.emax m e l in
  0 <= shr_m (fst r)
  /\ snd r = Z.max e (fexp32 (Zdigits2 m + e))
  /\ Zdigits2 (shr_m (fst r)) + snd r <= Z.max (snd r) (Zdigits2 m + e).
Proof.
  intros Hm. unfold shr_fexp. rewrite fexp32_eq.
  set (x := fexp32 (Zdigits2 m + e)). unfold shr.
  destruct (x - e) as [|p|p] eqn:En; cbn [fst snd]; rewrite ?shr_m_of_loc.
  - repeat split; lia.
  - destruct (iter_shr_1_digits p (shr_record_of_loc m l)) as [H0 E].
    { rewrite shr_m_of_loc. exact Hm. }
    rewrite shr_m_of_loc in E. rewrite E. repeat split; lia.
  - repeat split; lia.
Qed.

Lemma round_nearest_even_bounds (m : Z) (l : location) :
  0 <= m ->
  0 <= round_nearest_even m l
  /\ Zdigits2 (round_nearest_even m l) <= Zdigits2 m + 1.
Proof.
  intros Hm. pose proof (Zdigits2_succ_le m Hm) as Hs.
  assert (H0 : Zdigits2 m <= Zdigits2 m + 1) by lia.
  unfold round_nearest_even.
  destruct l as [|[ | | ]]; try destruct (Z.even m); split; try lia; assumption.
Qed.

Lemma binary_round_aux_finite (sx : bool) (mx ex : Z) (lx : location) :
  0 <= mx -> ex <= 103 -> Zdigits2 mx + ex <= 127 ->
  is_infinity (binary_round_aux Binary32.prec Binary32.emax sx mx ex lx) = false.
Proof.
  intros Hm He Hd. unfold binary_round_aux.
  pose proof (shr_fexp_bounds mx ex lx Hm) as H1. cbv zeta in H1.
  destruct (shr_fexp Binary32.prec Binary32.emax mx ex lx) as [mrs' e'].
  cbn [fst snd] in H1. destruct H1 as (Hm' & He' & Hd').
  destruct (round_nearest_even_bounds (shr_m mrs') (loc_of_shr_record mrs') Hm')
    as (Hr & Hrd).
  pose proof (shr_fexp_bounds
                (round_nearest_even (shr_m mrs') (loc_of_shr_record mrs')) e'
                loc_Exact Hr) as H2.
  cbv zeta in H2.
  destruct (shr_fexp Binary32.prec Binary32.emax
              (round_nearest_even (shr_m mrs') (loc_of_shr_record mrs')) e' loc_Exact)
    as [mrs'' e''].
  cbn [fst snd] in H2. destruct H2 as (_ & He'' & _).
  unfold fexp32 in *.
  destruct (shr_m mrs''); try reflexivity.
  change (Binary32.emax - Binary32.prec) with 104.
  destruct (Z.leb_spec e'' 104); [reflexivity|lia].
Qed.

Lemma shl_align_bounds (mx : positive) (ex ex' : Z) :
  let r := shl_align mx ex ex' in
  snd r <= ex
  /\ Zpos (digits2_pos (fst r)) + snd r = Zpos (digits2_pos mx) + ex.
Proof.
  unfold shl_align.
  destruct (ex' - ex) as [|d|d] eqn:E; cbn [fst snd]; try (split; lia).
  rewrite digits2_pos_iter_xO. split; lia.
Qed.

Lemma bounded_digits (m : positive) (e : Z) :
  bounded FloatOps.prec FloatOps.emax m e = true -> Zpos (digits2_pos m) <= 53.
Proof.
  unfold bounded, canonical_mantissa, fexp, SpecFloat.emin.
  intros H. apply andb_true_iff in H as [H _]. apply Z.eqb_eq in H.
  change FloatOps.prec with 53 in H. change FloatOps.emax with 1024 in H. lia.
Qed.

(** A double below [2^127] in magnitude rounds to a finite single. *)
Lemma of_binary64_finite (s : bool) (m : positive) (e : Z) :
  bounded FloatOps.prec FloatOps.emax m e = true -> e <= 74 ->
  is_infinity (Binary32.of_binary64 (S754_finite s m e)) = false.
Proof.
  intros Hb He. pose proof (bounded_digits m e Hb) as Hd.
  unfold Binary32.of_binary64, binary_normalize.
  pose proof (shl_align_bounds m e
                (fexp Binary32.prec Binary32.emax (Zpos (digits2_pos m) + e))) as Hs.
  cbv zeta in Hs.
  destruct s;
    [change (cond_Zopp true (Zpos m)) with (Zneg m)
    |change (cond_Zopp false (Zpos m)) with (Zpos m)];
    cbv beta iota; unfold binary_round;
    destruct (shl_align m e _) as [mz ez]; cbn [fst snd] in Hs;
    apply binary_round_aux_finite; cbn [Zdigits2]; lia.
Qed.

Lemma float_to_bytes_within_1000 (x : float) :
  Py.gt (Py.abs x) 1000 = false -> is_ok (float_to_bytes x) = true.
Proof.
  unfold Py.gt, Py.abs. rewrite FloatAxioms.ltb_spec, FloatAxioms.abs_spec.
  assert (E1000 : Prim2SF 1000 = S754_finite false 8796093022208000 (-43))
    by (vm_compute; reflexivity).
  rewrite E1000. unfold float_to_bytes.
  pose proof (Prim2SF_valid x) as Hv.
  destruct (Prim2SF x) as [s|s| |s m e]; cbn [SFabs]; intros H;
    try reflexivity.
  assert (He : e <= -43).
  { unfold SFltb, SFcompare in H.
    destruct (Z.compare_spec (-43) e) as [Heq|Hlt|Hgt]; [lia|discriminate H|lia]. }
  cbn [valid_binary] in Hv.
  pose proof (of_binary64_finite s m e Hv ltac:(lia)) as Hfin.
  destruct (Binary32.of_binary64 (S754_finite s m e)); try reflexivity.
  discriminate Hfin.
Qed.

Lemma float_to_bytes_Ok (x : float) (bs : list byte) :
  float_to_bytes x = Ok bs -> exists w, bs = big_endian 4 w.
Proof.
  unfold float_to_bytes.
  destruct (Prim2SF x) as [s|s| |s m e]; cbn [Binary32.of_binary64];
    try (intros H; injection H as <-; eexists; reflexivity).
  destruct (binary_normalize _ _ _ _ _);
    try (intros H; injection H as <-; eexists; reflexivity).
  discriminate.
Qed.

Lemma int_to_bytes_big_u16 (z : Z) :
  0 <= z <= 65535 -> int_to_bytes_big 2 z = Ok (big_endian 2 z).
Proof.
  intros Hz. unfold int_to_bytes_big. change (256 ^ Z.of_nat 2) with 65536.
  destruct (Z.leb_spec 0 z); [|lia]. destruct (Z.ltb_spec z 65536); [|lia].
  reflexivity.
Qed.

(** ** The error byte (C5) *)

Lemma error_code_of_raw_priority (b : Z) :
  ProtocolDecoder.error_code_of_raw b = first_matching_error b.
Proof.
  unfold ProtocolDecoder.error_code_of_raw, first_matching_error, error_priority.
  cbn [List.find fst snd].
  repeat (destruct (ProtocolDecoder.bit_set b _); [reflexivity|]).
  destruct (b =? 0); reflexivity.
Qed.

Lemma first_matching_error_no_bit (b : Z) :
  b <> 0 -> Z.land b 0x3F = 0 -> first_matching_error b = UNKNOWN_ERROR.
Proof.
  intros Hnz Hlow.
  assert (Hbit : forall k, 0 <= k < 6 -> Z.land b (2 ^ k) = 0).
  { intros k Hk. apply Z.bits_inj'. intros n Hn.
    rewrite Z.land_spec, Z.bits_0, Z.pow2_bits_eqb by lia.
    destruct (Z.eqb_spec k n) as [<-|]; [|apply andb_false_r].
    rewrite andb_true_r.
    assert (Z.testbit (Z.land b 0x3F) k = false) as Hk' by (rewrite Hlow; apply Z.bits_0).
    rewrite Z.land_spec in Hk'. change 0x3F with (Z.ones 6) in Hk'.
    rewrite Z.ones_spec_low, andb_true_r in Hk' by lia. exact Hk'. }
  pose proof (Hbit 0 ltac:(lia)) as H0. pose proof (Hbit 1 ltac:(lia)) as H1.
  pose proof (Hbit 2 ltac:(lia)) as H2. pose proof (Hbit 3 ltac:(lia)) as H3.
  pose proof (Hbit 4 ltac:(lia)) as H4. pose proof (Hbit 5 ltac:(lia)) as H5.
  change (2 ^ 0) with 0x01 in H0. change (2 ^ 1) with 0x02 in H1.
  change (2 ^ 2) with 0x04 in H2. change (2 ^ 3) with 0x08 in H3.
  change (2 ^ 4) with 0x10 in H4. change (2 ^ 5) with 0x20 in H5.
  unfold first_matching_error, error_priority, ProtocolDecoder.bit_set.
  cbn [List.find fst snd].
  rewrite H0, H1, H2, H3, H4, H5.
  cbn. destruct (Z.eqb_spec b 0); [contradiction|reflexivity].
Qed.

(** ** Decoding an eight-byte frame *)

Lemma unpack_h_pair (b c : byte) :
  ProtocolDecoder.unpack_h [b; c]
  = Ok (ProtocolDecoder.signed16 (u16_be (Z_of_byte b) (Z_of_byte c))).
Proof.
  unfold ProtocolDecoder.unpack_h, int_from_bytes_big, u16_be. cbn [length Nat.eqb fold_left].
  reflexivity.
Qed.

Lemma decode_feedback_short (f : CANFrame) :
  (length (data f) < 8)%nat -> ProtocolDecoder.decode_feedback f = Ok None.
Proof.
  intros H. unfold ProtocolDecoder.decode_feedback.
  destruct (Nat.ltb_spec (length (data f)) 8); [reflexivity|lia].
Qed.

Lemma decode_feedback_total (f : CANFrame) :
  exists r, ProtocolDecoder.decode_feedback f = Ok r.
Proof.
  unfold ProtocolDecoder.decode_feedback.
  destruct (length (data f) <? 8)%nat; [eauto|].
  destruct (ProtocolDecoder.decode_feedback_body f); eauto.
Qed.

Lemma decode_body_other (f : CANFrame) (k : Z) :
  frame_kind f = Some k -> ~ (1 <= k <= 5) ->
  ProtocolDecoder.decode_feedback_body f = Ok None.
Proof.
  unfold frame_kind, ProtocolDecoder.decode_feedback_body, ProtocolDecoder.index.
  destruct (data f !! 0%nat) as [b0|]; [|discriminate].
  cbn [fmap option_fmap option_map mbind result_bind].
  intros H Hk. injection H as ->.
  repeat match goal with
         | |- context [k =? ?n] => destruct (Z.eqb_spec k n); [lia|]
         end.
  reflexivity.
Qed.

(** Dispatch on an eight-byte payload, one equation per key. *)
Section Dispatch.
Variables (id : Z) (ext : bool) (b0 b1 b2 b3 b4 b5 b6 b7 : byte).
Let f := {| arbitration_id := id; data := [b0; b1; b2; b3; b4; b5; b6; b7];
            is_extended := ext |}.
Let key := ProtocolDecoder.feedback_type_code (Z_of_byte b0).

Lemma decode_feedback_8 :
  ProtocolDecoder.decode_feedback f
  = match ProtocolDecoder.decode_feedback_body f with
    | Ok r => Ok r
    | Raise _ => Ok None
    end.
Proof. reflexivity. Qed.

Lemma decode_body_key1 :
  key = 1 ->
  ProtocolDecoder.decode_feedback_body f
  = Some <$> ProtocolDecoder._decode_type1_feedback f.
Proof.
  intros Hk. unfold ProtocolDecoder.decode_feedback_body. cbn [data f ProtocolDecoder.index lookup list_lookup mbind result_bind].
  fold key. rewrite Hk. reflexivity.
Qed.

Lemma decode_body_key5 :
  key = 5 ->
  ProtocolDecoder.decode_feedback_body f
  = Some <$> ProtocolDecoder._decode_type5_feedback f.
Proof.
  intros Hk. unfold ProtocolDecoder.decode_feedback_body. cbn [data f ProtocolDecoder.index lookup list_lookup mbind result_bind].
  fold key. rewrite Hk. reflexivity.
Qed.

Lemma decode_type1_8 :
  ProtocolDecoder._decode_type1_feedback f
  = Ok {| status_motor_id := id;
          position :=
            Py.degrees
              (Py.float_of_int (u16_be (Z_of_byte b1) (Z_of_byte b2))
               * ProtocolConstants.POSITION_SCALE)%float;
          velocity :=
            (Py.float_of_int
               (ProtocolDecoder.signed16 (u16_be (Z_of_byte b3) (Z_of_byte b4)))
             * ProtocolConstants.VELOCITY_SCALE)%float;
          current := 0;
          torque :=
            (Py.float_of_int
               (ProtocolDecoder.signed16 (u16_be (Z_of_byte b5) (Z_of_byte b6)))
             * ProtocolConstants.TORQUE_SCALE)%float;
          temperature :=
            (Py.float_of_int (Z_of_byte b7) * ProtocolConstants.TEMPERATURE_SCALE)%float;
          error_code := NO_ERROR;
          voltage := 0;
          feedback_type := Some TYPE_1 |}.
Proof.
  unfold ProtocolDecoder._decode_type1_feedback.
  cbn [data f arbitration_id ProtocolDecoder.index lookup list_lookup mbind result_bind
       ProtocolDecoder.slice drop take Nat.sub].
  rewrite !unpack_h_pair. cbn [mbind result_bind mret result_ret].
  rewrite shift_or_bytes by apply Z_of_byte_range. reflexivity.
Qed.

Lemma decode_type5_8 :
  ProtocolDecoder._decode_type5_feedback f
  = Ok {| status_motor_id := id;
          position := 0; velocity := 0; current := 0; torque := 0;
          temperature := 0;
          error_code := ProtocolDecoder.error_code_of_raw (Z_of_byte b1);
          voltage := 0;
          feedback_type := Some TYPE_5 |}.
Proof. reflexivity. Qed.

End Dispatch.

(** Expose the eight payload bytes of a frame of length eight. *)
Ltac frame8 f Hlen :=
  destruct f as [id d ext]; cbn [data arbitration_id] in *;
  destruct (length_8_inv d Hlen)
    as (b0 & b1 & b2 & b3 & b4 & b5 & b6 & b7 & ->);
  unfold frame_kind, frame_byte in *; cbn [data lookup list_lookup fmap option_fmap option_map default] in *.

(** C5 — For every 8-byte frame whose kind bits decode to 5, the decoded
    status carries the single error obtained from byte 1 by the first
    matching bit in the order OverVoltage(0x01), UnderVoltage(0x02),
    OverCurrent(0x04), OverTemperature(0x08), EncoderFault(0x10),
    HallFault(0x20); a nonzero byte with none of these bits maps to
    Unknown, byte 0 maps to no error, and 0x05 maps to OverVoltage. *)
Theorem decode_type5_error_priority (f : CANFrame) :
  length (data f) = 8%nat ->
  frame_kind f = Some 5 ->
  ProtocolDecoder.decode_feedback f
  = Ok (Some {| status_motor_id := arbitration_id f;
                position := 0; velocity := 0; current := 0; torque := 0;
                temperature := 0;
                error_code := first_matching_error (frame_byte f 1);
                voltage := 0;
                feedback_type := Some TYPE_5 |})
  /\ first_matching_error 0 = NO_ERROR
  /\ (forall b, b <> 0 -> Z.land b 0x3F = 0 -> first_matching_error b = UNKNOWN_ERROR)
  /\ first_matching_error 0x05 = OVER_VOLTAGE.
Proof.
  intros Hlen Hkind. split; [|split; [reflexivity|split; [|reflexivity]]].
  - frame8 f Hlen. injection Hkind as Hkind.
    rewrite decode_feedback_8, decode_body_key5, decode_type5_8 by exact Hkind.
    rewrite error_code_of_raw_priority. reflexivity.
  - apply first_matching_error_no_bit.
Qed.

Lemma decode_type5_error_priority_witness :
  length (data frame_error_05) = 8%nat
  /\ frame_kind frame_error_05 = Some 5
  /\ ProtocolDecoder.decode_feedback frame_error_05
     = Ok (Some {| status_motor_id := 1;
                   position := 0; velocity := 0; current := 0; torque := 0;
                   temperature := 0;
                   error_code := OVER_VOLTAGE;
                   voltage := 0;
                   feedback_type := Some TYPE_5 |}).
Proof.
  split; [reflexivity|split; [reflexivity|]].
  exact (proj1 (decode_type5_error_priority frame_error_05 eq_refl eq_refl)).
Defined.

(** C6 — decode_feedback never raises: it always returns a status or
    None.  For a frame as the constructor admits it (at most eight payload
    bytes) it returns None whenever the payload is not exactly eight bytes
    long, and it returns None whenever the dispatch key, the top three bits
    of payload byte 0, is outside 1..5. *)
Theorem decode_feedback_fails_closed (f : CANFrame) :
  (exists r, ProtocolDecoder.decode_feedback f = Ok r)
  /\ (frame_wf f -> length (data f) <> 8%nat ->
      ProtocolDecoder.decode_feedback f = Ok None)
  /\ (forall k, frame_kind f = Some k -> ~ (1 <= k <= 5) ->
      ProtocolDecoder.decode_feedback f = Ok None).
Proof.
  split; [apply decode_feedback_total|split].
  - intros Hwf Hne. apply decode_feedback_short. unfold frame_wf in Hwf. lia.
  - intros k Hkind Hk. unfold ProtocolDecoder.decode_feedback.
    rewrite (decode_body_other f k Hkind Hk).
    destruct (length (data f) <? 8)%nat; reflexivity.
Qed.

Lemma decode_feedback_fails_closed_witness :
  (frame_wf frame_short /\ length (data frame_short) <> 8%nat
   /\ ProtocolDecoder.decode_feedback frame_short = Ok None)
  /\ (frame_kind frame_key7 = Some 7 /\ ~ (1 <= 7 <= 5)
      /\ ProtocolDecoder.decode_feedback frame_key7 = Ok None).
Proof.
  assert (Hs : frame_wf frame_short) by (unfold frame_wf; cbn; lia).
  assert (Hne : length (data frame_short) <> 8%nat) by (cbn; lia).
  assert (H7 : ~ (1 <= 7 <= 5)) by lia.
  split.
  - split; [exact Hs|split; [exact Hne|]].
    exact (proj1 (proj2 (decode_feedback_fails_closed frame_short)) Hs Hne).
  - split; [reflexivity|split; [exact H7|]].
    exact (proj2 (proj2 (decode_feedback_fails_closed frame_key7)) 7 eq_refl H7).
Defined.

(** ** Kind-1 feedback (C3) *)

(** C3, as stated, fails: on the kind-1 payload [20 80 00 00 00 00 00 00]
    (position field 0x8000) an LSB of 2π/65536 rad gives 180 degrees, while
    the decoder returns a position below 179.9999 degrees. *)
Lemma decode_type1_position_not_two_pi :
  match ProtocolDecoder.decode_feedback frame_half_turn with
  | Ok (Some st) =>
      PrimFloat.ltb (position st) 179.9999
      && PrimFloat.ltb 179.9999 (spec_position_deg (u16_be 0x80 0x00))
  | _ => false
  end = true.
Proof. vm_compute. reflexivity. Qed.

(** C3 (amended) — For every 8-byte frame whose kind bits decode to 1,
    decode_feedback returns a status with position = the unsigned 16-bit
    big-endian value of bytes 1–2 times the position LSB 6.28318/65536 rad,
    converted to degrees; velocity = the signed 16-bit big-endian value of
    bytes 3–4 times 0.1; torque = the signed 16-bit big-endian value of
    bytes 5–6 times 0.01; temperature = byte 7 times 0.1; the other
    fields keep their defaults. *)
Theorem decode_type1_fields (f : CANFrame) :
  length (data f) = 8%nat ->
  frame_kind f = Some 1 ->
  ProtocolDecoder.decode_feedback f
  = Ok (Some {| status_motor_id := arbitration_id f;
                position :=
                  code_position_deg (u16_be (frame_byte f 1) (frame_byte f 2));
                velocity :=
                  (Py.float_of_int
                     (ProtocolDecoder.signed16 (u16_be (frame_byte f 3) (frame_byte f 4)))
                   * 0.1)%float;
                current := 0;
                torque :=
                  (Py.float_of_int
                     (ProtocolDecoder.signed16 (u16_be (frame_byte f 5) (frame_byte f 6)))
                   * 0.01)%float;
                temperature := (Py.float_of_int (frame_byte f 7) * 0.1)%float;
                error_code := NO_ERROR;
                voltage := 0;
                feedback_type := Some TYPE_1 |}).
Proof.
  intros Hlen Hkind. frame8 f Hlen. injection Hkind as Hkind.
  rewrite decode_feedback_8, decode_body_key1, decode_type1_8 by exact Hkind.
  reflexivity.
Qed.

Lemma decode_type1_fields_witness :
  length (data frame_type1_test) = 8%nat
  /\ frame_kind frame_type1_test = Some 1
  /\ ProtocolDecoder.decode_feedback frame_type1_test
     = Ok (Some {| status_motor_id := 1;
                   position := code_position_deg 0x1000;
                   velocity := (Py.float_of_int 0x0100 * 0.1)%float;
                   current := 0;
                   torque := (Py.float_of_int 0x0010 * 0.01)%float;
                   temperature := (Py.float_of_int 0x1e * 0.1)%float;
                   error_code := NO_ERROR;
                   voltage := 0;
                   feedback_type := Some TYPE_1 |}).
Proof.
  split; [reflexivity|split; [reflexivity|]].
  exact (decode_type1_fields frame_type1_test eq_refl eq_refl).
Defined.

(** ** Discovery responses (C9) *)

Lemma collect_ids_acc (bs : list byte) (acc : list Z) :
  fold_left
    (fun motor_ids b =>
       let byte_val := Z_of_byte b in
       if (1 <=? byte_val) && (byte_val <=? 32) then motor_ids ++ [byte_val]
       else motor_ids)
    bs acc
  = acc ++ filter is_address (Z_of_byte <$> bs).
Proof.
  revert acc.
  induction bs as [|b bs IH]; intros acc; cbn [fold_left fmap list_fmap].
  - rewrite filter_nil, app_nil_r. reflexivity.
  - rewrite IH, filter_cons. cbv zeta.
    destruct (Z.leb_spec 1 (Z_of_byte b)), (Z.leb_spec (Z_of_byte b) 32);
      cbn [andb]; destruct (decide (is_address (Z_of_byte b))) as [Ha|Ha];
      unfold is_address in Ha; try lia;
      rewrite <- ?app_assoc; reflexivity.
Qed.

Lemma collect_ids_filter (bs : list byte) :
  ProtocolDecoder.collect_ids bs = filter is_address (Z_of_byte <$> bs).
Proof. unfold ProtocolDecoder.collect_ids. apply collect_ids_acc. Qed.

(** C9 — decode_id_query_response returns None when the frame's address
    is not 0x000; otherwise it returns the payload bytes lying in [1, 32]
    (in payload order), whose set is the set of payload values in that
    range, and it returns None when no payload byte lies in the range. *)
Theorem decode_id_query_response_spec (f : CANFrame) :
  (arbitration_id f <> 0 -> ProtocolDecoder.decode_id_query_response f = None)
  /\ (arbitration_id f = 0 ->
      (payload_addresses f = ∅ ->
       ProtocolDecoder.decode_id_query_response f = None)
      /\ (payload_addresses f <> ∅ ->
          exists ids,
            ProtocolDecoder.decode_id_query_response f = Some ids
            /\ ids = filter is_address (payload f)
            /\ list_to_set ids = payload_addresses f)).
Proof.
  unfold ProtocolDecoder.decode_id_query_response, payload_addresses.
  rewrite collect_ids_filter. fold (payload f).
  assert (Hset : (list_to_set (filter is_address (payload f)) : gset Z)
                 = filter is_address (list_to_set (payload f))).
  { apply set_eq. intros z.
    rewrite elem_of_list_to_set, list_elem_of_filter, elem_of_filter, elem_of_list_to_set.
    reflexivity. }
  split.
  - intros Hid. destruct (Z.eqb_spec (arbitration_id f) 0); [contradiction|reflexivity].
  - intros Hid. rewrite Hid. cbn [Z.eqb negb]. rewrite <- Hset. split.
    + intros Hempty. destruct (filter is_address (payload f)) as [|z l]; [reflexivity|].
      assert (z ∈ (∅ : gset Z)) as Hin
        by (rewrite <- Hempty; apply elem_of_list_to_set, list_elem_of_here).
      destruct (not_elem_of_empty (C := gset Z) z Hin).
    + intros Hne. destruct (filter is_address (payload f)) as [|z l] eqn:E.
      * exfalso. apply Hne. reflexivity.
      * exists (z :: l). auto.
Qed.

Lemma decode_id_query_response_spec_witness :
  (arbitration_id frame_not_discovery <> 0
   /\ ProtocolDecoder.decode_id_query_response frame_not_discovery = None)
  /\ (arbitration_id frame_discovery = 0
      /\ payload_addresses frame_discovery <> ∅
      /\ exists ids,
           ProtocolDecoder.decode_id_query_response frame_discovery = Some ids
           /\ ids = filter is_address (payload frame_discovery)
           /\ list_to_set ids = payload_addresses frame_discovery).
Proof.
  assert (H5 : arbitration_id frame_not_discovery <> 0) by (cbn; lia).
  assert (Hne : payload_addresses frame_discovery <> ∅).
  { intros He. assert (3 ∈ payload_addresses frame_discovery) as Hin.
    { unfold payload_addresses. apply elem_of_filter. split; [unfold is_address; lia|].
      apply elem_of_list_to_set. cbn. apply list_elem_of_further, list_elem_of_here. }
    rewrite He in Hin. exact (not_elem_of_empty (C := gset Z) 3 Hin). }
  split.
  - split; [exact H5|].
    exact (proj1 (decode_id_query_response_spec frame_not_discovery) H5).
  - split; [reflexivity|split; [exact Hne|]].
    exact (proj2 (proj2 (decode_id_query_response_spec frame_discovery) eq_refl) Hne).
Defined.

(** ** The force-position command (C1) *)

Lemma int_of_float_finite (x : float) :
  Py.is_finite x = true -> Py.int_of_float x = Ok (trunc x).
Proof.
  unfold Py.is_finite, trunc, Py.int_of_float.
  destruct (Prim2SF x); intros H; try discriminate H; reflexivity.
Qed.

Lemma int_of_float_not_finite (x : float) :
  Py.is_finite x = false -> exists e, Py.int_of_float x = Raise e.
Proof.
  unfold Py.is_finite, Py.int_of_float.
  destruct (Prim2SF x); intros H; try discriminate H; eauto.
Qed.

Lemma clamp_range (lo hi z : Z) : lo <= hi -> lo <= Py.clamp lo hi z <= hi.
Proof. unfold Py.clamp. lia. Qed.

Lemma clamp_inside (lo hi z : Z) : lo <= z <= hi -> Py.clamp lo hi z = z.
Proof. unfold Py.clamp. lia. Qed.

Lemma pack_command_sum (kp_int kd_int pos_int vel_int tor_int : Z) :
  0 <= kp_int <= 4095 -> 0 <= kd_int <= 511 -> 0 <= pos_int <= 65535 ->
  0 <= vel_int <= 2047 -> 0 <= tor_int <= 2047 ->
  ProtocolEncoder.pack_command kp_int kd_int pos_int vel_int tor_int
  = kp_int * 2 ^ 52 + kd_int * 2 ^ 43 + pos_int * 2 ^ 27
    + vel_int * 2 ^ 16 + tor_int * 2 ^ 5.
Proof.
  intros Hkp Hkd Hpos Hvel Htor. unfold ProtocolEncoder.pack_command.
  cbv zeta. rewrite Z.lor_0_l.
  change 0xFFF with (Z.ones 12). change 0x1FF with (Z.ones 9).
  change 0xFFFF with (Z.ones 16). change 0x7FF with (Z.ones 11).
  rewrite !land_mask_small by lia.
  rewrite !Z.shiftl_mul_pow2 by lia.
  rewrite <- !Z.lor_assoc.
  rewrite (lor_shifted_add vel_int) by lia.
  rewrite (lor_shifted_add pos_int) by lia.
  rewrite (lor_shifted_add kd_int) by lia.
  rewrite (lor_shifted_add kp_int) by lia.
  lia.
Qed.

Lemma command_word_fields (kp_int kd_int pos_int vel_int tor_int : Z) :
  0 <= kp_int <= 4095 -> 0 <= kd_int <= 511 -> 0 <= pos_int <= 65535 ->
  0 <= vel_int <= 2047 -> 0 <= tor_int <= 2047 ->
  let w := command_word kp_int kd_int pos_int vel_int tor_int in
  0 <= w < 2 ^ 64
  /\ bit_field w 52 12 = kp_int
  /\ bit_field w 43 9 = kd_int
  /\ bit_field w 27 16 = pos_int
  /\ bit_field w 16 11 = vel_int
  /\ bit_field w 5 11 = tor_int
  /\ bit_field w 0 5 = 0.
Proof.
  intros Hkp Hkd Hpos Hvel Htor w. subst w. unfold command_word.
  set (w := kp_int * 2 ^ 52 + kd_int * 2 ^ 43 + pos_int * 2 ^ 27
            + vel_int * 2 ^ 16 + tor_int * 2 ^ 5).
  split; [subst w; lia|].
  repeat split.
  - replace w with
      ((0 * 2 ^ 12 + kp_int) * 2 ^ 52
       + (kd_int * 2 ^ 43 + pos_int * 2 ^ 27 + vel_int * 2 ^ 16 + tor_int * 2 ^ 5))
      by (subst w; lia).
    apply bit_field_middle; lia.
  - replace w with
      ((kp_int * 2 ^ 9 + kd_int) * 2 ^ 43
       + (pos_int * 2 ^ 27 + vel_int * 2 ^ 16 + tor_int * 2 ^ 5))
      by (subst w; lia).
    apply bit_field_middle; lia.
  - replace w with
      (((kp_int * 2 ^ 9 + kd_int) * 2 ^ 16 + pos_int) * 2 ^ 27
       + (vel_int * 2 ^ 16 + tor_int * 2 ^ 5))
      by (subst w; lia).
    apply bit_field_middle; lia.
  - replace w with
      (((kp_int * 2 ^ 25 + kd_int * 2 ^ 16 + pos_int) * 2 ^ 11 + vel_int) * 2 ^ 16
       + tor_int * 2 ^ 5)
      by (subst w; lia).
    apply bit_field_middle; lia.
  - replace w with
      (((kp_int * 2 ^ 36 + kd_int * 2 ^ 27 + pos_int * 2 ^ 11 + vel_int) * 2 ^ 11
        + tor_int) * 2 ^ 5 + 0)
      by (subst w; lia).
    apply bit_field_middle; lia.
  - replace w with
      (((kp_int * 2 ^ 47 + kd_int * 2 ^ 38 + pos_int * 2 ^ 22 + vel_int * 2 ^ 11
         + tor_int) * 2 ^ 5 + 0) * 2 ^ 0 + 0)
      by (subst w; lia).
    apply bit_field_middle; lia.
Qed.

(** C1, as stated, fails: the five values are converted with [int(...)]
    before they are clamped, so an input whose scaled value is not a finite
    double makes the encoder raise instead of clamping.  Position 1e308 is a
    finite double, yet (position + π) / 2π * 65535 overflows to infinity
    and [int] raises [OverflowError]; a NaN stiffness raises
    [ValueError]. *)
Lemma encode_force_position_raises :
  ProtocolEncoder.encode_force_position_command 1 50 5 1e308 0 0
  = Raise OverflowError
  /\ ProtocolEncoder.encode_force_position_command 1 nan 5 0 0 0
     = Raise ValueError.
Proof. split; vm_compute; reflexivity. Qed.

(** C1 (amended) — For every input whose five scaled values (kp, kd,
    (position + π) / 2π · 65535, (velocity + 10) / 20 · 2047,
    (torque + 10) / 20 · 2047, in double arithmetic) are finite, the
    encoder truncates each toward zero and clamps it to [0,4095],
    [0,511], [0,65535], [0,2047], [0,2047]; the affine maps send −π, π to
    0, 65535 and −10, 10 to 0, 2047; the five fields are packed into one
    64-bit word with Kp at bits 63–52, Kd at bits 51–43, position at
    bits 42–27, velocity at bits 26–16, torque at bits 15–5 and the 5 low
    bits zero, emitted as 8 bytes most-significant byte first. *)
Theorem encode_force_position_layout
    (motor_id : Z) (kp kd position velocity torque : float) :
  Py.is_finite kp = true ->
  Py.is_finite kd = true ->
  Py.is_finite (ProtocolEncoder.pos_scaled position) = true ->
  Py.is_finite (ProtocolEncoder.vel_scaled velocity) = true ->
  Py.is_finite (ProtocolEncoder.tor_scaled torque) = true ->
  let kp_int := Py.clamp 0 4095 (trunc kp) in
  let kd_int := Py.clamp 0 511 (trunc kd) in
  let pos_int := Py.clamp 0 65535 (trunc (ProtocolEncoder.pos_scaled position)) in
  let vel_int := Py.clamp 0 2047 (trunc (ProtocolEncoder.vel_scaled velocity)) in
  let tor_int := Py.clamp 0 2047 (trunc (ProtocolEncoder.tor_scaled torque)) in
  let w := command_word kp_int kd_int pos_int vel_int tor_int in
  ProtocolEncoder.encode_force_position_command motor_id kp kd position velocity torque
  = Ok {| arbitration_id := motor_id; data := big_endian 8 w; is_extended := false |}
  /\ length (big_endian 8 w) = 8%nat
  /\ int_from_bytes_big (big_endian 8 w) = w
  /\ (0 <= w < 2 ^ 64
      /\ bit_field w 52 12 = kp_int
      /\ bit_field w 43 9 = kd_int
      /\ bit_field w 27 16 = pos_int
      /\ bit_field w 16 11 = vel_int
      /\ bit_field w 5 11 = tor_int
      /\ bit_field w 0 5 = 0)
  /\ (trunc (ProtocolEncoder.pos_scaled (- Py.math_pi)) = 0
      /\ trunc (ProtocolEncoder.pos_scaled Py.math_pi) = 65535
      /\ trunc (ProtocolEncoder.vel_scaled (-10)) = 0
      /\ trunc (ProtocolEncoder.vel_scaled 10) = 2047
      /\ trunc (ProtocolEncoder.tor_scaled (-10)) = 0
      /\ trunc (ProtocolEncoder.tor_scaled 10) = 2047).
Proof.
  intros Hkp Hkd Hpos Hvel Htor kp_int kd_int pos_int vel_int tor_int w.
  assert (Rkp : 0 <= kp_int <= 4095) by (apply clamp_range; lia).
  assert (Rkd : 0 <= kd_int <= 511) by (apply clamp_range; lia).
  assert (Rpos : 0 <= pos_int <= 65535) by (apply clamp_range; lia).
  assert (Rvel : 0 <= vel_int <= 2047) by (apply clamp_range; lia).
  assert (Rtor : 0 <= tor_int <= 2047) by (apply clamp_range; lia).
  pose proof (command_word_fields _ _ _ _ _ Rkp Rkd Rpos Rvel Rtor) as Hw.
  cbv zeta in Hw. fold w in Hw.
  split; [|split; [apply length_big_endian|split; [|split; [exact Hw|]]]].
  - unfold ProtocolEncoder.encode_force_position_command.
    rewrite (int_of_float_finite _ Hkp), (int_of_float_finite _ Hkd),
      (int_of_float_finite _ Hpos), (int_of_float_finite _ Hvel),
      (int_of_float_finite _ Htor).
    cbn [mbind result_bind].
    change (Z.max 0 (Z.min (trunc kp) ProtocolConstants.KP_MAX)) with kp_int.
    change (Z.max 0 (Z.min (trunc kd) ProtocolConstants.KD_MAX)) with kd_int.
    change (Z.max 0 (Z.min (trunc (ProtocolEncoder.pos_scaled position)) 65535))
      with pos_int.
    change (Z.max 0 (Z.min (trunc (ProtocolEncoder.vel_scaled velocity)) 2047))
      with vel_int.
    change (Z.max 0 (Z.min (trunc (ProtocolEncoder.tor_scaled torque)) 2047))
      with tor_int.
    rewrite pack_command_sum by assumption. fold (command_word kp_int kd_int pos_int vel_int tor_int).
    fold w. rewrite bytes_of_split_bytes. cbn [mbind result_bind].
    unfold CANFrame_init. rewrite length_big_endian. reflexivity.
  - apply int_from_bytes_big_endian. change (256 ^ Z.of_nat 8) with (2 ^ 64).
    apply Hw.
  - repeat split; vm_compute; reflexivity.
Qed.

Lemma encode_force_position_layout_witness :
  (Py.is_finite 50 = true /\ Py.is_finite 5 = true
   /\ Py.is_finite (ProtocolEncoder.pos_scaled 1.57) = true
   /\ Py.is_finite (ProtocolEncoder.vel_scaled 0) = true
   /\ Py.is_finite (ProtocolEncoder.tor_scaled 0) = true)
  /\ ProtocolEncoder.encode_force_position_command 1 50 5 1.57 0 0
     = Ok {| arbitration_id := 1;
             data := [x03; x20; x2d; xff; xb3; xff; x7f; xe0];
             is_extended := false |}.
Proof.
  assert (H1 : Py.is_finite 50 = true) by (vm_compute; reflexivity).
  assert (H2 : Py.is_finite 5 = true) by (vm_compute; reflexivity).
  assert (H3 : Py.is_finite (ProtocolEncoder.pos_scaled 1.57) = true)
    by (vm_compute; reflexivity).
  assert (H4 : Py.is_finite (ProtocolEncoder.vel_scaled 0) = true)
    by (vm_compute; reflexivity).
  assert (H5 : Py.is_finite (ProtocolEncoder.tor_scaled 0) = true)
    by (vm_compute; reflexivity).
  split; [auto|].
  rewrite (proj1 (encode_force_position_layout 1 50 5 1.57 0 0 H1 H2 H3 H4 H5)).
  vm_compute. reflexivity.
Defined.

(** ** The motor endpoint: safety gate, current check, heartbeat *)

Example Motor_init_1 : Motor_init 1 = Ok motor_1.
Proof. reflexivity. Qed.

Section MotorProperties.
Variable bus_send : CANFrame -> bool.
Variables (self : Motor) (hw : CANHardware) (now : float).

Lemma set_velocity_send_stage (velocity_rpm current_limit_a : float) :
  _check_velocity_safe self velocity_rpm = true ->
  _check_current_safe self current_limit_a = true ->
  set_velocity bus_send self hw now velocity_rpm current_limit_a
  = send_stage bus_send self hw now
      (ProtocolEncoder.encode_servo_speed_command
         (motor_id self) velocity_rpm current_limit_a).
Proof.
  intros Hv Hc. unfold set_velocity, send_stage, send_frame, hw_sent.
  rewrite Hv, Hc. cbn [negb].
  destruct (ProtocolEncoder.encode_servo_speed_command _ _ _) as [frame|]; [|reflexivity].
  destruct (is_connected hw); cbn [negb andb]; [|reflexivity].
  destruct (bus_send frame); reflexivity.
Qed.

Lemma set_position_send_stage
    (position_deg speed_limit_rpm current_limit_a : float) (mode : string) :
  _check_position_safe self position_deg = true ->
  _check_velocity_safe self speed_limit_rpm = true ->
  _check_current_safe self current_limit_a = true ->
  set_position bus_send self hw now position_deg speed_limit_rpm current_limit_a mode
  = send_stage bus_send self hw now
      (position_frame self position_deg speed_limit_rpm current_limit_a mode).
Proof.
  intros Hp Hv Hc. unfold set_position, send_stage, send_frame, hw_sent.
  rewrite Hp, Hv, Hc. cbn [negb].
  destruct (position_frame _ _ _ _ _) as [frame|]; [|reflexivity].
  destruct (is_connected hw); cbn [negb andb]; [|reflexivity].
  destruct (bus_send frame); reflexivity.
Qed.

Lemma send_stage_true (r : result CANFrame) (self' : Motor) (hw' : CANHardware) :
  send_stage bus_send self hw now r = (true, self', hw') ->
  self' = set_last_command_time self now.
Proof.
  unfold send_stage. destruct r as [frame|]; [|discriminate].
  destruct (is_connected hw && bus_send frame); [|discriminate].
  intros H. injection H as <- _. reflexivity.
Qed.

(** A command that returns [True] has stored the clock reading. *)
Lemma set_velocity_true (velocity_rpm current_limit_a : float)
    (self' : Motor) (hw' : CANHardware) :
  set_velocity bus_send self hw now velocity_rpm current_limit_a = (true, self', hw') ->
  self' = set_last_command_time self now.
Proof.
  unfold set_velocity.
  destruct (_check_velocity_safe self velocity_rpm) eqn:Hv; cbn [negb]; [|discriminate].
  destruct (_check_current_safe self current_limit_a) eqn:Hc; cbn [negb]; [|discriminate].
  intros H. apply (send_stage_true
    (ProtocolEncoder.encode_servo_speed_command (motor_id self) velocity_rpm current_limit_a)
    self' hw').
  rewrite <- (set_velocity_send_stage _ _ Hv Hc).
  unfold set_velocity. rewrite Hv, Hc. exact H.
Qed.

Lemma set_position_true
    (position_deg speed_limit_rpm current_limit_a : float) (mode : string)
    (self' : Motor) (hw' : CANHardware) :
  set_position bus_send self hw now position_deg speed_limit_rpm current_limit_a mode
  = (true, self', hw') ->
  self' = set_last_command_time self now.
Proof.
  unfold set_position.
  destruct (_check_position_safe self position_deg) eqn:Hp; cbn [negb]; [|discriminate].
  destruct (_check_velocity_safe self speed_limit_rpm) eqn:Hv; cbn [negb]; [|discriminate].
  destruct (_check_current_safe self current_limit_a) eqn:Hc; cbn [negb]; [|discriminate].
  intros H. apply (send_stage_true
    (position_frame self position_deg speed_limit_rpm current_limit_a mode) self' hw').
  rewrite <- (set_position_send_stage _ _ _ _ Hp Hv Hc).
  unfold set_position. rewrite Hp, Hv, Hc. exact H.
Qed.

End MotorProperties.

Example gt_abs_180_90 : Py.gt (Py.abs 180) 90 = true.
Proof. vm_compute. reflexivity. Qed.

Example gt_abs_45_90 : Py.gt (Py.abs 45) 90 = false.
Proof. vm_compute. reflexivity. Qed.

Example gt_abs_100_1000 : Py.gt (Py.abs 100) 1000 = false.
Proof. vm_compute. reflexivity. Qed.

Example gt_5_10 : Py.gt 5 10 = false.
Proof. vm_compute. reflexivity. Qed.

Lemma encode_servo_position_45 (id : Z) :
  ProtocolEncoder.encode_servo_position_command id 45 100 5
  = Ok {| arbitration_id := id;
          data := [x3f; x49; x0f; xdb; x03; xe8; x01; xf4];
          is_extended := false |}.
Proof. vm_compute. reflexivity. Qed.

Lemma encode_servo_speed_50_m1000 (id : Z) :
  ProtocolEncoder.encode_servo_speed_command id 50 (-1000)
  = Ok {| arbitration_id := id;
          data := [x42; x48; x00; x00; xc4; x7a; x00; x00];
          is_extended := false |}.
Proof. vm_compute. reflexivity. Qed.

Lemma encode_force_position_45 (id : Z) :
  ProtocolEncoder.encode_force_position_command id 50 5 (45 * 3.14159 / 180)%float 0 0
  = Ok {| arbitration_id := id;
          data := [x03; x20; x2c; xff; xfb; xff; x7f; xe0];
          is_extended := false |}.
Proof. vm_compute. reflexivity. Qed.

(** The speed encoder returns a frame whenever both values fit single
    precision. *)
Lemma encode_servo_speed_ok (id : Z) (speed current_limit : float) :
  is_ok (float_to_bytes speed) = true ->
  is_ok (float_to_bytes current_limit) = true ->
  exists frame,
    ProtocolEncoder.encode_servo_speed_command id speed current_limit = Ok frame.
Proof.
  intros Hs Hc. unfold ProtocolEncoder.encode_servo_speed_command.
  destruct (float_to_bytes speed) as [sb|] eqn:Es; [|discriminate Hs].
  destruct (float_to_bytes current_limit) as [cb|] eqn:Ec; [|discriminate Hc].
  destruct (float_to_bytes_Ok _ _ Es) as [ws ->].
  destruct (float_to_bytes_Ok _ _ Ec) as [wc ->].
  eexists. reflexivity.
Qed.

(** C2 — For every call to set_position, if |position_deg| exceeds
    max_position_deg, or |speed_limit_rpm| exceeds max_velocity_rpm, or
    current_limit_a exceeds max_current_a, the call returns False and the
    motor and the hardware are unchanged (no frame is sent).  With
    max_position_deg = 90, set_position(180, ...) returns False and sends
    nothing; set_position(45, ...) with limits that pass the checks returns
    True when the transport sends the encoded frame, and it does so on a
    connected transport for the default arguments and, in force mode, for
    all limits that pass the checks. *)
Theorem set_position_safety_gate
    (bus_send : CANFrame -> bool) (self : Motor) (hw : CANHardware) (now : float)
    (position_deg speed_limit_rpm current_limit_a : float) (mode : string) :
  (Py.gt (Py.abs position_deg) (max_position_deg self) = true
   \/ Py.gt (Py.abs speed_limit_rpm) (max_velocity_rpm self) = true
   \/ Py.gt current_limit_a (max_current_a self) = true ->
   set_position bus_send self hw now position_deg speed_limit_rpm current_limit_a mode
   = (false, self, hw))
  /\ (max_position_deg self = 90%float ->
      set_position bus_send self hw now 180 speed_limit_rpm current_limit_a mode
      = (false, self, hw))
  /\ (max_position_deg self = 90%float ->
      _check_velocity_safe self speed_limit_rpm = true ->
      _check_current_safe self current_limit_a = true ->
      forall frame,
        position_frame self 45 speed_limit_rpm current_limit_a mode = Ok frame ->
        is_connected hw = true -> bus_send frame = true ->
        set_position bus_send self hw now 45 speed_limit_rpm current_limit_a mode
        = (true, set_last_command_time self now, hw_sent hw frame))
  /\ (max_position_deg self = 90%float ->
      max_velocity_rpm self = 1000%float ->
      max_current_a self = 10%float ->
      is_connected hw = true -> (forall frame, bus_send frame = true) ->
      exists frame,
        set_position bus_send self hw now 45 100 5 "servo"
        = (true, set_last_command_time self now, hw_sent hw frame))
  /\ (max_position_deg self = 90%float ->
      _check_velocity_safe self speed_limit_rpm = true ->
      _check_current_safe self current_limit_a = true ->
      is_connected hw = true -> (forall frame, bus_send frame = true) ->
      exists frame,
        set_position bus_send self hw now 45 speed_limit_rpm current_limit_a "force"
        = (true, set_last_command_time self now, hw_sent hw frame)).
Proof.
  split; [|split; [|split; [|split]]].
  - intros H. unfold set_position, _check_position_safe, _check_velocity_safe,
      _check_current_safe.
    destruct (Py.gt (Py.abs position_deg) (max_position_deg self)); [reflexivity|].
    destruct (Py.gt (Py.abs speed_limit_rpm) (max_velocity_rpm self)); [reflexivity|].
    destruct (Py.gt current_limit_a (max_current_a self)); [reflexivity|].
    destruct H as [H|[H|H]]; discriminate H.
  - intros H90. unfold set_position, _check_position_safe.
    rewrite H90, gt_abs_180_90. reflexivity.
  - intros H90 Hv Hc frame Hframe Hconn Hsend.
    rewrite set_position_send_stage; [| |exact Hv|exact Hc].
    + rewrite Hframe. unfold send_stage. rewrite Hconn, Hsend. reflexivity.
    + unfold _check_position_safe. rewrite H90, gt_abs_45_90. reflexivity.
  - intros H90 H1000 H10 Hconn Hsend.
    eexists. rewrite set_position_send_stage.
    + unfold position_frame. cbn [String.eqb Ascii.eqb Bool.eqb].
      rewrite encode_servo_position_45. unfold send_stage.
      rewrite Hconn, Hsend. reflexivity.
    + unfold _check_position_safe. rewrite H90, gt_abs_45_90. reflexivity.
    + unfold _check_velocity_safe. rewrite H1000, gt_abs_100_1000. reflexivity.
    + unfold _check_current_safe. rewrite H10, gt_5_10. reflexivity.
  - intros H90 Hv Hc Hconn Hsend.
    eexists. rewrite set_position_send_stage; [| |exact Hv|exact Hc].
    + unfold position_frame. cbn [String.eqb Ascii.eqb Bool.eqb].
      rewrite encode_force_position_45. unfold send_stage.
      rewrite Hconn, Hsend. reflexivity.
    + unfold _check_position_safe. rewrite H90, gt_abs_45_90. reflexivity.
Qed.

Lemma set_position_safety_gate_witness :
  (Py.gt (Py.abs 180) (max_position_deg motor_1_max_90) = true
   /\ set_position accept_all motor_1_max_90 hw_up 1000 180 100 5 "servo"
      = (false, motor_1_max_90, hw_up))
  /\ (max_position_deg motor_1_max_90 = 90%float
      /\ max_velocity_rpm motor_1_max_90 = 1000%float
      /\ max_current_a motor_1_max_90 = 10%float
      /\ is_connected hw_up = true
      /\ exists frame,
           set_position accept_all motor_1_max_90 hw_up 1000 45 100 5 "servo"
           = (true, set_last_command_time motor_1_max_90 1000, hw_sent hw_up frame)).
Proof.
  pose proof (set_position_safety_gate accept_all motor_1_max_90 hw_up 1000
                180 100 5 "servo") as (Hfail & _ & _ & Hok & _).
  assert (H180 : Py.gt (Py.abs 180) (max_position_deg motor_1_max_90) = true)
    by (vm_compute; reflexivity).
  split.
  - split; [exact H180|]. apply Hfail. left. exact H180.
  - repeat (split; [reflexivity|]).
    apply Hok; reflexivity.
Defined.

(** C10 — The current check is one-sided: every current_limit_a that is
    at most max_current_a passes it (no absolute value is taken), negative
    values of any magnitude included.  When the velocity check passes as
    well, set_velocity goes on to encode and send: with current_limit_a =
    −1000 it returns True and the frame is sent whenever the transport
    sends the encoded frame; under the default limits (1000 rpm, 10 A) and
    a connected transport that is so for every velocity_rpm that passes
    the velocity check. *)
Theorem current_check_one_sided
    (bus_send : CANFrame -> bool) (self : Motor) (hw : CANHardware) (now : float)
    (velocity_rpm current_limit_a : float) :
  (PrimFloat.leb current_limit_a (max_current_a self) = true ->
   _check_current_safe self current_limit_a = true)
  /\ (_check_velocity_safe self velocity_rpm = true ->
      PrimFloat.leb current_limit_a (max_current_a self) = true ->
      set_velocity bus_send self hw now velocity_rpm current_limit_a
      = send_stage bus_send self hw now
          (ProtocolEncoder.encode_servo_speed_command
             (motor_id self) velocity_rpm current_limit_a))
  /\ (_check_velocity_safe self velocity_rpm = true ->
      PrimFloat.leb (-1000) (max_current_a self) = true ->
      forall frame,
        ProtocolEncoder.encode_servo_speed_command (motor_id self) velocity_rpm (-1000)
        = Ok frame ->
        is_connected hw = true -> bus_send frame = true ->
        set_velocity bus_send self hw now velocity_rpm (-1000)
        = (true, set_last_command_time self now, hw_sent hw frame))
  /\ (max_velocity_rpm self = 1000%float ->
      max_current_a self = 10%float ->
      is_connected hw = true -> (forall frame, bus_send frame = true) ->
      _check_current_safe self (-1000) = true
      /\ _check_current_safe self (-1e308) = true
      /\ _check_current_safe self neg_infinity = true
      /\ (_check_velocity_safe self velocity_rpm = true ->
          exists frame,
            set_velocity bus_send self hw now velocity_rpm (-1000)
            = (true, set_last_command_time self now, hw_sent hw frame))).
Proof.
  assert (Hcheck : forall c, PrimFloat.leb c (max_current_a self) = true ->
                             _check_current_safe self c = true).
  { intros c Hc. unfold _check_current_safe. rewrite (leb_not_gt _ _ Hc). reflexivity. }
  split; [apply Hcheck|split; [|split]].
  - intros Hv Hc. apply set_velocity_send_stage; [exact Hv|apply Hcheck, Hc].
  - intros Hv Hc frame Hframe Hconn Hsend.
    rewrite set_velocity_send_stage; [|exact Hv|apply Hcheck, Hc].
    rewrite Hframe. unfold send_stage. rewrite Hconn, Hsend. reflexivity.
  - intros H1000 H10 Hconn Hsend.
    assert (Hc : forall c, PrimFloat.leb c 10 = true -> _check_current_safe self c = true)
      by (intros c Hc; apply Hcheck; rewrite H10; exact Hc).
    repeat split; try (apply Hc; vm_compute; reflexivity).
    intros Hv.
    destruct (encode_servo_speed_ok (motor_id self) velocity_rpm (-1000))
      as [frame Hframe].
    { apply float_to_bytes_within_1000. unfold _check_velocity_safe in Hv.
      rewrite H1000 in Hv. destruct (Py.gt (Py.abs velocity_rpm) 1000);
        [discriminate Hv|reflexivity]. }
    { vm_compute. reflexivity. }
    exists frame. rewrite set_velocity_send_stage.
    + rewrite Hframe. unfold send_stage. rewrite Hconn, Hsend. reflexivity.
    + exact Hv.
    + apply Hc. vm_compute. reflexivity.
Qed.

Lemma current_check_one_sided_witness :
  PrimFloat.leb (-1000) (max_current_a motor_1) = true
  /\ _check_velocity_safe motor_1 50 = true
  /\ _check_current_safe motor_1 (-1000) = true
  /\ set_velocity accept_all motor_1 hw_up 1000 50 (-1000)
     = (true, set_last_command_time motor_1 1000,
        hw_sent hw_up {| arbitration_id := 1;
                         data := [x42; x48; x00; x00; xc4; x7a; x00; x00];
                         is_extended := false |}).
Proof.
  pose proof (current_check_one_sided accept_all motor_1 hw_up 1000 50 (-1000))
    as (Hcheck & _ & Hsend & _).
  assert (Hle : PrimFloat.leb (-1000) (max_current_a motor_1) = true)
    by (vm_compute; reflexivity).
  assert (Hv : _check_velocity_safe motor_1 50 = true) by (vm_compute; reflexivity).
  split; [exact Hle|split; [exact Hv|split; [exact (Hcheck Hle)|]]].
  apply (Hsend Hv Hle); [apply encode_servo_speed_50_m1000|reflexivity|reflexivity].
Defined.

(** ** Heartbeat (C7) *)

Lemma alive_after_store (self : Motor) (now : float) :
  Py.is_finite now = true ->
  is_heartbeat_alive (set_last_command_time self now) now = true.
Proof.
  intros Hfin. unfold is_heartbeat_alive. cbn [last_command_time set_last_command_time].
  destruct (Py.eq0 now); [reflexivity|].
  change heartbeat_window with 0.5%float.
  apply zero_lt_window, sub_diag_finite, Hfin.
Qed.

Lemma stale_after_window (self : Motor) (now later : float) :
  Py.eq0 now = false ->
  Py.gt (later - now)%float heartbeat_window = true ->
  is_heartbeat_alive (set_last_command_time self now) later = false.
Proof.
  intros Hnz Hgt. unfold is_heartbeat_alive. cbn [last_command_time set_last_command_time].
  rewrite Hnz. apply gt_not_lt, Hgt.
Qed.

(** [set_zero_point] never touches the motor record. *)
Lemma set_zero_point_keeps_motor
    (bus_send : CANFrame -> bool) (self : Motor) (hw : CANHardware) :
  snd (fst (set_zero_point bus_send self hw)) = self.
Proof.
  unfold set_zero_point.
  destruct (ProtocolEncoder.encode_set_zero_point (motor_id self)) as [frame|]; [|reflexivity].
  destruct (send_frame bus_send hw frame) as [[|] hw']; reflexivity.
Qed.

(** C7 — the heartbeat is to be alive immediately after any successful
    command.  [set_zero_point] is a command, and a successful one leaves
    [last_command_time] as it was, where [set_position] and [set_velocity]
    store the clock: after a velocity command at clock 1000 and a
    successful zero-point command that returns at clock 2000.5, the
    heartbeat check at 2000.5 returns False. *)
Lemma heartbeat_stale_after_set_zero_point :
  (let '(ok1, m1, hw1) := set_velocity accept_all motor_1 hw_up 1000 50 2 in
   let '(ok2, m2, hw2) := set_zero_point accept_all m1 hw1 in
   ok1 && ok2 && negb (is_heartbeat_alive m2 2000.5)) = true.
Proof. vm_compute. reflexivity. Qed.

(** For the commands that store the clock: is_heartbeat_alive returns True
    while the last command timestamp is still zero, and True at the clock
    reading of any successful set_position, set_velocity or stop, and for
    as long as the elapsed time stays below 500 ms; once the clock is more
    than 500 ms past the (non-zero) reading of the last such command, it
    returns False. *)
Theorem heartbeat_window_semantics
    (bus_send : CANFrame -> bool) (self : Motor) (hw : CANHardware) (now : float) :
  (Py.eq0 (last_command_time self) = true ->
   forall t, is_heartbeat_alive self t = true)
  /\ (forall self' hw',
        (exists position_deg speed_limit_rpm current_limit_a mode,
           set_position bus_send self hw now position_deg speed_limit_rpm
             current_limit_a mode = (true, self', hw'))
        \/ (exists velocity_rpm current_limit_a,
              set_velocity bus_send self hw now velocity_rpm current_limit_a
              = (true, self', hw'))
        \/ stop bus_send self hw now = (true, self', hw') ->
        (Py.is_finite now = true -> is_heartbeat_alive self' now = true)
        /\ (forall later,
              Py.lt (later - now)%float heartbeat_window = true ->
              is_heartbeat_alive self' later = true)
        /\ (Py.eq0 now = false ->
            forall later,
              Py.gt (later - now)%float heartbeat_window = true ->
              is_heartbeat_alive self' later = false)).
Proof.
  split.
  - intros H0 t. unfold is_heartbeat_alive. rewrite H0. reflexivity.
  - intros self' hw' Hcmd.
    assert (Hself : self' = set_last_command_time self now).
    { destruct Hcmd as [(p & s & c & mode & H)|[(v & c & H)|H]].
      - exact (set_position_true bus_send self hw now p s c mode self' hw' H).
      - exact (set_velocity_true bus_send self hw now v c self' hw' H).
      - exact (set_velocity_true bus_send self hw now 0 0 self' hw' H). }
    subst self'. split; [|split].
    + apply alive_after_store.
    + intros later Hlt. unfold is_heartbeat_alive.
      cbn [last_command_time set_last_command_time].
      destruct (Py.eq0 now); [reflexivity|exact Hlt].
    + intros Hnz later. apply stale_after_window, Hnz.
Qed.

Lemma heartbeat_window_semantics_witness :
  (Py.eq0 (last_command_time motor_1) = true
   /\ is_heartbeat_alive motor_1 12345 = true)
  /\ (stop accept_all motor_1 hw_up 1000
      = (true, set_last_command_time motor_1 1000,
         hw_sent hw_up {| arbitration_id := 1;
                          data := [x00; x00; x00; x00; x00; x00; x00; x00];
                          is_extended := false |})
      /\ Py.is_finite 1000 = true
      /\ is_heartbeat_alive (set_last_command_time motor_1 1000) 1000 = true
      /\ Py.eq0 1000 = false
      /\ Py.gt (1000.75 - 1000)%float heartbeat_window = true
      /\ is_heartbeat_alive (set_last_command_time motor_1 1000) 1000.75 = false).
Proof.
  pose proof (heartbeat_window_semantics accept_all motor_1 hw_up 1000) as (Hzero & Hcmd).
  assert (Hstop : stop accept_all motor_1 hw_up 1000
                  = (true, set_last_command_time motor_1 1000,
                     hw_sent hw_up {| arbitration_id := 1;
                                      data := [x00; x00; x00; x00; x00; x00; x00; x00];
                                      is_extended := false |}))
    by (vm_compute; reflexivity).
  assert (Hfin : Py.is_finite 1000 = true) by (vm_compute; reflexivity).
  assert (Hnz : Py.eq0 1000 = false) by (vm_compute; reflexivity).
  assert (Hgt : Py.gt (1000.75 - 1000)%float heartbeat_window = true)
    by (vm_compute; reflexivity).
  destruct (Hcmd _ _ (or_intror (or_intror Hstop))) as (Halive & _ & Hstale).
  split.
  - split; [reflexivity|]. apply Hzero. reflexivity.
  - split; [exact Hstop|split; [exact Hfin|split; [exact (Halive Hfin)|]]].
    split; [exact Hnz|split; [exact Hgt|exact (Hstale Hnz 1000.75%float Hgt)]].
Defined.

(** ** The fleet registry (C8) *)

Lemma sorted_ascending (s : gset Z) : Sorted Z.le (sorted s).
Proof. unfold sorted. apply Sorted_merge_sort. apply _. Qed.

Lemma sorted_NoDup (s : gset Z) : NoDup (sorted s).
Proof.
  unfold sorted. rewrite merge_sort_Permutation. apply NoDup_elements.
Qed.

Lemma sorted_elem (s : gset Z) (z : Z) : z ∈ sorted s <-> z ∈ s.
Proof.
  unfold sorted. rewrite merge_sort_Permutation. apply elem_of_elements.
Qed.

Lemma scan_motors_cases (bus_send : CANFrame -> bool) (hw : CANHardware)
    (polls : list (option CANFrame)) :
  fst (scan_motors bus_send hw polls) = []
  \/ fst (scan_motors bus_send hw polls) = sorted (fold_left scan_step polls ∅).
Proof.
  unfold scan_motors.
  destruct ProtocolEncoder.encode_query_id as [frame|]; [|left; reflexivity].
  destruct (send_frame bus_send hw frame) as [[|] hw']; cbn [negb fst]; auto.
Qed.

Lemma add_motor_registered (self self' : MotorManager) (motor_id : Z) (motor : nat) :
  add_motor self motor_id = Ok (motor, self') ->
  motors self' !! motor_id = Some motor.
Proof.
  unfold add_motor, new_Motor.
  destruct (motors self !! motor_id) as [r|] eqn:Hlook.
  - intros H. injection H as <- <-. exact Hlook.
  - destruct (Motor_init motor_id) as [m|]; cbn [mbind result_bind mret result_ret];
      [|discriminate].
    intros H. injection H as <- <-. cbn [motors]. apply lookup_insert_eq.
Qed.

(** C8 — add_motor is idempotent: when a call with some id returns a
    Motor, a second call with the same id returns the very same object and
    leaves the manager, its object store and the hardware callbacks
    unchanged (nothing is constructed); for an id in 1..32 the first call
    does return a Motor.  For every sequence of inbound responses, the list
    scan_motors returns is sorted in ascending order and has no
    duplicates. *)
Theorem fleet_idempotent_scan_sorted :
  (forall (self self' : MotorManager) (motor_id : Z) (motor : nat),
      add_motor self motor_id = Ok (motor, self') ->
      add_motor self' motor_id = Ok (motor, self'))
  /\ (forall (self : MotorManager) (motor_id : Z),
        1 <= motor_id <= 32 ->
        exists motor self', add_motor self motor_id = Ok (motor, self'))
  /\ (forall (bus_send : CANFrame -> bool) (hw : CANHardware)
             (polls : list (option CANFrame)),
        Sorted Z.le (fst (scan_motors bus_send hw polls))
        /\ NoDup (fst (scan_motors bus_send hw polls))).
Proof.
  split; [|split].
  - intros self self' motor_id motor H.
    apply add_motor_registered in H. unfold add_motor. rewrite H. reflexivity.
  - intros self motor_id Hid. unfold add_motor, new_Motor, Motor_init.
    destruct (motors self !! motor_id) as [r|]; [eauto|].
    destruct (Z.leb_spec 1 motor_id); [|lia].
    destruct (Z.leb_spec motor_id 32); [|lia].
    cbn [andb negb mbind result_bind mret result_ret]. eauto.
  - intros bus_send hw polls.
    destruct (scan_motors_cases bus_send hw polls) as [-> | ->].
    + split; constructor.
    + split; [apply sorted_ascending|apply sorted_NoDup].
Qed.

Lemma fleet_idempotent_scan_sorted_witness :
  add_motor manager_empty 3 = Ok (0%nat, manager_with_3)
  /\ add_motor manager_with_3 3 = Ok (0%nat, manager_with_3)
  /\ message_callbacks (can_hardware manager_with_3) = [0%nat]
  /\ (1 <= 3 <= 32 /\ exists motor self', add_motor manager_empty 3 = Ok (motor, self')).
Proof.
  pose proof fleet_idempotent_scan_sorted as (Hidem & Hnew & _).
  assert (Hfirst : add_motor manager_empty 3 = Ok (0%nat, manager_with_3))
    by reflexivity.
  assert (H3 : 1 <= 3 <= 32) by lia.
  split; [exact Hfirst|split; [exact (Hidem _ _ _ _ Hfirst)|split; [reflexivity|]]].
  split; [exact H3|exact (Hnew manager_empty 3 H3)].
Defined.

Example scan_motors_example :
  fst (scan_motors accept_all hw_up
         [Some frame_discovery; None; Some frame_not_discovery; Some frame_discovery])
  = [1; 3; 32].
Proof. vm_compute. reflexivity. Qed.

(** ** The servo-position command (C4) *)

Example py_round_examples :
  py_round 0.5 = Ok 0 /\ py_round 1.5 = Ok 2 /\ py_round 2.5 = Ok 2
  /\ py_round (-1.75) = Ok (-2) /\ py_round 1000 = Ok 1000.
Proof. repeat split; vm_compute; reflexivity. Qed.

(** C4, as stated, fails twice.  The limits are truncated, not rounded:
    for speed_limit = 0.175 the product 1.75 rounds to 2 but bytes 4–5
    hold 1.  And not every input yields a payload: a position of 1e41
    degrees does not fit single precision and [struct.pack] raises, as does
    [int] for a NaN limit. *)
Lemma encode_servo_position_truncates :
  data <$> ProtocolEncoder.encode_servo_position_command 1 45 0.175 5
  = Ok [x3f; x49; x0f; xdb; x00; x01; x01; xf4]
  /\ spec_servo_position_payload 45 0.175 5
     = Ok [x3f; x49; x0f; xdb; x00; x02; x01; xf4]
  /\ ProtocolEncoder.encode_servo_position_command 1 1e41 100 5 = Raise OverflowError
  /\ ProtocolEncoder.encode_servo_position_command 1 45 100 nan = Raise ValueError.
Proof. repeat split; vm_compute; reflexivity. Qed.

(** C4 (amended) — Whenever none of the conversions raises (the position
    in radians and both limits fit single precision, and speed_limit·10 and
    current_limit·100 are finite), the servo-position encoder produces an
    8-byte payload whose bytes 0–3 are the single-precision big-endian
    encoding of position_deg converted to radians, bytes 4–5 are the
    big-endian unsigned 16-bit value of speed_limit·10 truncated toward
    zero and clamped to [0,65535], and bytes 6–7 are the big-endian
    unsigned 16-bit value of current_limit·100 truncated toward zero and
    clamped to [0,65535]. *)
Theorem encode_servo_position_layout
    (motor_id : Z) (position speed_limit current_limit : float) :
  is_ok (float_to_bytes (Py.radians position)) = true ->
  is_ok (float_to_bytes speed_limit) = true ->
  is_ok (float_to_bytes current_limit) = true ->
  Py.is_finite (speed_limit * 10)%float = true ->
  Py.is_finite (current_limit * 100)%float = true ->
  let speed_int := Py.clamp 0 65535 (trunc (speed_limit * 10)%float) in
  let current_int := Py.clamp 0 65535 (trunc (current_limit * 100)%float) in
  exists pos_bytes,
    float_to_bytes (Py.radians position) = Ok pos_bytes
    /\ length pos_bytes = 4%nat
    /\ ProtocolEncoder.encode_servo_position_command
         motor_id position speed_limit current_limit
       = Ok {| arbitration_id := motor_id;
               data := pos_bytes ++ big_endian 2 speed_int ++ big_endian 2 current_int;
               is_extended := false |}
    /\ length (pos_bytes ++ big_endian 2 speed_int ++ big_endian 2 current_int) = 8%nat
    /\ int_from_bytes_big (big_endian 2 speed_int) = speed_int
    /\ int_from_bytes_big (big_endian 2 current_int) = current_int.
Proof.
  intros Hpos Hspeed Hcur Hs Hc speed_int current_int.
  assert (Rs : 0 <= speed_int <= 65535) by (apply clamp_range; lia).
  assert (Rc : 0 <= current_int <= 65535) by (apply clamp_range; lia).
  unfold ProtocolEncoder.encode_servo_position_command.
  destruct (float_to_bytes (Py.radians position)) as [pos_bytes|] eqn:Epos;
    [|discriminate Hpos].
  destruct (float_to_bytes speed_limit) as [speed_bytes|]; [|discriminate Hspeed].
  destruct (float_to_bytes current_limit) as [current_bytes|]; [|discriminate Hcur].
  destruct (float_to_bytes_Ok _ _ Epos) as [w ->].
  exists (big_endian 4 w).
  split; [reflexivity|split; [reflexivity|split; [|split; [reflexivity|split]]]].
  - cbn [mbind result_bind].
    rewrite (int_of_float_finite _ Hs), (int_of_float_finite _ Hc).
    cbn [mbind result_bind].
    change (Z.max 0 (Z.min (trunc (speed_limit * 10)%float) 65535)) with speed_int.
    change (Z.max 0 (Z.min (trunc (current_limit * 100)%float) 65535)) with current_int.
    rewrite (int_to_bytes_big_u16 _ Rs), (int_to_bytes_big_u16 _ Rc).
    reflexivity.
  - apply int_from_bytes_big_endian. change (256 ^ Z.of_nat 2) with 65536. lia.
  - apply int_from_bytes_big_endian. change (256 ^ Z.of_nat 2) with 65536. lia.
Qed.

Lemma encode_servo_position_layout_witness :
  (is_ok (float_to_bytes (Py.radians 90)) = true
   /\ is_ok (float_to_bytes 100) = true
   /\ is_ok (float_to_bytes 3) = true
   /\ Py.is_finite (100 * 10)%float = true
   /\ Py.is_finite (3 * 100)%float = true)
  /\ ProtocolEncoder.encode_servo_position_command 1 90 100 3
     = Ok {| arbitration_id := 1;
             data := [x3f; xc9; x0f; xdb; x03; xe8; x01; x2c];
             is_extended := false |}.
Proof.
  assert (H1 : is_ok (float_to_bytes (Py.radians 90)) = true) by (vm_compute; reflexivity).
  assert (H2 : is_ok (float_to_bytes 100) = true) by (vm_compute; reflexivity).
  assert (H3 : is_ok (float_to_bytes 3) = true) by (vm_compute; reflexivity).
  assert (H4 : Py.is_finite (100 * 10)%float = true) by (vm_compute; reflexivity).
  assert (H5 : Py.is_finite (3 * 100)%float = true) by (vm_compute; reflexivity).
  split; [auto|].
  destruct (encode_servo_position_layout 1 90 100 3 H1 H2 H3 H4 H5)
    as (pos_bytes & Hpos & _ & Henc & _).
  rewrite Henc. vm_compute in Hpos. injection Hpos as <-.
  vm_compute. reflexivity.
Defined.

(** * Further properties *)

(** ** Frames the encoders return *)

Lemma int_to_bytes_big_Ok (n : nat) (z : Z) (bs : list byte) :
  int_to_bytes_big n z = Ok bs -> bs = big_endian n z.
Proof.
  unfold int_to_bytes_big.
  destruct ((0 <=? z) && (z <? 256 ^ Z.of_nat n)); [|discriminate].
  intros H. injection H as <-. reflexivity.
Qed.

Lemma CANFrame_init_Ok (id : Z) (d : list byte) (f : CANFrame) :
  CANFrame_init id d = Ok f ->
  arbitration_id f = id /\ data f = d /\ is_extended f = false.
Proof.
  unfold CANFrame_init. destruct (8 <? length d)%nat; [discriminate|].
  intros H. injection H as <-. auto.
Qed.

Lemma encode_servo_speed_shape (id : Z) (speed current_limit : float) (f : CANFrame) :
  ProtocolEncoder.encode_servo_speed_command id speed current_limit = Ok f ->
  arbitration_id f = id /\ length (data f) = 8%nat.
Proof.
  unfold ProtocolEncoder.encode_servo_speed_command.
  destruct (float_to_bytes speed) as [sb|] eqn:Es;
    cbn [mbind result_bind]; [|discriminate].
  destruct (float_to_bytes current_limit) as [cb|] eqn:Ec;
    cbn [mbind result_bind]; [|discriminate].
  destruct (float_to_bytes_Ok _ _ Es) as [ws ->].
  destruct (float_to_bytes_Ok _ _ Ec) as [wc ->].
  intros H.
  apply CANFrame_init_Ok in H as (Hid & Hd & _). rewrite Hd. auto.
Qed.

Lemma encode_servo_position_shape
    (id : Z) (position speed_limit current_limit : float) (f : CANFrame) :
  ProtocolEncoder.encode_servo_position_command id position speed_limit current_limit
  = Ok f ->
  arbitration_id f = id /\ length (data f) = 8%nat.
Proof.
  unfold ProtocolEncoder.encode_servo_position_command.
  destruct (float_to_bytes (Py.radians position)) as [pb|] eqn:Ep;
    cbn [mbind result_bind]; [|discriminate].
  destruct (float_to_bytes speed_limit) as [sb|];
    cbn [mbind result_bind]; [|discriminate].
  destruct (float_to_bytes current_limit) as [cb|];
    cbn [mbind result_bind]; [|discriminate].
  destruct (float_to_bytes_Ok _ _ Ep) as [wp ->].
  destruct (Py.int_of_float (speed_limit * 10)%float) as [si|];
    cbn [mbind result_bind]; [|discriminate].
  destruct (Py.int_of_float (current_limit * 100)%float) as [ci|];
    cbn [mbind result_bind]; [|discriminate].
  destruct (int_to_bytes_big 2 (Z.max 0 (Z.min si 65535))) as [s2|] eqn:E1;
    cbn [mbind result_bind]; [|discriminate].
  apply int_to_bytes_big_Ok in E1 as ->.
  destruct (int_to_bytes_big 2 (Z.max 0 (Z.min ci 65535))) as [c2|] eqn:E2;
    cbn [mbind result_bind]; [|discriminate].
  apply int_to_bytes_big_Ok in E2 as ->.
  intros H. apply CANFrame_init_Ok in H as (Hid & Hd & _). rewrite Hd. auto.
Qed.

Lemma encode_force_position_shape
    (id : Z) (kp kd position velocity torque : float) (f : CANFrame) :
  ProtocolEncoder.encode_force_position_command id kp kd position velocity torque
  = Ok f ->
  arbitration_id f = id /\ length (data f) = 8%nat.
Proof.
  unfold ProtocolEncoder.encode_force_position_command.
  destruct (Py.int_of_float kp) as [a|]; cbn [mbind result_bind]; [|discriminate].
  destruct (Py.int_of_float kd) as [b|]; cbn [mbind result_bind]; [|discriminate].
  destruct (Py.int_of_float (ProtocolEncoder.pos_scaled position)) as [c|];
    cbn [mbind result_bind]; [|discriminate].
  destruct (Py.int_of_float (ProtocolEncoder.vel_scaled velocity)) as [d|];
    cbn [mbind result_bind]; [|discriminate].
  destruct (Py.int_of_float (ProtocolEncoder.tor_scaled torque)) as [e|];
    cbn [mbind result_bind]; [|discriminate].
  rewrite bytes_of_split_bytes. cbn [mbind result_bind].
  intros H. apply CANFrame_init_Ok in H as (Hid & Hd & _).
  rewrite Hd, length_big_endian. auto.
Qed.

Lemma position_frame_shape (self : Motor)
    (position_deg speed_limit_rpm current_limit_a : float) (mode : string)
    (f : CANFrame) :
  position_frame self position_deg speed_limit_rpm current_limit_a mode = Ok f ->
  arbitration_id f = motor_id self /\ length (data f) = 8%nat.
Proof.
  unfold position_frame.
  destruct (String.eqb mode "servo"); [apply encode_servo_position_shape|].
  destruct (String.eqb mode "force"); [apply encode_force_position_shape|].
  discriminate.
Qed.

(** ** Motor commands *)

Lemma same_settings_refl (self : Motor) : same_settings self self.
Proof. unfold same_settings. auto 10. Qed.

Lemma same_settings_stamp (self : Motor) (t : float) :
  same_settings self (set_last_command_time self t).
Proof. unfold same_settings. cbn. auto 10. Qed.

Lemma send_stage_outcome (bus_send : CANFrame -> bool) (self : Motor)
    (hw : CANHardware) (now : float) (r : result CANFrame) :
  (forall f, r = Ok f -> arbitration_id f = motor_id self /\ length (data f) = 8%nat) ->
  command_outcome self hw (send_stage bus_send self hw now r).
Proof.
  intros Hshape. unfold send_stage. destruct r as [frame|e]; [|split; reflexivity].
  destruct (Hshape frame eq_refl) as [Hid Hlen].
  destruct (is_connected hw && bus_send frame); [|split; reflexivity].
  split; [apply same_settings_stamp|]. exists frame. auto.
Qed.

(** X1 — A command returns [False] with nothing sent and nothing changed, or
    [True] with exactly one frame sent, addressed to the motor and eight
    bytes long. *)
Theorem commands_send_one_frame
    (bus_send : CANFrame -> bool) (self : Motor) (hw : CANHardware) (now : float)
    (position_deg speed_limit_rpm current_limit_a velocity_rpm : float)
    (mode : string) :
  command_outcome self hw
    (set_position bus_send self hw now position_deg speed_limit_rpm current_limit_a mode)
  /\ command_outcome self hw
       (set_velocity bus_send self hw now velocity_rpm current_limit_a)
  /\ command_outcome self hw (stop bus_send self hw now)
  /\ command_outcome self hw (set_zero_point bus_send self hw).
Proof.
  assert (Hvel : forall v c,
             command_outcome self hw (set_velocity bus_send self hw now v c)).
  { intros v c.
    destruct (_check_velocity_safe self v) eqn:Hv;
      [|unfold set_velocity; rewrite Hv; split; reflexivity].
    destruct (_check_current_safe self c) eqn:Hc;
      [|unfold set_velocity; rewrite Hv, Hc; split; reflexivity].
    rewrite (set_velocity_send_stage bus_send self hw now v c Hv Hc).
    apply send_stage_outcome. intros f. apply encode_servo_speed_shape. }
  split; [|split; [apply Hvel|split; [apply Hvel|]]].
  - destruct (_check_position_safe self position_deg) eqn:Hp;
      [|unfold set_position; rewrite Hp; split; reflexivity].
    destruct (_check_velocity_safe self speed_limit_rpm) eqn:Hv;
      [|unfold set_position; rewrite Hp, Hv; split; reflexivity].
    destruct (_check_current_safe self current_limit_a) eqn:Hc;
      [|unfold set_position; rewrite Hp, Hv, Hc; split; reflexivity].
    rewrite (set_position_send_stage bus_send self hw now _ _ _ mode Hp Hv Hc).
    apply send_stage_outcome. intros f. apply position_frame_shape.
  - unfold set_zero_point, ProtocolEncoder.encode_set_zero_point, CANFrame_init, send_frame.
    cbn [length Nat.ltb Nat.leb].
    destruct (is_connected hw) eqn:Hconn; cbn [negb]; [|split; reflexivity].
    destruct (bus_send _); [|split; reflexivity].
    split; [apply same_settings_refl|]. eexists.
    split; [unfold hw_sent; rewrite Hconn; reflexivity|]. auto.
Qed.

(** X2 — [set_velocity] fails closed as [set_position] does. *)
Theorem set_velocity_fails_closed
    (bus_send : CANFrame -> bool) (self : Motor) (hw : CANHardware) (now : float)
    (velocity_rpm current_limit_a : float) :
  Py.gt (Py.abs velocity_rpm) (max_velocity_rpm self) = true
  \/ Py.gt current_limit_a (max_current_a self) = true ->
  set_velocity bus_send self hw now velocity_rpm current_limit_a = (false, self, hw).
Proof.
  intros H. unfold set_velocity, _check_velocity_safe, _check_current_safe.
  destruct (Py.gt (Py.abs velocity_rpm) (max_velocity_rpm self)); [reflexivity|].
  destruct (Py.gt current_limit_a (max_current_a self)); [reflexivity|].
  destruct H as [H|H]; discriminate H.
Qed.

Lemma set_velocity_fails_closed_witness :
  Py.gt (Py.abs (-1500)) (max_velocity_rpm motor_1) = true
  /\ set_velocity accept_all motor_1 hw_up 1000 (-1500) 2 = (false, motor_1, hw_up).
Proof.
  assert (H : Py.gt (Py.abs (-1500)) (max_velocity_rpm motor_1) = true)
    by (vm_compute; reflexivity).
  split; [exact H|].
  exact (set_velocity_fails_closed accept_all motor_1 hw_up 1000 (-1500) 2 (or_introl H)).
Defined.

(** A NaN is greater than nothing. *)
Lemma gt_nan (limit : float) : Py.gt (Py.abs nan) limit = false.
Proof.
  unfold Py.gt. change (Py.abs nan) with nan.
  rewrite FloatAxioms.ltb_spec. change (Prim2SF nan) with S754_nan.
  unfold SFltb. destruct (Prim2SF limit) as [s|s| |s m e]; reflexivity.
Qed.

Lemma gt_nan_plain (limit : float) : Py.gt nan limit = false.
Proof. exact (gt_nan limit). Qed.

(** X4 — No safety check rejects a NaN, whatever the limits, so a NaN
    velocity is encoded and sent: on a working link [set_velocity] returns
    [True], stores the clock reading and sends the one eight-byte frame the
    encoder built for the motor. *)
Theorem nan_passes_safety_checks
    (bus_send : CANFrame -> bool) (self : Motor) (hw : CANHardware) (now : float)
    (current_limit_a : float) :
  _check_position_safe self nan = true
  /\ _check_velocity_safe self nan = true
  /\ _check_current_safe self nan = true
  /\ (_check_current_safe self current_limit_a = true ->
      is_ok (float_to_bytes current_limit_a) = true ->
      is_connected hw = true -> (forall frame, bus_send frame = true) ->
      exists frame,
        ProtocolEncoder.encode_servo_speed_command (motor_id self) nan current_limit_a
        = Ok frame
        /\ arbitration_id frame = motor_id self
        /\ length (data frame) = 8%nat
        /\ set_velocity bus_send self hw now nan current_limit_a
           = (true, set_last_command_time self now, hw_sent hw frame)).
Proof.
  assert (Hv : _check_velocity_safe self nan = true)
    by (unfold _check_velocity_safe; rewrite gt_nan; reflexivity).
  split; [unfold _check_position_safe; rewrite gt_nan; reflexivity|].
  split; [exact Hv|].
  split; [unfold _check_current_safe; rewrite gt_nan_plain; reflexivity|].
  intros Hc Hcb Hconn Hsend.
  destruct (encode_servo_speed_ok (motor_id self) nan current_limit_a)
    as [frame Hframe]; [vm_compute; reflexivity|exact Hcb|].
  destruct (encode_servo_speed_shape _ _ _ _ Hframe) as [Hid Hlen].
  exists frame. split; [exact Hframe|]. split; [exact Hid|]. split; [exact Hlen|].
  rewrite (set_velocity_send_stage bus_send self hw now nan current_limit_a Hv Hc).
  unfold send_stage. rewrite Hframe, Hconn, Hsend. reflexivity.
Qed.

Lemma nan_passes_safety_checks_witness :
  _check_current_safe motor_1 2 = true
  /\ exists frame,
       ProtocolEncoder.encode_servo_speed_command (motor_id motor_1) nan 2 = Ok frame
       /\ arbitration_id frame = motor_id motor_1
       /\ length (data frame) = 8%nat
       /\ set_velocity accept_all motor_1 hw_up 1000 nan 2
          = (true, set_last_command_time motor_1 1000, hw_sent hw_up frame).
Proof.
  assert (Hc : _check_current_safe motor_1 2 = true) by (vm_compute; reflexivity).
  split; [exact Hc|].
  apply (proj2 (proj2 (proj2
           (nan_passes_safety_checks accept_all motor_1 hw_up 1000 2))) Hc);
    reflexivity.
Defined.

(** X5 — [stop()] is [set_velocity(0.0, 0.0)], so it goes through the safety
    checks: it succeeds when neither limit is negative and is refused
    when one is. *)
Theorem stop_needs_nonnegative_limits
    (bus_send : CANFrame -> bool) (self : Motor) (hw : CANHardware) (now : float) :
  (Py.gt 0 (max_velocity_rpm self) = false ->
   Py.gt 0 (max_current_a self) = false ->
   is_connected hw = true ->
   bus_send {| arbitration_id := motor_id self; data := zero_payload;
               is_extended := false |} = true ->
   stop bus_send self hw now
   = (true, set_last_command_time self now,
      hw_sent hw {| arbitration_id := motor_id self; data := zero_payload;
                    is_extended := false |}))
  /\ (Py.gt 0 (max_velocity_rpm self) = true
      \/ Py.gt 0 (max_current_a self) = true ->
      stop bus_send self hw now = (false, self, hw)).
Proof.
  unfold stop, set_velocity, _check_velocity_safe, _check_current_safe.
  change (Py.abs 0) with 0%float.
  replace (ProtocolEncoder.encode_servo_speed_command (motor_id self) 0 0)
    with (Ok {| arbitration_id := motor_id self; data := zero_payload;
                is_extended := false |})
    by (vm_compute; reflexivity).
  split.
  - intros Hv Hc Hconn Hsend. rewrite Hv, Hc. cbn [negb].
    unfold send_frame. rewrite Hconn. cbn [negb]. rewrite Hsend.
    unfold hw_sent. rewrite Hconn. reflexivity.
  - intros [H|H].
    + rewrite H. reflexivity.
    + destruct (Py.gt 0 (max_velocity_rpm self)); [reflexivity|].
      rewrite H. reflexivity.
Qed.

Lemma stop_needs_nonnegative_limits_witness :
  (Py.gt 0 (max_velocity_rpm motor_1) = false
   /\ Py.gt 0 (max_current_a motor_1) = false
   /\ stop accept_all motor_1 hw_up 1000
      = (true, set_last_command_time motor_1 1000,
         hw_sent hw_up {| arbitration_id := 1; data := zero_payload;
                          is_extended := false |}))
  /\ (Py.gt 0 (max_velocity_rpm motor_1_negative_limit) = true
      /\ stop accept_all motor_1_negative_limit hw_up 1000
         = (false, motor_1_negative_limit, hw_up)).
Proof.
  assert (Hv : Py.gt 0 (max_velocity_rpm motor_1) = false) by (vm_compute; reflexivity).
  assert (Hc : Py.gt 0 (max_current_a motor_1) = false) by (vm_compute; reflexivity).
  assert (Hn : Py.gt 0 (max_velocity_rpm motor_1_negative_limit) = true)
    by (vm_compute; reflexivity).
  split.
  - split; [exact Hv|split; [exact Hc|]].
    exact (proj1 (stop_needs_nonnegative_limits accept_all motor_1 hw_up 1000)
             Hv Hc eq_refl eq_refl).
  - split; [exact Hn|].
    exact (proj2 (stop_needs_nonnegative_limits accept_all motor_1_negative_limit
                    hw_up 1000) (or_introl Hn)).
Defined.

(** X6 — A mode other than ['servo'] and ['force'] makes [set_position] return
    [False] with nothing sent: the [ValueError] is caught. *)
Theorem set_position_unknown_mode
    (bus_send : CANFrame -> bool) (self : Motor) (hw : CANHardware) (now : float)
    (position_deg speed_limit_rpm current_limit_a : float) (mode : string) :
  mode <> "servo"%string -> mode <> "force"%string ->
  set_position bus_send self hw now position_deg speed_limit_rpm current_limit_a mode
  = (false, self, hw).
Proof.
  intros Hs Hf. unfold set_position, position_frame.
  apply String.eqb_neq in Hs, Hf. rewrite Hs, Hf.
  destruct (_check_position_safe self position_deg); [|reflexivity].
  destruct (_check_velocity_safe self speed_limit_rpm); [|reflexivity].
  destruct (_check_current_safe self current_limit_a); reflexivity.
Qed.

Lemma set_position_unknown_mode_witness :
  "torque"%string <> "servo"%string /\ "torque"%string <> "force"%string
  /\ set_position accept_all motor_1 hw_up 1000 45 100 5 "torque" = (false, motor_1, hw_up).
Proof.
  assert (H1 : "torque"%string <> "servo"%string) by discriminate.
  assert (H2 : "torque"%string <> "force"%string) by discriminate.
  split; [exact H1|split; [exact H2|]].
  exact (set_position_unknown_mode accept_all motor_1 hw_up 1000 45 100 5 "torque" H1 H2).
Defined.

(** ** What a decoded status says about its frame *)

Lemma length_ge_8_inv {A} (l : list A) :
  (8 <= length l)%nat ->
  exists a0 a1 a2 a3 a4 a5 a6 a7 rest, l = a0 :: a1 :: a2 :: a3 :: a4 :: a5 :: a6 :: a7 :: rest.
Proof.
  intros H.
  do 8 (destruct l as [|? l]; [cbn in H; lia|]).
  eauto 12.
Qed.

Lemma first_matching_error_zero (b : Z) :
  first_matching_error b = NO_ERROR <-> b = 0.
Proof.
  split.
  - unfold first_matching_error, error_priority. cbn [List.find fst snd].
    repeat (destruct (ProtocolDecoder.bit_set b _); [discriminate|]).
    destruct (Z.eqb_spec b 0); [auto|discriminate].
  - intros ->. reflexivity.
Qed.

Section DecodeShape.
Variables (id : Z) (ext : bool) (b0 b1 b2 b3 b4 b5 b6 b7 : byte) (rest : list byte).
Let f := {| arbitration_id := id;
            data := b0 :: b1 :: b2 :: b3 :: b4 :: b5 :: b6 :: b7 :: rest;
            is_extended := ext |}.
Let key := ProtocolDecoder.feedback_type_code (Z_of_byte b0).

(** On eight bytes or more every sub-decoder returns; the status carries
    the frame's id, the type of the key, and an error only for key 5. *)
Lemma decode_feedback_long (st : MotorStatus) :
  ProtocolDecoder.decode_feedback f = Ok (Some st) ->
  status_motor_id st = id
  /\ feedback_type st = FeedbackType_of_key key
  /\ FeedbackType_of_key key <> None
  /\ error_code st
     = (if key =? 5 then first_matching_error (Z_of_byte b1) else NO_ERROR).
Proof.
  unfold ProtocolDecoder.decode_feedback. cbn [data f length Nat.ltb Nat.leb].
  unfold ProtocolDecoder.decode_feedback_body.
  cbn [data f ProtocolDecoder.index lookup list_lookup mbind result_bind].
  fold key. unfold FeedbackType_of_key.
  destruct (key =? 1) eqn:K1.
  { unfold ProtocolDecoder._decode_type1_feedback.
    cbn [data f arbitration_id ProtocolDecoder.index lookup list_lookup mbind result_bind
         ProtocolDecoder.slice drop take Nat.sub].
    rewrite !unpack_h_pair. cbn [mbind result_bind mret result_ret fmap result_fmap].
    intros H. injection H as <-. cbn. apply Z.eqb_eq in K1. rewrite K1. auto. }
  destruct (key =? 2) eqn:K2.
  { unfold ProtocolDecoder._decode_type2_feedback.
    cbn [data f arbitration_id ProtocolDecoder.index lookup list_lookup mbind result_bind
         ProtocolDecoder.slice drop take Nat.sub].
    rewrite !unpack_h_pair. cbn [mbind result_bind mret result_ret fmap result_fmap].
    intros H. injection H as <-. cbn. apply Z.eqb_eq in K2. rewrite K2. auto. }
  destruct (key =? 3) eqn:K3.
  { unfold ProtocolDecoder._decode_type3_feedback, bytes_to_float.
    cbn [data f arbitration_id ProtocolDecoder.slice drop take Nat.sub length Nat.eqb
         mbind result_bind].
    destruct rest as [|r rest'];
      cbn [length Nat.leb drop take Nat.eqb mbind result_bind mret result_ret
           fmap result_fmap];
      intros H; injection H as <-; cbn; apply Z.eqb_eq in K3; rewrite K3; auto. }
  destruct (key =? 4) eqn:K4.
  { unfold ProtocolDecoder._decode_type4_feedback.
    cbn [data f arbitration_id ProtocolDecoder.index lookup list_lookup mbind result_bind
         mret result_ret fmap result_fmap].
    intros H. injection H as <-. cbn. apply Z.eqb_eq in K4. rewrite K4. auto. }
  destruct (key =? 5) eqn:K5.
  { unfold ProtocolDecoder._decode_type5_feedback.
    cbn [data f arbitration_id ProtocolDecoder.index lookup list_lookup mbind result_bind
         mret result_ret fmap result_fmap].
    intros H. injection H as <-. cbn [status_motor_id feedback_type error_code].
    rewrite error_code_of_raw_priority. auto. }
  discriminate.
Qed.

End DecodeShape.

Lemma decode_feedback_Some (f : CANFrame) (st : MotorStatus) :
  ProtocolDecoder.decode_feedback f = Ok (Some st) ->
  (8 <= length (data f))%nat
  /\ status_motor_id st = arbitration_id f
  /\ (exists k, frame_kind f = Some k
                /\ feedback_type st = FeedbackType_of_key k
                /\ FeedbackType_of_key k <> None
                /\ error_code st
                   = (if k =? 5 then first_matching_error (frame_byte f 1)
                      else NO_ERROR)).
Proof.
  intros H.
  assert (Hlen : (8 <= length (data f))%nat).
  { destruct (Nat.ltb_spec (length (data f)) 8) as [Hs|Hl]; [|exact Hl].
    rewrite (decode_feedback_short f Hs) in H. discriminate H. }
  split; [exact Hlen|].
  destruct f as [id d ext]. cbn [data arbitration_id] in *.
  destruct (length_ge_8_inv d Hlen)
    as (b0 & b1 & b2 & b3 & b4 & b5 & b6 & b7 & rest & ->).
  destruct (decode_feedback_long id ext b0 b1 b2 b3 b4 b5 b6 b7 rest st H)
    as (Hid & Hty & Hne & Herr).
  split; [exact Hid|].
  exists (ProtocolDecoder.feedback_type_code (Z_of_byte b0)).
  unfold frame_kind, frame_byte.
  cbn [data lookup list_lookup fmap option_fmap option_map default]. auto.
Qed.

(** X10 — Whenever [decode_feedback] returns a status, the frame has at least
    eight bytes, the status carries the frame's id and the feedback type
    named by the top three bits of byte 0, and it reports an error exactly
    when that key is 5 and byte 1 is not zero. *)
Theorem decoded_status_matches_frame (f : CANFrame) (st : MotorStatus) :
  ProtocolDecoder.decode_feedback f = Ok (Some st) ->
  (8 <= length (data f))%nat
  /\ status_motor_id st = arbitration_id f
  /\ exists k,
       frame_kind f = Some k
       /\ 1 <= k <= 5
       /\ FeedbackType_value <$> feedback_type st = Some k
       /\ (has_error st = true <-> k = 5 /\ frame_byte f 1 <> 0).
Proof.
  intros H. destruct (decode_feedback_Some f st H) as (Hlen & Hid & k & Hk & Hty & Hne & Herr).
  split; [exact Hlen|split; [exact Hid|]]. exists k. split; [exact Hk|].
  unfold has_error. rewrite Herr, Hty. clear Herr Hty H.
  unfold FeedbackType_of_key in *.
  destruct (Z.eqb_spec k 1) as [->|]; [repeat split; cbn; try lia; intros; try discriminate; lia|].
  destruct (Z.eqb_spec k 2) as [->|]; [repeat split; cbn; try lia; intros; try discriminate; lia|].
  destruct (Z.eqb_spec k 3) as [->|]; [repeat split; cbn; try lia; intros; try discriminate; lia|].
  destruct (Z.eqb_spec k 4) as [->|]; [repeat split; cbn; try lia; intros; try discriminate; lia|].
  destruct (Z.eqb_spec k 5) as [->|]; [|contradiction].
  split; [lia|split; [reflexivity|]].
  cbn [Z.eqb Pos.eqb].
  pose proof (first_matching_error_zero (frame_byte f 1)) as Hz.
  destruct (first_matching_error (frame_byte f 1)) eqn:E; split;
    try (intros _; split; [reflexivity|]; intros H0; apply Hz in H0; discriminate H0);
    try reflexivity.
  - discriminate.
  - intros [_ Hnz]. exfalso. apply Hnz, Hz. reflexivity.
Qed.

Lemma decoded_status_matches_frame_witness :
  ProtocolDecoder.decode_feedback frame_error_05
  = Ok (Some {| status_motor_id := 1;
                position := 0; velocity := 0; current := 0; torque := 0;
                temperature := 0;
                error_code := OVER_VOLTAGE;
                voltage := 0;
                feedback_type := Some TYPE_5 |})
  /\ (8 <= length (data frame_error_05))%nat
  /\ frame_kind frame_error_05 = Some 5.
Proof.
  assert (H : ProtocolDecoder.decode_feedback frame_error_05
              = Ok (Some {| status_motor_id := 1;
                            position := 0; velocity := 0; current := 0; torque := 0;
                            temperature := 0;
                            error_code := OVER_VOLTAGE;
                            voltage := 0;
                            feedback_type := Some TYPE_5 |}))
    by (vm_compute; reflexivity).
  split; [exact H|].
  split; [exact (proj1 (decoded_status_matches_frame _ _ H))|reflexivity].
Defined.

(** ** Kinds 2, 3 and 4 *)

(** X11 — Kind 2 carries position and velocity as kind 1 does, the current in
    bytes 5–6 (signed, times 0.01) and the temperature in byte 7; the
    torque stays 0. *)
Theorem decode_type2_fields (f : CANFrame) :
  length (data f) = 8%nat ->
  frame_kind f = Some 2 ->
  ProtocolDecoder.decode_feedback f
  = Ok (Some {| status_motor_id := arbitration_id f;
                position :=
                  code_position_deg (u16_be (frame_byte f 1) (frame_byte f 2));
                velocity :=
                  (Py.float_of_int
                     (ProtocolDecoder.signed16 (u16_be (frame_byte f 3) (frame_byte f 4)))
                   * 0.1)%float;
                current :=
                  (Py.float_of_int
                     (ProtocolDecoder.signed16 (u16_be (frame_byte f 5) (frame_byte f 6)))
                   * 0.01)%float;
                torque := 0;
                temperature := (Py.float_of_int (frame_byte f 7) * 0.1)%float;
                error_code := NO_ERROR;
                voltage := 0;
                feedback_type := Some TYPE_2 |}).
Proof.
  intros Hlen Hkind. frame8 f Hlen. injection Hkind as Hkind.
  rewrite decode_feedback_8. unfold ProtocolDecoder.decode_feedback_body.
  cbn [data ProtocolDecoder.index lookup list_lookup mbind result_bind].
  rewrite Hkind. cbn [Z.eqb Pos.eqb].
  unfold ProtocolDecoder._decode_type2_feedback.
  cbn [data arbitration_id ProtocolDecoder.index lookup list_lookup mbind result_bind
       ProtocolDecoder.slice drop take Nat.sub].
  rewrite !unpack_h_pair. cbn [mbind result_bind mret result_ret fmap result_fmap].
  rewrite shift_or_bytes by apply Z_of_byte_range. reflexivity.
Qed.

Lemma decode_type2_fields_witness :
  length (data frame_type2_test) = 8%nat
  /\ frame_kind frame_type2_test = Some 2
  /\ ProtocolDecoder.decode_feedback frame_type2_test
     = Ok (Some {| status_motor_id := 7;
                   position := code_position_deg 0x4000;
                   velocity := (Py.float_of_int (-1) * 0.1)%float;
                   current := (Py.float_of_int 0x0123 * 0.01)%float;
                   torque := 0;
                   temperature := (Py.float_of_int 0x28 * 0.1)%float;
                   error_code := NO_ERROR;
                   voltage := 0;
                   feedback_type := Some TYPE_2 |}).
Proof.
  split; [reflexivity|split; [reflexivity|]].
  exact (decode_type2_fields frame_type2_test eq_refl eq_refl).
Defined.

(** X13 — Kind 4 carries the temperature in byte 1 (times 0.1) and the voltage
    in bytes 2–3 (unsigned big-endian, times 0.1); the rest stays 0. *)
Theorem decode_type4_fields (f : CANFrame) :
  length (data f) = 8%nat ->
  frame_kind f = Some 4 ->
  ProtocolDecoder.decode_feedback f
  = Ok (Some {| status_motor_id := arbitration_id f;
                position := 0; velocity := 0; current := 0; torque := 0;
                temperature := (Py.float_of_int (frame_byte f 1) * 0.1)%float;
                error_code := NO_ERROR;
                voltage :=
                  (Py.float_of_int (u16_be (frame_byte f 2) (frame_byte f 3)) * 0.1)%float;
                feedback_type := Some TYPE_4 |}).
Proof.
  intros Hlen Hkind. frame8 f Hlen. injection Hkind as Hkind.
  rewrite decode_feedback_8. unfold ProtocolDecoder.decode_feedback_body.
  cbn [data ProtocolDecoder.index lookup list_lookup mbind result_bind].
  rewrite Hkind. cbn [Z.eqb Pos.eqb].
  unfold ProtocolDecoder._decode_type4_feedback.
  cbn [data arbitration_id ProtocolDecoder.index lookup list_lookup mbind result_bind
       mret result_ret fmap result_fmap].
  rewrite shift_or_bytes by apply Z_of_byte_range. reflexivity.
Qed.

Lemma decode_type4_fields_witness :
  length (data frame_type4_test) = 8%nat
  /\ frame_kind frame_type4_test = Some 4
  /\ ProtocolDecoder.decode_feedback frame_type4_test
     = Ok (Some {| status_motor_id := 7;
                   position := 0; velocity := 0; current := 0; torque := 0;
                   temperature := (Py.float_of_int 0x3f * 0.1)%float;
                   error_code := NO_ERROR;
                   voltage := (Py.float_of_int 0x00f0 * 0.1)%float;
                   feedback_type := Some TYPE_4 |}).
Proof.
  split; [reflexivity|split; [reflexivity|]].
  exact (decode_type4_fields frame_type4_test eq_refl eq_refl).
Defined.

(** X12 — Kind 3 on a frame as the constructor admits it: the position is the
    single-precision number in bytes 1–4, read as radians and converted to
    degrees, and the velocity is always 0 because the frame has no ninth
    byte.  Bytes 5–7 are ignored. *)
Theorem decode_type3_fields (f : CANFrame) :
  frame_wf f ->
  (8 <= length (data f))%nat ->
  frame_kind f = Some 3 ->
  ProtocolDecoder.decode_feedback f
  = Ok (Some {| status_motor_id := arbitration_id f;
                position :=
                  Py.degrees
                    (Binary32.value
                       (((frame_byte f 1 * 256 + frame_byte f 2) * 256
                         + frame_byte f 3) * 256 + frame_byte f 4));
                velocity := 0; current := 0; torque := 0; temperature := 0;
                error_code := NO_ERROR;
                voltage := 0;
                feedback_type := Some TYPE_3 |}).
Proof.
  intros Hwf Hge Hkind. unfold frame_wf in Hwf.
  assert (Hlen : length (data f) = 8%nat) by lia.
  frame8 f Hlen. injection Hkind as Hkind.
  rewrite decode_feedback_8. unfold ProtocolDecoder.decode_feedback_body.
  cbn [data ProtocolDecoder.index lookup list_lookup mbind result_bind].
  rewrite Hkind. cbn [Z.eqb Pos.eqb].
  reflexivity.
Qed.

Lemma decode_type3_fields_witness :
  frame_wf frame_type3_test
  /\ (8 <= length (data frame_type3_test))%nat
  /\ frame_kind frame_type3_test = Some 3
  /\ ProtocolDecoder.decode_feedback frame_type3_test
     = Ok (Some {| status_motor_id := 7;
                   position := Py.degrees (Binary32.value 0x3fc90fdb);
                   velocity := 0; current := 0; torque := 0; temperature := 0;
                   error_code := NO_ERROR;
                   voltage := 0;
                   feedback_type := Some TYPE_3 |}).
Proof.
  assert (Hwf : frame_wf frame_type3_test) by (unfold frame_wf; cbn; lia).
  assert (Hge : (8 <= length (data frame_type3_test))%nat) by (cbn; lia).
  split; [exact Hwf|split; [exact Hge|split; [reflexivity|]]].
  exact (decode_type3_fields frame_type3_test Hwf Hge eq_refl).
Defined.

(** ** Status queries *)

Lemma encode_status_request_frame (id : Z) (t : FeedbackType) :
  ProtocolEncoder.encode_status_request id t = Ok (status_request_frame id t).
Proof. destruct t; reflexivity. Qed.

Lemma await_status_elem (id : Z) (polls : list (option CANFrame)) (st : MotorStatus) :
  await_status id polls = Some st ->
  exists frame,
    Some frame ∈ polls
    /\ arbitration_id frame = id
    /\ ProtocolDecoder.decode_feedback frame = Ok (Some st).
Proof.
  induction polls as [|poll polls IH]; cbn [await_status]; [discriminate|].
  assert (Hrest : await_status id polls = Some st ->
                  exists frame, Some frame ∈ poll :: polls
                                /\ arbitration_id frame = id
                                /\ ProtocolDecoder.decode_feedback frame = Ok (Some st)).
  { intros H. destruct (IH H) as (frame & Hin & Hrest).
    exists frame. split; [apply list_elem_of_further, Hin|exact Hrest]. }
  destruct poll as [frame|]; [|exact Hrest].
  destruct (Z.eqb_spec (arbitration_id frame) id) as [Hid|]; [|exact Hrest].
  destruct (ProtocolDecoder.decode_feedback frame) as [[st'|]|] eqn:Hdec;
    try exact Hrest.
  intros H. injection H as ->. exists frame.
  split; [apply list_elem_of_here|auto].
Qed.

Lemma await_status_passes_over (id : Z) (skipped rest : list (option CANFrame))
    (frame : CANFrame) (st : MotorStatus) :
  Forall (passed_over id) skipped ->
  arbitration_id frame = id ->
  ProtocolDecoder.decode_feedback frame = Ok (Some st) ->
  await_status id (skipped ++ Some frame :: rest) = Some st.
Proof.
  intros Hskip Hid Hdec. induction Hskip as [|poll skipped Hpoll _ IH].
  - cbn [app await_status]. rewrite Hid, Z.eqb_refl, Hdec. reflexivity.
  - cbn [app await_status]. destruct poll as [g|]; [|exact IH].
    cbn [passed_over] in Hpoll.
    destruct (Z.eqb_spec (arbitration_id g) id) as [Hg|]; [|exact IH].
    destruct Hpoll as [Hne|Hnone]; [contradiction|]. rewrite Hnone. exact IH.
Qed.

Lemma await_status_none (id : Z) (polls : list (option CANFrame)) :
  Forall (passed_over id) polls -> await_status id polls = None.
Proof.
  intros H. induction H as [|poll polls Hpoll _ IH]; [reflexivity|].
  cbn [await_status]. destruct poll as [g|]; [|exact IH].
  cbn [passed_over] in Hpoll.
  destruct (Z.eqb_spec (arbitration_id g) id) as [Hg|]; [|exact IH].
  destruct Hpoll as [Hne|Hnone]; [contradiction|]. rewrite Hnone. exact IH.
Qed.

Lemma get_status_unfold (bus_send : CANFrame -> bool) (self : Motor) (hw : CANHardware)
    (t : FeedbackType) (polls : list (option CANFrame)) :
  get_status bus_send self hw t polls
  = if is_connected hw && bus_send (status_request_frame (motor_id self) t)
    then match await_status (motor_id self) polls with
         | Some status =>
             (Some status, set_last_status self status,
              hw_sent hw (status_request_frame (motor_id self) t))
         | None => (None, self, hw_sent hw (status_request_frame (motor_id self) t))
         end
    else (None, self, hw).
Proof.
  unfold get_status. rewrite encode_status_request_frame. unfold send_frame, hw_sent.
  destruct (is_connected hw); cbn [negb andb]; [|reflexivity].
  destruct (bus_send _); reflexivity.
Qed.

(** X15 — A status [get_status] returns was decoded from a polled frame that
    carries this motor's id; it becomes [last_status]; the request went out
    first; the command timestamp and the limits are untouched.  When it
    returns [None] the motor is unchanged. *)
Theorem get_status_result
    (bus_send : CANFrame -> bool) (self self' : Motor) (hw hw' : CANHardware)
    (t : FeedbackType) (polls : list (option CANFrame)) (r : option MotorStatus) :
  get_status bus_send self hw t polls = (r, self', hw') ->
  match r with
  | Some st =>
      status_motor_id st = motor_id self
      /\ self' = set_last_status self st
      /\ last_command_time self' = last_command_time self
      /\ hw' = hw_sent hw (status_request_frame (motor_id self) t)
      /\ exists frame,
           Some frame ∈ polls
           /\ arbitration_id frame = motor_id self
           /\ ProtocolDecoder.decode_feedback frame = Ok (Some st)
  | None => self' = self
  end.
Proof.
  rewrite get_status_unfold.
  destruct (is_connected hw && bus_send _).
  - destruct (await_status (motor_id self) polls) as [st|] eqn:Haw;
      intros H; injection H as <- <- <-; [|reflexivity].
    destruct (await_status_elem _ _ _ Haw) as (frame & Hin & Hid & Hdec).
    destruct (decode_feedback_Some frame st Hdec) as (_ & Hst & _).
    split; [congruence|].
    split; [reflexivity|split; [reflexivity|split; [reflexivity|]]].
    exists frame. auto.
  - intros H. injection H as <- <- <-. reflexivity.
Qed.

Lemma get_status_result_witness :
  get_status accept_all motor_1 hw_up TYPE_1
    [None; Some frame_type2_test; Some frame_type1_motor_1]
  = (Some status_type1_motor_1, set_last_status motor_1 status_type1_motor_1,
     hw_sent hw_up (status_request_frame 1 TYPE_1))
  /\ status_motor_id status_type1_motor_1 = motor_id motor_1
  /\ exists frame,
       Some frame ∈ [None; Some frame_type2_test; Some frame_type1_motor_1]
       /\ arbitration_id frame = motor_id motor_1
       /\ ProtocolDecoder.decode_feedback frame = Ok (Some status_type1_motor_1).
Proof.
  assert (E : get_status accept_all motor_1 hw_up TYPE_1
                [None; Some frame_type2_test; Some frame_type1_motor_1]
              = (Some status_type1_motor_1,
                 set_last_status motor_1 status_type1_motor_1,
                 hw_sent hw_up (status_request_frame 1 TYPE_1)))
    by (vm_compute; reflexivity).
  split; [exact E|].
  destruct (get_status_result _ _ _ _ _ _ _ _ E) as (Hid & _ & _ & _ & Hframe).
  split; [exact Hid|exact Hframe].
Defined.

(** X16 — [get_status] passes over timeouts, frames of other motors and frames
    that do not decode, and returns the first frame of its motor that
    decodes, whatever follows; when every poll is passed over it returns
    [None] and leaves the motor unchanged. *)
Theorem get_status_first_reply
    (bus_send : CANFrame -> bool) (self : Motor) (hw : CANHardware)
    (t : FeedbackType) (skipped rest : list (option CANFrame))
    (frame : CANFrame) (st : MotorStatus) :
  is_connected hw = true ->
  bus_send (status_request_frame (motor_id self) t) = true ->
  Forall (passed_over (motor_id self)) skipped ->
  (arbitration_id frame = motor_id self ->
   ProtocolDecoder.decode_feedback frame = Ok (Some st) ->
   get_status bus_send self hw t (skipped ++ Some frame :: rest)
   = (Some st, set_last_status self st,
      hw_sent hw (status_request_frame (motor_id self) t)))
  /\ get_status bus_send self hw t skipped
     = (None, self, hw_sent hw (status_request_frame (motor_id self) t)).
Proof.
  intros Hconn Hsend Hskip. rewrite !get_status_unfold, Hconn, Hsend. cbn [andb].
  split.
  - intros Hid Hdec.
    rewrite (await_status_passes_over _ skipped rest frame st Hskip Hid Hdec).
    reflexivity.
  - rewrite (await_status_none _ skipped Hskip). reflexivity.
Qed.

Lemma get_status_first_reply_witness :
  Forall (passed_over (motor_id motor_1)) [None; Some frame_motor_2; Some frame_key0_motor_1]
  /\ get_status accept_all motor_1 hw_up TYPE_1
       ([None; Some frame_motor_2; Some frame_key0_motor_1]
        ++ Some frame_type1_motor_1 :: [Some frame_type2_motor_1])
     = (Some status_type1_motor_1, set_last_status motor_1 status_type1_motor_1,
        hw_sent hw_up (status_request_frame 1 TYPE_1))
  /\ get_status accept_all motor_1 hw_up TYPE_1
       [None; Some frame_motor_2; Some frame_key0_motor_1]
     = (None, motor_1, hw_sent hw_up (status_request_frame 1 TYPE_1)).
Proof.
  assert (Hskip : Forall (passed_over (motor_id motor_1))
                    [None; Some frame_motor_2; Some frame_key0_motor_1]).
  { constructor; [exact I|].
    constructor; [left; cbn; lia|].
    constructor; [right; vm_compute; reflexivity|constructor]. }
  assert (Hdec : ProtocolDecoder.decode_feedback frame_type1_motor_1
                 = Ok (Some status_type1_motor_1)) by (vm_compute; reflexivity).
  destruct (get_status_first_reply accept_all motor_1 hw_up TYPE_1
              [None; Some frame_motor_2; Some frame_key0_motor_1]
              [Some frame_type2_motor_1] frame_type1_motor_1 status_type1_motor_1
              eq_refl eq_refl Hskip) as [Hfirst Hnone].
  split; [exact Hskip|split; [exact (Hfirst eq_refl Hdec)|exact Hnone]].
Defined.

(** X17 — The reply is not matched against the requested feedback type: on a
    transport that sends both requests, asking for one type or another
    gives the same status and the same motor state. *)
Theorem get_status_ignores_requested_type
    (bus_send : CANFrame -> bool) (self : Motor) (hw : CANHardware)
    (t1 t2 : FeedbackType) (polls : list (option CANFrame)) :
  is_connected hw = true ->
  bus_send (status_request_frame (motor_id self) t1) = true ->
  bus_send (status_request_frame (motor_id self) t2) = true ->
  fst (get_status bus_send self hw t1 polls)
  = fst (get_status bus_send self hw t2 polls).
Proof.
  intros Hconn H1 H2. rewrite !get_status_unfold, Hconn, H1, H2. cbn [andb].
  destruct (await_status (motor_id self) polls); reflexivity.
Qed.

Lemma get_status_ignores_requested_type_witness :
  fst (get_status accept_all motor_1 hw_up TYPE_4 [Some frame_type1_motor_1])
  = (Some status_type1_motor_1, set_last_status motor_1 status_type1_motor_1)
  /\ fst (get_status accept_all motor_1 hw_up TYPE_1 [Some frame_type1_motor_1])
     = fst (get_status accept_all motor_1 hw_up TYPE_4 [Some frame_type1_motor_1]).
Proof.
  split; [vm_compute; reflexivity|].
  exact (get_status_ignores_requested_type accept_all motor_1 hw_up TYPE_1 TYPE_4
           [Some frame_type1_motor_1] eq_refl eq_refl eq_refl).
Defined.

Lemma decode_status_request_frame (id : Z) (t : FeedbackType) :
  ProtocolDecoder.decode_feedback (status_request_frame id t)
  = Ok (Some (echo_status id)).
Proof. destruct t; reflexivity. Qed.

(** X18 — A status request read back from the bus decodes as an error report:
    its first byte 0xAA has key 5 and its second byte 0x55 has the
    OverVoltage bit.  [get_status] therefore returns an OverVoltage status
    when the first frame it polls is its own request. *)
Theorem get_status_takes_echo_for_error
    (bus_send : CANFrame -> bool) (self : Motor) (hw : CANHardware)
    (t : FeedbackType) (polls : list (option CANFrame)) :
  ProtocolEncoder.encode_status_request (motor_id self) t
  = Ok (status_request_frame (motor_id self) t)
  /\ ProtocolDecoder.decode_feedback (status_request_frame (motor_id self) t)
     = Ok (Some (echo_status (motor_id self)))
  /\ (is_connected hw = true ->
      bus_send (status_request_frame (motor_id self) t) = true ->
      get_status bus_send self hw t
        (Some (status_request_frame (motor_id self) t) :: polls)
      = (Some (echo_status (motor_id self)),
         set_last_status self (echo_status (motor_id self)),
         hw_sent hw (status_request_frame (motor_id self) t))).
Proof.
  split; [apply encode_status_request_frame|].
  split; [apply decode_status_request_frame|].
  intros Hconn Hsend. rewrite get_status_unfold, Hconn, Hsend. cbn [andb await_status].
  change (arbitration_id (status_request_frame (motor_id self) t)) with (motor_id self).
  rewrite Z.eqb_refl, decode_status_request_frame. reflexivity.
Qed.

Lemma get_status_takes_echo_for_error_witness :
  get_status accept_all motor_1 hw_up TYPE_1
    [Some (status_request_frame 1 TYPE_1); Some frame_type1_motor_1]
  = (Some (echo_status 1), set_last_status motor_1 (echo_status 1),
     hw_sent hw_up (status_request_frame 1 TYPE_1)).
Proof.
  exact (proj2 (proj2 (get_status_takes_echo_for_error accept_all motor_1 hw_up TYPE_1
                         [Some frame_type1_motor_1])) eq_refl eq_refl).
Defined.

(** ** Inbound frames and observers *)

Lemma decode_feedback_key5_long (f : CANFrame) :
  (8 <= length (data f))%nat ->
  frame_kind f = Some 5 ->
  ProtocolDecoder.decode_feedback f
  = Ok (Some {| status_motor_id := arbitration_id f;
                position := 0; velocity := 0; current := 0; torque := 0;
                temperature := 0;
                error_code := first_matching_error (frame_byte f 1);
                voltage := 0;
                feedback_type := Some TYPE_5 |}).
Proof.
  intros Hlen Hkind. destruct f as [id d ext]. cbn [data arbitration_id] in *.
  destruct (length_ge_8_inv d Hlen)
    as (b0 & b1 & b2 & b3 & b4 & b5 & b6 & b7 & rest & ->).
  unfold frame_kind, frame_byte in *.
  cbn [data lookup list_lookup fmap option_fmap option_map default] in *.
  injection Hkind as Hkind.
  unfold ProtocolDecoder.decode_feedback. cbn [data length Nat.ltb Nat.leb].
  unfold ProtocolDecoder.decode_feedback_body.
  cbn [data ProtocolDecoder.index lookup list_lookup mbind result_bind].
  rewrite Hkind. cbn [Z.eqb Pos.eqb].
  unfold ProtocolDecoder._decode_type5_feedback.
  cbn [data arbitration_id ProtocolDecoder.index lookup list_lookup mbind result_bind
       mret result_ret fmap result_fmap].
  rewrite error_code_of_raw_priority. reflexivity.
Qed.

(** With observers that leave the motor alone, an error observer is called
    exactly for a frame of the motor's id with at least eight bytes, key 5
    and a non-zero error byte. *)
Lemma quiet_error_calls
    (self : Motor) (obs : Observers) (frame : CANFrame)
    (callback : nat) (code : ErrorCode) :
  ErrorNotified callback code ∈ snd (_on_can_message self obs frame)
  <-> arbitration_id frame = motor_id self
      /\ (8 <= length (data frame))%nat
      /\ frame_kind frame = Some 5
      /\ frame_byte frame 1 <> 0
      /\ code = first_matching_error (frame_byte frame 1)
      /\ callback ∈ map snd (error_callbacks obs).
Proof.
  unfold _on_can_message. split.
  - destruct (Z.eqb_spec (arbitration_id frame) (motor_id self)) as [Hid|Hid];
      cbn [negb snd]; [|intros H; inversion H].
    destruct (ProtocolDecoder.decode_feedback frame) as [[st|]|e] eqn:Hdec;
      cbn [snd]; try (intros H; inversion H; fail).
    destruct (decode_feedback_Some frame st Hdec) as (Hlen & _ & k & Hk & Hty & Hne & Herr).
    assert (Hstatus : forall l,
               ErrorNotified callback code
               ∈ map (fun entry : string * nat => StatusNotified (snd entry) st) l -> False).
    { intros l Hin. apply list_elem_of_In, in_map_iff in Hin as (entry & Heq & _).
      discriminate Heq. }
    destruct (has_error st) eqn:Herror; cbn [snd];
      [|intros Hin; destruct (Hstatus _ Hin)].
    intros Hin. apply elem_of_app in Hin as [Hin|Hin]; [destruct (Hstatus _ Hin)|].
    apply list_elem_of_In, in_map_iff in Hin as (entry & Heq & Hentry).
    injection Heq as <- <-.
    unfold has_error in Herror. rewrite Herr in *.
    destruct (Z.eqb_spec k 5) as [->|]; [|discriminate Herror].
    repeat split; auto.
    + intros Hz. apply first_matching_error_zero in Hz. rewrite Hz in Herror.
      discriminate Herror.
    + apply list_elem_of_In, in_map. exact Hentry.
  - intros (Hid & Hlen & Hkind & Hnz & -> & Hcb).
    rewrite Hid, Z.eqb_refl. cbn [negb].
    rewrite (decode_feedback_key5_long frame Hlen Hkind).
    unfold has_error. cbn [error_code].
    destruct (first_matching_error (frame_byte frame 1)) eqn:E;
      try (cbn [snd]; apply elem_of_app; right;
           apply list_elem_of_In, in_map_iff in Hcb as (entry & <- & Hentry);
           apply list_elem_of_In, in_map_iff; exists entry;
           split; [reflexivity|exact Hentry]).
    apply first_matching_error_zero in E. contradiction.
Qed.

(** ** The manager's registry *)

Lemma registry_inv_empty : registry_inv manager_empty.
Proof.
  split.
  - intros id r H. cbn in H. rewrite lookup_empty in H. discriminate.
  - intros r [m H]. cbn in H. rewrite lookup_empty in H. discriminate.
Qed.

Lemma Motor_init_Ok (id : Z) (m : Motor) :
  Motor_init id = Ok m -> is_address id /\ motor_id m = id.
Proof.
  unfold Motor_init, is_address.
  destruct (Z.leb_spec 1 id) as [Hlo|Hlo], (Z.leb_spec id 32) as [Hhi|Hhi];
    cbn [andb negb]; try discriminate.
  intros Hm. injection Hm as <-. cbn. lia.
Qed.

Lemma add_motor_new (self self' : MotorManager) (id : Z) (r : nat) :
  motors self !! id = None ->
  add_motor self id = Ok (r, self') ->
  exists m,
    Motor_init id = Ok m
    /\ r = next_object self
    /\ self' = {| can_hardware :=
                    {| is_connected := is_connected (can_hardware self);
                       sent := sent (can_hardware self);
                       message_callbacks :=
                         message_callbacks (can_hardware self) ++ [r] |};
                  objects := <[r := m]> (objects self);
                  next_object := S r;
                  motors := <[id := r]> (motors self) |}.
Proof.
  intros Hnone. unfold add_motor, new_Motor. rewrite Hnone.
  destruct (Motor_init id) as [m|]; cbn [mbind result_bind mret result_ret];
    [|discriminate].
  intros H. injection H as <- <-. exists m. auto.
Qed.

Lemma add_motor_inv (self self' : MotorManager) (id : Z) (r : nat) :
  registry_inv self -> add_motor self id = Ok (r, self') -> registry_inv self'.
Proof.
  intros [Hmotors Halloc] Hadd.
  destruct (motors self !! id) as [r0|] eqn:Hlook.
  { unfold add_motor in Hadd. rewrite Hlook in Hadd. injection Hadd as <- <-.
    split; assumption. }
  destruct (add_motor_new _ _ _ _ Hlook Hadd) as (m & Hinit & -> & ->).
  apply Motor_init_Ok in Hinit as [Haddr Hm].
  split; cbn [motors objects can_hardware message_callbacks next_object].
  - intros j r1 Hj. destruct (decide (j = id)) as [->|Hne].
    + rewrite lookup_insert_eq in Hj. injection Hj as <-.
      split; [exact Haddr|]. split.
      * exists m. rewrite lookup_insert_eq. auto.
      * apply elem_of_app. right. apply list_elem_of_here.
    + rewrite lookup_insert_ne in Hj by congruence.
      destruct (Hmotors _ _ Hj) as (Hj1 & (m1 & Hobj & Hid) & Hcb).
      split; [exact Hj1|]. split.
      * exists m1. split; [|exact Hid].
        rewrite lookup_insert_ne; [exact Hobj|].
        intros Heq. assert (r1 < next_object self)%nat; [|lia].
        apply Halloc. eauto.
      * apply elem_of_app. left. exact Hcb.
  - intros r1 [m1 H1]. destruct (decide (r1 = next_object self)) as [->|Hne]; [lia|].
    rewrite lookup_insert_ne in H1 by congruence.
    assert (r1 < next_object self)%nat; [|lia]. apply Halloc. eauto.
Qed.

Lemma remove_motor_inv (self : MotorManager) (id : Z) :
  registry_inv self -> registry_inv (remove_motor self id).
Proof.
  intros [Hmotors Halloc]. unfold remove_motor.
  destruct (motors self !! id) as [r|] eqn:Hlook; [|split; assumption].
  split; cbn [motors objects can_hardware next_object]; [|exact Halloc].
  intros j r1 Hj. apply lookup_delete_Some in Hj as [_ Hj]. eauto.
Qed.

(** X24 — [add_motor] and [remove_motor] keep the registry consistent: every
    registered id is an address in 1..32 and leads to a [Motor] carrying
    that id whose handler is registered with the hardware; hence two ids
    never share a [Motor]. *)
Theorem registry_consistent (self : MotorManager) (id : Z) :
  registry_inv self ->
  (forall r self', add_motor self id = Ok (r, self') -> registry_inv self')
  /\ registry_inv (remove_motor self id)
  /\ (forall i j r, motors self !! i = Some r -> motors self !! j = Some r -> i = j).
Proof.
  intros Hinv. split; [|split].
  - intros r self' Hadd. exact (add_motor_inv _ _ _ _ Hinv Hadd).
  - apply remove_motor_inv, Hinv.
  - intros i j r Hi Hj. destruct Hinv as [Hmotors _].
    destruct (Hmotors _ _ Hi) as (_ & (mi & Hoi & <-) & _).
    destruct (Hmotors _ _ Hj) as (_ & (mj & Hoj & <-) & _).
    congruence.
Qed.

Lemma registry_consistent_witness :
  registry_inv manager_empty
  /\ registry_inv manager_with_3
  /\ registry_inv (remove_motor manager_with_3 3).
Proof.
  pose proof registry_inv_empty as H0.
  destruct (registry_consistent manager_empty 3 H0) as (Hadd & _ & _).
  assert (H3 : registry_inv manager_with_3) by (apply (Hadd 0%nat); reflexivity).
  destruct (registry_consistent manager_with_3 3 H3) as (_ & Hrem & _).
  auto.
Defined.

(** X26 — [remove_motor] only forgets the dict entry: the [Motor] stays alive,
    held by its handler, which stays registered with the hardware.  Adding
    the id again builds a second [Motor]; both handlers then receive the
    frames of that id. *)
Theorem remove_motor_keeps_handler (self : MotorManager) (id : Z) (r : nat) :
  registry_inv self ->
  motors self !! id = Some r ->
  get_motor (remove_motor self id) id = None
  /\ can_hardware (remove_motor self id) = can_hardware self
  /\ objects (remove_motor self id) = objects self
  /\ r ∈ message_callbacks (can_hardware self)
  /\ exists r' self',
       add_motor (remove_motor self id) id = Ok (r', self')
       /\ r' <> r
       /\ message_callbacks (can_hardware self')
          = message_callbacks (can_hardware self) ++ [r']
       /\ objects self' !! r = objects self !! r
       /\ (exists m m', objects self' !! r = Some m /\ objects self' !! r' = Some m'
                        /\ motor_id m = id /\ motor_id m' = id).
Proof.
  intros [Hmotors Halloc] Hlook.
  destruct (Hmotors _ _ Hlook) as (Haddr & (m & Hobj & Hid) & Hcb).
  unfold get_motor, remove_motor. rewrite Hlook.
  cbn [motors can_hardware objects].
  split; [apply lookup_delete_eq|]. split; [reflexivity|]. split; [reflexivity|].
  split; [exact Hcb|].
  assert (Hr : (r < next_object self)%nat) by (apply Halloc; eauto).
  unfold add_motor, new_Motor, Motor_init. cbn [motors].
  rewrite lookup_delete_eq.
  unfold is_address in Haddr.
  destruct (Z.leb_spec 1 id); [|lia]. destruct (Z.leb_spec id 32); [|lia].
  cbn [andb negb mbind result_bind mret result_ret next_object can_hardware objects].
  eexists _, _. split; [reflexivity|].
  cbn [can_hardware message_callbacks objects].
  split; [lia|]. split; [reflexivity|].
  split; [apply lookup_insert_ne; lia|].
  eexists _, _. split; [rewrite lookup_insert_ne by lia; exact Hobj|].
  split; [apply lookup_insert_eq|]. split; [exact Hid|reflexivity].
Qed.

Lemma remove_motor_keeps_handler_witness :
  get_motor (remove_motor manager_with_3 3) 3 = None
  /\ message_callbacks (can_hardware (remove_motor manager_with_3 3)) = [0%nat]
  /\ exists self',
       add_motor (remove_motor manager_with_3 3) 3 = Ok (1%nat, self')
       /\ message_callbacks (can_hardware self') = [0%nat; 1%nat].
Proof.
  assert (H3 : registry_inv manager_with_3).
  { apply (add_motor_inv manager_empty manager_with_3 3 0%nat);
      [apply registry_inv_empty|reflexivity]. }
  assert (Hlook : motors manager_with_3 !! 3 = Some 0%nat) by reflexivity.
  destruct (remove_motor_keeps_handler manager_with_3 3 0%nat H3 Hlook)
    as (Hget & Hhw & _ & _ & _).
  split; [exact Hget|]. split; [rewrite Hhw; reflexivity|].
  eexists. split; reflexivity.
Defined.

(** X25 — [add_motor] raises, with [ValueError], exactly for an id that is not
    registered and lies outside 1..32; after a successful call
    [get_motor] returns the [Motor] that [add_motor] returned, and
    [remove_motor] makes [get_motor] return [None]; neither touches the
    entry of another id. *)
Theorem manager_lookup_round_trip (self : MotorManager) (id : Z) :
  (forall e, add_motor self id = Raise e
             <-> e = ValueError /\ get_motor self id = None /\ ~ is_address id)
  /\ (forall r self', add_motor self id = Ok (r, self') ->
        get_motor self' id = Some r
        /\ forall j, j <> id -> get_motor self' j = get_motor self j)
  /\ get_motor (remove_motor self id) id = None
  /\ (forall j, j <> id -> get_motor (remove_motor self id) j = get_motor self j).
Proof.
  unfold get_motor. split; [|split; [|split]].
  - intros e. unfold add_motor, new_Motor, Motor_init, is_address.
    destruct (motors self !! id) as [r|] eqn:Hlook.
    { split; [discriminate|]. intros (_ & H & _). discriminate. }
    destruct (Z.leb_spec 1 id) as [Hlo|Hlo], (Z.leb_spec id 32) as [Hhi|Hhi];
      cbn [andb negb mbind result_bind mret result_ret];
      split; try discriminate;
      try (intros (_ & _ & Hn); exfalso; apply Hn; lia);
      try (intros (-> & _ & _); reflexivity);
      intros He; injection He as <-; (split; [reflexivity|split; [reflexivity|lia]]).
  - intros r self' Hadd. split; [exact (add_motor_registered _ _ _ _ Hadd)|].
    intros j Hj. destruct (motors self !! id) as [r0|] eqn:Hlook.
    + unfold add_motor in Hadd. rewrite Hlook in Hadd. injection Hadd as <- <-.
      reflexivity.
    + destruct (add_motor_new _ _ _ _ Hlook Hadd) as (m & _ & _ & ->).
      cbn [motors]. apply lookup_insert_ne. congruence.
  - unfold remove_motor. destruct (motors self !! id) eqn:Hlook; [|exact Hlook].
    cbn [motors]. apply lookup_delete_eq.
  - intros j Hj. unfold remove_motor.
    destruct (motors self !! id) eqn:Hlook; [|reflexivity].
    cbn [motors]. apply lookup_delete_ne. congruence.
Qed.

Lemma manager_lookup_round_trip_witness :
  add_motor manager_empty 40 = Raise ValueError
  /\ get_motor manager_with_3 3 = Some 0%nat
  /\ get_motor (remove_motor manager_with_3 3) 3 = None.
Proof.
  destruct (manager_lookup_round_trip manager_empty 40) as (Hraise & _).
  destruct (manager_lookup_round_trip manager_empty 3) as (_ & Hadd & _).
  destruct (manager_lookup_round_trip manager_with_3 3) as (_ & _ & Hrem & _).
  split; [|split; [|exact Hrem]].
  - apply Hraise. split; [reflexivity|]. split; [reflexivity|].
    unfold is_address. lia.
  - apply (Hadd 0%nat manager_with_3). reflexivity.
Defined.

(** ** Discovery *)

Lemma decode_id_query_response_elem (f : CANFrame) (id : Z) :
  (exists ids, ProtocolDecoder.decode_id_query_response f = Some ids /\ id ∈ ids)
  <-> arbitration_id f = 0 /\ id ∈ payload f /\ is_address id.
Proof.
  unfold ProtocolDecoder.decode_id_query_response.
  rewrite collect_ids_filter. fold (payload f).
  destruct (Z.eqb_spec (arbitration_id f) 0) as [Hz|Hz]; cbn [negb].
  - split.
    + intros (ids & Hids & Hin).
      destruct (filter is_address (payload f)) as [|a l] eqn:E; [discriminate|].
      injection Hids as <-. rewrite <- E in Hin.
      apply list_elem_of_filter in Hin as [Ha Hin]. auto.
    + intros (_ & Hin & Ha).
      assert (Hf : id ∈ filter is_address (payload f))
        by (apply list_elem_of_filter; auto).
      destruct (filter is_address (payload f)) as [|a l] eqn:E; [inversion Hf|].
      eauto.
  - split; [intros (ids & H & _); discriminate|intros (H & _); contradiction].
Qed.

Lemma scan_step_elem (acc : gset Z) (poll : option CANFrame) (id : Z) :
  id ∈ scan_step acc poll
  <-> id ∈ acc
      \/ exists f, poll = Some f /\ arbitration_id f = 0 /\ id ∈ payload f /\ is_address id.
Proof.
  unfold scan_step. destruct poll as [f|].
  - pose proof (decode_id_query_response_elem f id) as Hdec.
    destruct (ProtocolDecoder.decode_id_query_response f) as [ids|].
    + rewrite elem_of_union, elem_of_list_to_set. split.
      * intros [H|H]; [auto|]. right. exists f. split; [reflexivity|].
        apply Hdec. eauto.
      * intros [H|(f' & Hf & H)]; [auto|]. injection Hf as <-.
        apply Hdec in H as (ids' & Hids & Hin). injection Hids as <-. auto.
    + split; [auto|]. intros [H|(f' & Hf & H)]; [exact H|].
      injection Hf as <-. apply Hdec in H as (ids' & Hids & _). discriminate.
  - split; [auto|]. intros [H|(f' & Hf & _)]; [exact H|discriminate].
Qed.

Lemma scan_fold_elem (polls : list (option CANFrame)) (acc : gset Z) (id : Z) :
  id ∈ fold_left scan_step polls acc <-> id ∈ acc \/ heard polls id.
Proof.
  revert acc. induction polls as [|poll polls IH]; intros acc; cbn [fold_left].
  - split; [auto|]. intros [H|(f & Hin & _)]; [exact H|inversion Hin].
  - rewrite IH, scan_step_elem. unfold heard. split.
    + intros [[H|(f & -> & H)]|(f & Hin & H)]; [auto| |].
      * right. exists f. split; [apply list_elem_of_here|exact H].
      * right. exists f. split; [apply list_elem_of_further, Hin|exact H].
    + intros [H|(f & Hin & H)]; [auto|].
      apply elem_of_cons in Hin as [Heq|Hin].
      * left. right. exists f. auto.
      * right. exists f. auto.
Qed.

(** X27 — When the query goes out, [scan_motors] reports exactly the addresses
    1..32 that occur as a payload byte of some polled frame sent to 0x000,
    whatever else the frame holds; when the link is down or the bus
    refuses the query it reports nothing and polls nothing. *)
Theorem scan_motors_reports_heard
    (bus_send : CANFrame -> bool) (hw : CANHardware)
    (polls : list (option CANFrame)) :
  (is_connected hw = true -> bus_send query_frame = true ->
   snd (scan_motors bus_send hw polls) = hw_sent hw query_frame
   /\ forall id, id ∈ fst (scan_motors bus_send hw polls) <-> heard polls id)
  /\ (is_connected hw = false \/ bus_send query_frame = false ->
      scan_motors bus_send hw polls = ([], hw)).
Proof.
  unfold scan_motors, ProtocolEncoder.encode_query_id, CANFrame_init.
  cbn [length Nat.ltb Nat.leb]. fold query_frame. unfold send_frame, hw_sent.
  split.
  - intros -> ->. cbn [negb snd fst]. split; [reflexivity|].
    intros id. rewrite sorted_elem, scan_fold_elem.
    split; [intros [H|H]; [inversion H|exact H]|auto].
  - intros [->| ->]; [reflexivity|]. destruct (is_connected hw); reflexivity.
Qed.

Lemma scan_motors_reports_heard_witness :
  is_connected hw_up = true /\ accept_all query_frame = true
  /\ fst (scan_motors accept_all hw_up [None; Some frame_discovery; Some frame_not_discovery])
     = [1; 3; 32]
  /\ heard [None; Some frame_discovery; Some frame_not_discovery] 32.
Proof.
  destruct (scan_motors_reports_heard accept_all hw_up
              [None; Some frame_discovery; Some frame_not_discovery])
    as [Hsent _].
  destruct (Hsent eq_refl eq_refl) as [_ Hiff].
  split; [reflexivity|]. split; [reflexivity|]. split; [vm_compute; reflexivity|].
  apply Hiff. vm_compute. apply list_elem_of_further, list_elem_of_further, list_elem_of_here.
Defined.

(** ** Reassigning an id *)

(** X9 — [encode_reset_id] raises [ValueError] exactly outside 1..32; inside,
    it returns the broadcast frame 55 AA 55 AA id 00 00 00, and that frame,
    read as a discovery response, names the new id and nothing else. *)
Theorem encode_reset_id_frame (new_id : Z) :
  (forall e, ProtocolEncoder.encode_reset_id new_id = Raise e
             <-> e = ValueError /\ ~ is_address new_id)
  /\ (is_address new_id ->
      exists f,
        ProtocolEncoder.encode_reset_id new_id = Ok f
        /\ arbitration_id f = 0
        /\ payload f = reset_payload new_id
        /\ ProtocolDecoder.decode_id_query_response f = Some [new_id]).
Proof.
  assert (Hin : is_address new_id ->
          exists f,
            ProtocolEncoder.encode_reset_id new_id = Ok f
            /\ arbitration_id f = 0
            /\ payload f = reset_payload new_id
            /\ ProtocolDecoder.decode_id_query_response f = Some [new_id]).
  { unfold is_address. intros Ha.
    assert (Hcases : new_id ∈ seqZ 1 32) by (apply elem_of_seqZ; lia).
    vm_compute in Hcases.
    repeat (apply elem_of_cons in Hcases as [->|Hcases];
            [eexists; split; [reflexivity|];
             split; [reflexivity|]; split; reflexivity|]).
    inversion Hcases. }
  split; [|exact Hin].
  intros e. split.
  - intros Hraise. destruct (decide (is_address new_id)) as [Ha|Ha].
    + destruct (Hin Ha) as (f & Hf & _). congruence.
    + split; [|exact Ha]. revert Hraise.
      unfold ProtocolEncoder.encode_reset_id. unfold is_address in Ha.
      destruct (Z.leb_spec 1 new_id), (Z.leb_spec new_id 32); cbn [andb negb];
        try lia; congruence.
  - intros [-> Ha]. unfold ProtocolEncoder.encode_reset_id. unfold is_address in Ha.
    destruct (Z.leb_spec 1 new_id), (Z.leb_spec new_id 32); cbn [andb negb];
      try lia; reflexivity.
Qed.

Lemma encode_reset_id_frame_witness :
  is_address 7
  /\ exists f,
       ProtocolEncoder.encode_reset_id 7 = Ok f
       /\ arbitration_id f = 0
       /\ payload f = reset_payload 7
       /\ ProtocolDecoder.decode_id_query_response f = Some [7].
Proof.
  assert (H7 : is_address 7) by (unfold is_address; lia).
  destruct (encode_reset_id_frame 7) as [_ H].
  split; [exact H7|exact (H H7)].
Defined.

(** ** Ranges of the decoded fields *)

Lemma all_below_spec (n : nat) (P : Z -> bool) :
  all_below n P = true -> forall z, 0 <= z < Z.of_nat n -> P z = true.
Proof.
  induction n as [|n IH]; cbn [all_below]; intros Hall z Hz; [lia|].
  apply andb_true_iff in Hall as [Hn Hall].
  destruct (decide (z = Z.of_nat n)) as [->|Hne]; [exact Hn|].
  apply IH; [exact Hall|lia].
Qed.

Lemma all_u16_spec (P : Z -> bool) (b c : byte) :
  all_u16 P = true -> P (u16_be (Z_of_byte b) (Z_of_byte c)) = true.
Proof.
  intros Hall. unfold all_u16 in Hall.
  pose proof (Z_of_byte_range b) as Hb. pose proof (Z_of_byte_range c) as Hc.
  apply (all_below_spec 256 (fun lo => P (u16_be (Z_of_byte b) lo))); [|lia].
  apply (all_below_spec 256
           (fun hi => all_below 256 (fun lo => P (u16_be hi lo)))); [exact Hall|lia].
Qed.

Lemma position_bounded (b c : byte) :
  PrimFloat.leb 0 (code_position_deg (u16_be (Z_of_byte b) (Z_of_byte c)))
  && PrimFloat.ltb (code_position_deg (u16_be (Z_of_byte b) (Z_of_byte c))) 360
  = true.
Proof.
  apply (all_u16_spec
           (fun u => PrimFloat.leb 0 (code_position_deg u)
                     && PrimFloat.ltb (code_position_deg u) 360)).
  vm_compute. reflexivity.
Qed.

Lemma tenths_s16_bounded (b c : byte) :
  within (-3276.8) 3276.8
    (Py.float_of_int (ProtocolDecoder.signed16 (u16_be (Z_of_byte b) (Z_of_byte c)))
     * 0.1)%float.
Proof.
  apply (all_u16_spec
           (fun u => withinb (-3276.8) 3276.8
                       (Py.float_of_int (ProtocolDecoder.signed16 u) * 0.1)%float)).
  vm_compute. reflexivity.
Qed.

Lemma hundredths_s16_bounded (b c : byte) :
  within (-327.68) 327.67
    (Py.float_of_int (ProtocolDecoder.signed16 (u16_be (Z_of_byte b) (Z_of_byte c)))
     * 0.01)%float.
Proof.
  apply (all_u16_spec
           (fun u => withinb (-327.68) 327.67
                       (Py.float_of_int (ProtocolDecoder.signed16 u) * 0.01)%float)).
  vm_compute. reflexivity.
Qed.

Lemma tenths_u16_bounded (b c : byte) :
  within 0 6553.5 (Py.float_of_int (u16_be (Z_of_byte b) (Z_of_byte c)) * 0.1)%float.
Proof.
  apply (all_u16_spec (fun u => withinb 0 6553.5 (Py.float_of_int u * 0.1)%float)).
  vm_compute. reflexivity.
Qed.

Lemma tenths_u8_bounded (b : byte) :
  within 0 25.5 (Py.float_of_int (Z_of_byte b) * 0.1)%float.
Proof.
  apply (all_below_spec 256 (fun u => withinb 0 25.5 (Py.float_of_int u * 0.1)%float));
    [vm_compute; reflexivity|apply Z_of_byte_range].
Qed.

Section DecodeBounds.
Variables (id : Z) (ext : bool) (b0 b1 b2 b3 b4 b5 b6 b7 : byte) (rest : list byte).
Let f := {| arbitration_id := id;
            data := b0 :: b1 :: b2 :: b3 :: b4 :: b5 :: b6 :: b7 :: rest;
            is_extended := ext |}.
Let key := ProtocolDecoder.feedback_type_code (Z_of_byte b0).

Lemma decode_feedback_long_bounds (st : MotorStatus) :
  ProtocolDecoder.decode_feedback f = Ok (Some st) ->
  feedback_type st <> Some TYPE_3 ->
  (PrimFloat.leb 0 (position st) && PrimFloat.ltb (position st) 360 = true)
  /\ within (-3276.8) 3276.8 (velocity st)
  /\ within (-327.68) 327.67 (current st)
  /\ within (-327.68) 327.67 (torque st)
  /\ within 0 25.5 (temperature st)
  /\ within 0 6553.5 (voltage st).
Proof.
  assert (Hzero : forall lo hi,
             withinb lo hi 0 = true -> within lo hi 0) by (intros lo hi H; exact H).
  unfold ProtocolDecoder.decode_feedback. cbn [data f length Nat.ltb Nat.leb].
  unfold ProtocolDecoder.decode_feedback_body.
  cbn [data f ProtocolDecoder.index lookup list_lookup mbind result_bind].
  fold key.
  destruct (key =? 1) eqn:K1.
  { unfold ProtocolDecoder._decode_type1_feedback.
    cbn [data f arbitration_id ProtocolDecoder.index lookup list_lookup mbind result_bind
         ProtocolDecoder.slice drop take Nat.sub].
    rewrite !unpack_h_pair. cbn [mbind result_bind mret result_ret fmap result_fmap].
    rewrite shift_or_bytes by apply Z_of_byte_range.
    intros H _. injection H as <-.
    cbn [position velocity current torque temperature voltage].
    split; [apply position_bounded|]. split; [apply tenths_s16_bounded|].
    split; [apply Hzero; reflexivity|]. split; [apply hundredths_s16_bounded|].
    split; [apply tenths_u8_bounded|apply Hzero; reflexivity]. }
  destruct (key =? 2) eqn:K2.
  { unfold ProtocolDecoder._decode_type2_feedback.
    cbn [data f arbitration_id ProtocolDecoder.index lookup list_lookup mbind result_bind
         ProtocolDecoder.slice drop take Nat.sub].
    rewrite !unpack_h_pair. cbn [mbind result_bind mret result_ret fmap result_fmap].
    rewrite shift_or_bytes by apply Z_of_byte_range.
    intros H _. injection H as <-.
    cbn [position velocity current torque temperature voltage].
    split; [apply position_bounded|]. split; [apply tenths_s16_bounded|].
    split; [apply hundredths_s16_bounded|]. split; [apply Hzero; reflexivity|].
    split; [apply tenths_u8_bounded|apply Hzero; reflexivity]. }
  destruct (key =? 3) eqn:K3.
  { unfold ProtocolDecoder._decode_type3_feedback, bytes_to_float.
    cbn [data f arbitration_id ProtocolDecoder.slice drop take Nat.sub length Nat.eqb
         mbind result_bind].
    destruct rest as [|r rest'];
      cbn [length Nat.leb drop take Nat.eqb mbind result_bind mret result_ret
           fmap result_fmap];
      intros H Hty; injection H as <-; cbn in Hty; congruence. }
  destruct (key =? 4) eqn:K4.
  { unfold ProtocolDecoder._decode_type4_feedback.
    cbn [data f arbitration_id ProtocolDecoder.index lookup list_lookup mbind result_bind
         mret result_ret fmap result_fmap].
    rewrite shift_or_bytes by apply Z_of_byte_range.
    intros H _. injection H as <-.
    cbn [position velocity current torque temperature voltage].
    split; [reflexivity|]. split; [apply Hzero; reflexivity|].
    split; [apply Hzero; reflexivity|]. split; [apply Hzero; reflexivity|].
    split; [apply tenths_u8_bounded|apply tenths_u16_bounded]. }
  destruct (key =? 5) eqn:K5.
  { unfold ProtocolDecoder._decode_type5_feedback.
    cbn [data f arbitration_id ProtocolDecoder.index lookup list_lookup mbind result_bind
         mret result_ret fmap result_fmap].
    intros H _. injection H as <-.
    cbn [position velocity current torque temperature voltage].
    split; [reflexivity|]. repeat split; apply Hzero; reflexivity. }
  discriminate.
Qed.

End DecodeBounds.

(** X14 — Every status [decode_feedback] returns, unless it is of kind 3, has
    bounded fields: a position in [0, 360) degrees, a velocity within
    ±3276.8 rpm, current and torque within -327.68 .. 327.67, a
    temperature within 0 .. 25.5 and a voltage within 0 .. 6553.5; none is
    a NaN or an infinity. *)
Theorem decoded_fields_bounded (f : CANFrame) (st : MotorStatus) :
  ProtocolDecoder.decode_feedback f = Ok (Some st) ->
  feedback_type st <> Some TYPE_3 ->
  (PrimFloat.leb 0 (position st) && PrimFloat.ltb (position st) 360 = true)
  /\ within (-3276.8) 3276.8 (velocity st)
  /\ within (-327.68) 327.67 (current st)
  /\ within (-327.68) 327.67 (torque st)
  /\ within 0 25.5 (temperature st)
  /\ within 0 6553.5 (voltage st).
Proof.
  intros Hdec Hty.
  assert (Hlen : (8 <= length (data f))%nat).
  { unfold ProtocolDecoder.decode_feedback in Hdec.
    destruct (Nat.ltb_spec (length (data f)) 8); [discriminate|lia]. }
  destruct f as [id d ext]. cbn [data] in Hlen.
  destruct (length_ge_8_inv d Hlen)
    as (b0 & b1 & b2 & b3 & b4 & b5 & b6 & b7 & rest & ->).
  exact (decode_feedback_long_bounds id ext b0 b1 b2 b3 b4 b5 b6 b7 rest st Hdec Hty).
Qed.

Lemma decoded_fields_bounded_witness :
  ProtocolDecoder.decode_feedback frame_type1_motor_1 = Ok (Some status_type1_motor_1)
  /\ within (-3276.8) 3276.8 (velocity status_type1_motor_1)
  /\ within 0 25.5 (temperature status_type1_motor_1).
Proof.
  assert (Hdec : ProtocolDecoder.decode_feedback frame_type1_motor_1
                 = Ok (Some status_type1_motor_1)) by (vm_compute; reflexivity).
  assert (Hty : feedback_type status_type1_motor_1 <> Some TYPE_3)
    by (cbn; discriminate).
  destruct (decoded_fields_bounded _ _ Hdec Hty) as (_ & Hv & _ & _ & Ht & _).
  split; [exact Hdec|]. split; [exact Hv|exact Ht].
Defined.

(** ** The enable flag *)

(** X7 — [enable()] and [disable()] only set [is_enabled] and send nothing,
    and no command reads the flag: on a motor with the flag overwritten
    every command returns the same answer, sends the same frames and
    changes the motor in the same way. *)
Theorem enable_flag_not_consulted
    (bus_send : CANFrame -> bool) (self : Motor) (hw : CANHardware) (now : float)
    (position_deg speed_limit_rpm current_limit_a velocity_rpm : float)
    (mode : string) (b : bool) :
  enable self = (true, set_is_enabled self true)
  /\ disable self = (true, set_is_enabled self false)
  /\ set_position bus_send (set_is_enabled self b) hw now
       position_deg speed_limit_rpm current_limit_a mode
     = with_flag b (set_position bus_send self hw now
                      position_deg speed_limit_rpm current_limit_a mode)
  /\ set_velocity bus_send (set_is_enabled self b) hw now velocity_rpm current_limit_a
     = with_flag b (set_velocity bus_send self hw now velocity_rpm current_limit_a)
  /\ stop bus_send (set_is_enabled self b) hw now
     = with_flag b (stop bus_send self hw now)
  /\ set_zero_point bus_send (set_is_enabled self b) hw
     = with_flag b (set_zero_point bus_send self hw).
Proof.
  assert (Hvel : forall v c,
             set_velocity bus_send (set_is_enabled self b) hw now v c
             = with_flag b (set_velocity bus_send self hw now v c)).
  { intros v c. unfold set_velocity, _check_velocity_safe, _check_current_safe.
    cbn [set_is_enabled motor_id max_velocity_rpm max_current_a].
    destruct (Py.gt (Py.abs v) (max_velocity_rpm self)); [reflexivity|].
    destruct (Py.gt c (max_current_a self)); [reflexivity|]. cbn [negb].
    destruct (ProtocolEncoder.encode_servo_speed_command (motor_id self) v c)
      as [frame|]; [|reflexivity].
    destruct (send_frame bus_send hw frame) as [[|] hw']; reflexivity. }
  split; [reflexivity|]. split; [reflexivity|].
  split; [|split; [apply Hvel|split; [apply Hvel|]]].
  - unfold set_position, position_frame, _check_position_safe, _check_velocity_safe,
      _check_current_safe.
    cbn [set_is_enabled motor_id max_position_deg max_velocity_rpm max_current_a].
    destruct (Py.gt (Py.abs position_deg) (max_position_deg self)); [reflexivity|].
    destruct (Py.gt (Py.abs speed_limit_rpm) (max_velocity_rpm self)); [reflexivity|].
    destruct (Py.gt current_limit_a (max_current_a self)); [reflexivity|]. cbn [negb].
    match goal with
    | |- context [match ?r with Ok _ => _ | Raise _ => _ end] =>
        destruct r as [frame|]; [|reflexivity]
    end.
    destruct (send_frame bus_send hw frame) as [[|] hw']; reflexivity.
  - unfold set_zero_point. cbn [set_is_enabled motor_id].
    destruct (ProtocolEncoder.encode_set_zero_point (motor_id self)) as [frame|];
      [|reflexivity].
    destruct (send_frame bus_send hw frame) as [[|] hw']; reflexivity.
Qed.

(** ** Handlers registered with the hardware *)

Lemma count_remove_first (c c' : nat) (l : list nat) :
  count_occ Nat.eq_dec (list_remove_first c l) c'
  = if Nat.eq_dec c c' then Nat.pred (count_occ Nat.eq_dec l c')
    else count_occ Nat.eq_dec l c'.
Proof.
  induction l as [|y l IH]; cbn [list_remove_first count_occ].
  - destruct (Nat.eq_dec c c'); reflexivity.
  - destruct (Nat.eqb_spec y c) as [->|Hne].
    + destruct (Nat.eq_dec c c') as [->|Hc]; [reflexivity|reflexivity].
    + cbn [count_occ]. rewrite IH.
      destruct (Nat.eq_dec y c') as [->|Hy], (Nat.eq_dec c c') as [->|Hc];
        try reflexivity; try congruence.
Qed.

Lemma remove_first_absent (c : nat) (l : list nat) :
  c ∉ l -> list_remove_first c l = l.
Proof.
  induction l as [|y l IH]; intros Hc; cbn [list_remove_first]; [reflexivity|].
  apply not_elem_of_cons in Hc as [Hy Hc].
  destruct (Nat.eqb_spec y c) as [->|_]; [contradiction|].
  rewrite IH by exact Hc. reflexivity.
Qed.

Lemma remove_first_app_fresh (c : nat) (l : list nat) :
  c ∉ l -> list_remove_first c (l ++ [c]) = l.
Proof.
  induction l as [|y l IH]; intros Hc; cbn [list_remove_first app].
  - rewrite Nat.eqb_refl. reflexivity.
  - apply not_elem_of_cons in Hc as [Hy Hc].
    destruct (Nat.eqb_spec y c) as [->|_]; [contradiction|].
    rewrite IH by exact Hc. reflexivity.
Qed.

(** X22 — [remove_message_callback] never raises and drops one registration
    only: a handler registered n times stays registered n - 1 times, the
    others are untouched, and so are the link state and the frames sent.
    Removing a handler right after adding it restores the hardware when
    the handler was not registered before. *)
Theorem remove_message_callback_once (hw : CANHardware) (c : nat) :
  (forall c', registrations c' (remove_message_callback hw c)
              = if Nat.eq_dec c c' then Nat.pred (registrations c' hw)
                else registrations c' hw)
  /\ is_connected (remove_message_callback hw c) = is_connected hw
  /\ sent (remove_message_callback hw c) = sent hw
  /\ (c ∉ message_callbacks hw ->
      remove_message_callback hw c = hw
      /\ remove_message_callback (add_message_callback hw c) c = hw).
Proof.
  unfold remove_message_callback, registrations.
  split; [|split; [|split]].
  - intros c'. destruct (bool_decide_reflect (c ∈ message_callbacks hw)) as [Hin|Hin];
      cbn [message_callbacks].
    + apply count_remove_first.
    + destruct (Nat.eq_dec c c') as [->|_]; [|reflexivity].
      assert (Hz : count_occ Nat.eq_dec (message_callbacks hw) c' = 0%nat).
      { apply count_occ_not_In. intros HIn. apply Hin, list_elem_of_In, HIn. }
      rewrite Hz. reflexivity.
  - destruct (bool_decide (c ∈ message_callbacks hw)); reflexivity.
  - destruct (bool_decide (c ∈ message_callbacks hw)); reflexivity.
  - intros Hc. split.
    + rewrite bool_decide_eq_false_2 by exact Hc. reflexivity.
    + unfold add_message_callback. cbn [message_callbacks is_connected sent].
      rewrite bool_decide_eq_true_2
        by (apply elem_of_app; right; apply list_elem_of_here).
      rewrite remove_first_app_fresh by exact Hc. destruct hw; reflexivity.
Qed.

Lemma remove_message_callback_once_witness :
  registrations 4 hw_two_handlers = 2%nat
  /\ registrations 4 (remove_message_callback hw_two_handlers 4) = 1%nat
  /\ ((4%nat ∉ message_callbacks hw_up)
      /\ remove_message_callback (add_message_callback hw_up 4) 4 = hw_up).
Proof.
  destruct (remove_message_callback_once hw_two_handlers 4) as (Hcount & _).
  destruct (remove_message_callback_once hw_up 4) as (_ & _ & _ & Hfresh).
  assert (Hnot : 4%nat ∉ message_callbacks hw_up) by (cbn; apply not_elem_of_nil).
  split; [reflexivity|]. split; [rewrite Hcount; reflexivity|].
  split; [exact Hnot|exact (proj2 (Hfresh Hnot))].
Defined.

(** ** Observers of a motor *)

Lemma dict_set_fresh (name : string) (callback : nat) (d : list (string * nat)) :
  name ∉ dict_keys d -> dict_set name callback d = d ++ [(name, callback)].
Proof.
  induction d as [|[n c] d IH]; intros Hn; cbn [dict_set app]; [reflexivity|].
  cbn [dict_keys map fst] in Hn. apply not_elem_of_cons in Hn as [Hne Hn].
  destruct (String.eqb_spec n name) as [->|_]; [contradiction|].
  rewrite IH by exact Hn. reflexivity.
Qed.

Lemma dict_set_present (name : string) (callback callback0 : nat)
    (d1 d2 : list (string * nat)) :
  name ∉ dict_keys d1 ->
  dict_set name callback (d1 ++ (name, callback0) :: d2)
  = d1 ++ (name, callback) :: d2.
Proof.
  induction d1 as [|[n c] d1 IH]; intros Hn; cbn [dict_set app].
  - rewrite String.eqb_refl. reflexivity.
  - cbn [dict_keys map fst] in Hn. apply not_elem_of_cons in Hn as [Hne Hn].
    destruct (String.eqb_spec n name) as [->|_]; [contradiction|].
    rewrite IH by exact Hn. reflexivity.
Qed.

Lemma dict_del_present (name : string) (callback0 : nat) (d1 d2 : list (string * nat)) :
  name ∉ dict_keys d1 ->
  dict_del name (d1 ++ (name, callback0) :: d2) = d1 ++ d2.
Proof.
  induction d1 as [|[n c] d1 IH]; intros Hn; cbn [dict_del app].
  - rewrite String.eqb_refl. reflexivity.
  - cbn [dict_keys map fst] in Hn. apply not_elem_of_cons in Hn as [Hne Hn].
    destruct (String.eqb_spec n name) as [->|_]; [contradiction|].
    rewrite IH by exact Hn. reflexivity.
Qed.

Lemma dict_del_absent (name : string) (d : list (string * nat)) :
  name ∉ dict_keys d -> dict_del name d = d.
Proof.
  induction d as [|[n c] d IH]; intros Hn; cbn [dict_del]; [reflexivity|].
  cbn [dict_keys map fst] in Hn. apply not_elem_of_cons in Hn as [Hne Hn].
  destruct (String.eqb_spec n name) as [->|_]; [contradiction|].
  rewrite IH by exact Hn. reflexivity.
Qed.

(** X21 — Registering a status observer under a new name puts it last in the
    notification order; registering under a name in use replaces that
    observer in place, so the order and the number of observers stay;
    removing a name drops its observer and nothing else, and removing an
    unknown name changes nothing.  The error observers are never
    touched. *)
Theorem status_observer_registration
    (obs : Observers) (name : string) (callback : nat) :
  (name ∉ dict_keys (status_callbacks obs) ->
   status_callbacks (add_status_callback obs name callback)
   = status_callbacks obs ++ [(name, callback)]
   /\ remove_status_callback obs name = obs
   /\ remove_status_callback (add_status_callback obs name callback) name = obs)
  /\ (forall d1 callback0 d2,
        status_callbacks obs = d1 ++ (name, callback0) :: d2 ->
        name ∉ dict_keys d1 ->
        status_callbacks (add_status_callback obs name callback)
        = d1 ++ (name, callback) :: d2
        /\ status_callbacks (remove_status_callback obs name) = d1 ++ d2)
  /\ error_callbacks (add_status_callback obs name callback) = error_callbacks obs
  /\ error_callbacks (remove_status_callback obs name) = error_callbacks obs.
Proof.
  split; [|split; [|split; reflexivity]].
  - intros Hn. unfold add_status_callback, remove_status_callback.
    cbn [status_callbacks error_callbacks].
    rewrite dict_set_fresh by exact Hn. rewrite dict_del_absent by exact Hn.
    rewrite <- (app_nil_r (status_callbacks obs ++ [(name, callback)])), <- app_assoc.
    cbn [app]. rewrite dict_del_present by exact Hn. rewrite app_nil_r.
    destruct obs; auto.
  - intros d1 callback0 d2 Hd Hn. unfold add_status_callback, remove_status_callback.
    cbn [status_callbacks]. rewrite Hd.
    rewrite dict_set_present, dict_del_present by exact Hn. auto.
Qed.

Lemma status_observer_registration_witness :
  status_callbacks (add_status_callback observers_two "plot" 12)
  = [("log"%string, 10%nat); ("ui"%string, 11%nat); ("plot"%string, 12%nat)]
  /\ status_callbacks (add_status_callback observers_two "log" 12)
     = [("log"%string, 12%nat); ("ui"%string, 11%nat)]
  /\ status_callbacks (remove_status_callback observers_two "log")
     = [("ui"%string, 11%nat)].
Proof.
  destruct (status_observer_registration observers_two "plot" 12) as (Hfresh & _).
  destruct (status_observer_registration observers_two "log" 12) as (_ & Hused & _).
  assert (Hplot : "plot"%string ∉ dict_keys (status_callbacks observers_two)).
  { cbn. intros H. repeat (apply elem_of_cons in H as [H|H]; [discriminate H|]).
    inversion H. }
  destruct (Hfresh Hplot) as (Hadd & _).
  destruct (Hused [] 10%nat [("ui"%string, 11%nat)] eq_refl (not_elem_of_nil _))
    as (Hrep & Hdel).
  split; [exact Hadd|]. split; [exact Hrep|exact Hdel].
Defined.

Lemma encode_reset_id_cases (new_id : Z) :
  ProtocolEncoder.encode_reset_id new_id = Raise ValueError
  \/ (is_address new_id
      /\ exists f, ProtocolEncoder.encode_reset_id new_id = Ok f
                   /\ arbitration_id f = 0 /\ length (data f) = 8%nat).
Proof.
  unfold ProtocolEncoder.encode_reset_id, is_address.
  destruct (Z.leb_spec 1 new_id) as [Hlo|Hlo], (Z.leb_spec new_id 32) as [Hhi|Hhi];
    cbn [andb negb]; auto.
  right. split; [lia|].
  assert (Hcases : new_id ∈ seqZ 1 32) by (apply elem_of_seqZ; lia).
  vm_compute in Hcases.
  repeat (apply elem_of_cons in Hcases as [->|Hcases];
          [eexists; split; [reflexivity|]; split; reflexivity|]).
  inversion Hcases.
Qed.

(** ** Frames of all encoders *)

(** X8 — Whatever an encoder returns is a frame of exactly eight bytes, sent to
    the motor's id, or to 0x000 for the two id commands. *)
Theorem encoders_frame_shape
    (motor_id : Z) (kp kd position velocity torque : float)
    (speed_limit current_limit : float) (t : FeedbackType) (f : CANFrame) :
  (ProtocolEncoder.encode_query_id = Ok f \/ ProtocolEncoder.encode_reset_id motor_id = Ok f ->
   arbitration_id f = 0 /\ length (data f) = 8%nat)
  /\ (ProtocolEncoder.encode_set_zero_point motor_id = Ok f
      \/ ProtocolEncoder.encode_force_position_command motor_id kp kd position velocity torque
         = Ok f
      \/ ProtocolEncoder.encode_servo_position_command
           motor_id position speed_limit current_limit = Ok f
      \/ ProtocolEncoder.encode_servo_speed_command motor_id velocity current_limit = Ok f
      \/ ProtocolEncoder.encode_status_request motor_id t = Ok f ->
      arbitration_id f = motor_id /\ length (data f) = 8%nat).
Proof.
  split.
  - intros [H|H].
    + injection H as <-. split; reflexivity.
    + destruct (encode_reset_id_cases motor_id) as [Hr|(Ha & f' & Hf' & Hid & Hlen)].
      * rewrite Hr in H. discriminate.
      * rewrite Hf' in H. injection H as <-. auto.
  - intros [H|[H|[H|[H|H]]]].
    + injection H as <-. split; reflexivity.
    + exact (encode_force_position_shape _ _ _ _ _ _ _ H).
    + exact (encode_servo_position_shape _ _ _ _ _ H).
    + exact (encode_servo_speed_shape _ _ _ _ H).
    + rewrite encode_status_request_frame in H. injection H as <-. split; reflexivity.
Qed.

Lemma encoders_frame_shape_witness :
  exists f,
    ProtocolEncoder.encode_servo_speed_command 1 100 5 = Ok f
    /\ arbitration_id f = 1 /\ length (data f) = 8%nat.
Proof.
  eexists. split; [vm_compute; reflexivity|].
  apply (encoders_frame_shape 1 0 0 0 100 0 0 5 TYPE_1).
  right. right. right. left. vm_compute. reflexivity.
Defined.

(** ** When a velocity command goes out *)

(** X3 — On a connected link whose bus accepts every frame, [set_velocity]
    returns [True], stores the clock reading and sends one frame to the
    motor whenever both checks pass and both values lie within ±1000, so
    that they fit single precision. *)
Theorem set_velocity_succeeds_in_range
    (bus_send : CANFrame -> bool) (self : Motor) (hw : CANHardware) (now : float)
    (velocity_rpm current_limit_a : float) :
  _check_velocity_safe self velocity_rpm = true ->
  _check_current_safe self current_limit_a = true ->
  Py.gt (Py.abs velocity_rpm) 1000 = false ->
  Py.gt (Py.abs current_limit_a) 1000 = false ->
  is_connected hw = true ->
  (forall frame, bus_send frame = true) ->
  exists frame,
    ProtocolEncoder.encode_servo_speed_command
      (motor_id self) velocity_rpm current_limit_a = Ok frame
    /\ arbitration_id frame = motor_id self
    /\ set_velocity bus_send self hw now velocity_rpm current_limit_a
       = (true, set_last_command_time self now, hw_sent hw frame).
Proof.
  intros Hv Hc Hvr Hcr Hconn Hbus.
  destruct (encode_servo_speed_ok (motor_id self) velocity_rpm current_limit_a)
    as [frame Hframe]; try (apply float_to_bytes_within_1000; assumption).
  exists frame. split; [exact Hframe|].
  split; [exact (proj1 (encode_servo_speed_shape _ _ _ _ Hframe))|].
  rewrite (set_velocity_send_stage bus_send self hw now _ _ Hv Hc).
  unfold send_stage. rewrite Hframe, Hconn, Hbus. reflexivity.
Qed.

Lemma set_velocity_succeeds_in_range_witness :
  exists frame,
    ProtocolEncoder.encode_servo_speed_command 1 100 5 = Ok frame
    /\ arbitration_id frame = motor_id motor_1
    /\ set_velocity accept_all motor_1 hw_up 12.5 100 5
       = (true, set_last_command_time motor_1 12.5, hw_sent hw_up frame).
Proof.
  apply (set_velocity_succeeds_in_range accept_all motor_1 hw_up 12.5 100 5);
    vm_compute; reflexivity.
Defined.

(** ** From the bus to the motors *)

Lemma on_can_message_state (self : Motor) (obs : Observers) (frame : CANFrame) :
  fst (_on_can_message self obs frame) = status_after frame self.
Proof.
  unfold _on_can_message, status_after.
  destruct (arbitration_id frame =? motor_id self); cbn [negb]; [|reflexivity].
  destruct (ProtocolDecoder.decode_feedback frame) as [[st|]|]; try reflexivity.
  destruct (has_error st); reflexivity.
Qed.

Lemma status_after_idem (frame : CANFrame) (self : Motor) :
  status_after frame (status_after frame self) = status_after frame self.
Proof.
  unfold status_after.
  destruct (arbitration_id frame =? motor_id self) eqn:Hid; [|rewrite Hid; reflexivity].
  destruct (ProtocolDecoder.decode_feedback frame) as [[st|]|];
    cbn [set_last_status motor_id]; rewrite Hid; reflexivity.
Qed.

Lemma handle_lookup (observers : nat -> Observers) (frame : CANFrame)
    (objs : gmap nat Motor) (c r : nat) :
  handle observers frame objs c !! r
  = if decide (r = c) then status_after frame <$> objs !! r else objs !! r.
Proof.
  unfold handle. destruct (decide (r = c)) as [->|Hne].
  - destruct (objs !! c) as [m|] eqn:Hm.
    + rewrite lookup_insert_eq, on_can_message_state. reflexivity.
    + rewrite Hm. reflexivity.
  - destruct (objs !! c) as [m|]; [|reflexivity].
    apply lookup_insert_ne. congruence.
Qed.

Lemma handlers_lookup (observers : nat -> Observers) (frame : CANFrame)
    (l : list nat) (objs : gmap nat Motor) (r : nat) :
  fold_left (handle observers frame) l objs !! r
  = if bool_decide (r ∈ l) then status_after frame <$> objs !! r else objs !! r.
Proof.
  revert objs. induction l as [|c l IH]; intros objs; cbn [fold_left].
  - rewrite bool_decide_eq_false_2 by apply not_elem_of_nil. reflexivity.
  - rewrite IH, handle_lookup. destruct (decide (r = c)) as [->|Hne].
    + rewrite (bool_decide_eq_true_2 (c ∈ c :: l)) by apply list_elem_of_here.
      destruct (bool_decide (c ∈ l)); [|reflexivity].
      destruct (objs !! c) as [m|]; cbn [fmap option_fmap option_map]; [|reflexivity].
      rewrite status_after_idem. reflexivity.
    + destruct (bool_decide_reflect (r ∈ l)) as [Hin|Hin].
      * rewrite bool_decide_eq_true_2 by (apply list_elem_of_further, Hin). reflexivity.
      * rewrite bool_decide_eq_false_2; [reflexivity|].
        intros H. apply elem_of_cons in H as [H|H]; contradiction.
Qed.



(** ** Observers that act *)

Section FanOut.
Variable react : Reacting.dict_kind -> nat -> Reacting.world -> Reacting.reaction.

Lemma fan_out_size_changed
    (kind : Reacting.dict_kind) (size remaining : nat) (w : Reacting.world) :
  length (Reacting.callbacks kind (Reacting.w_observers w)) <> size ->
  Reacting.fan_out react kind size remaining w = (w, [], Reacting.RuntimeError).
Proof.
  intros Hne. apply Nat.eqb_neq in Hne.
  destruct remaining; cbn [Reacting.fan_out]; rewrite Hne; reflexivity.
Qed.

Lemma fan_out_end (kind : Reacting.dict_kind) (size : nat) (w : Reacting.world) :
  length (Reacting.callbacks kind (Reacting.w_observers w)) = size ->
  Reacting.fan_out react kind size 0 w = (w, [], Reacting.Completes).
Proof. intros <-. cbn [Reacting.fan_out]. rewrite Nat.eqb_refl. reflexivity. Qed.

Lemma fan_out_step
    (kind : Reacting.dict_kind) (size remaining : nat) (w : Reacting.world)
    (name : string) (callback : nat) :
  length (Reacting.callbacks kind (Reacting.w_observers w)) = size ->
  Reacting.callbacks kind (Reacting.w_observers w) !! (size - S remaining)%nat
  = Some (name, callback) ->
  Reacting.fan_out react kind size (S remaining) w
  = match Reacting.ends (react kind callback w) with
    | Reacting.RaisesBaseException =>
        (Reacting.act (Reacting.does (react kind callback w)) w,
         [Reacting.call kind callback (Reacting.w_status w)], Reacting.Propagates)
    | _ =>
        let '(w', calls, c) :=
          Reacting.fan_out react kind size remaining
            (Reacting.act (Reacting.does (react kind callback w)) w) in
        (w', Reacting.call kind callback (Reacting.w_status w) :: calls, c)
    end.
Proof.
  intros Hlen Hlook. cbn [Reacting.fan_out]. rewrite Hlen, Nat.eqb_refl, Hlook.
  cbn [negb]. destruct (Reacting.ends (react kind callback w)); reflexivity.
Qed.

(** Quiet observers at the head of what is left are called in order and
    change nothing. *)
Lemma fan_out_quiet_prefix (kind : Reacting.dict_kind) (w : Reacting.world)
    (before rest visited : list (string * nat)) :
  Reacting.callbacks kind (Reacting.w_observers w) = visited ++ before ++ rest ->
  quiet_at react kind w before ->
  Reacting.fan_out react kind
    (length (visited ++ before ++ rest)) (length (before ++ rest)) w
  = let '(w', calls, c) :=
      Reacting.fan_out react kind (length (visited ++ before ++ rest)) (length rest) w in
    (w',
     map (fun entry => Reacting.call kind (snd entry) (Reacting.w_status w)) before
     ++ calls,
     c).
Proof.
  revert visited. induction before as [|[name callback] before IH];
    intros visited Hcb Hquiet.
  - cbn [app map]. destruct (Reacting.fan_out _ _ _ _ _) as [[w' calls] c]. reflexivity.
  - apply Forall_cons in Hquiet as [[Hdoes Hends] Hquiet]. cbn [snd] in Hdoes, Hends.
    cbn [app length].
    rewrite (fan_out_step kind _ _ w name callback).
    + rewrite Hdoes. cbn [Reacting.act].
      replace (visited ++ (name, callback) :: before ++ rest)
        with ((visited ++ [(name, callback)]) ++ before ++ rest)
        by (rewrite <- app_assoc; reflexivity).
      rewrite IH;
        [|rewrite Hcb, <- app_assoc; reflexivity|exact Hquiet].
      destruct (Reacting.fan_out _ _ _ _ _) as [[w' calls] c].
      destruct (Reacting.ends (react kind callback w)); try reflexivity. contradiction.
    + rewrite Hcb. reflexivity.
    + rewrite Hcb. apply list_lookup_middle.
      rewrite length_app. cbn [length]. lia.
Qed.

(** When every observer of the dict is quiet, each is called once, in
    order, and the loop ends normally. *)
Lemma fan_out_quiet (kind : Reacting.dict_kind) (w : Reacting.world) :
  quiet_at react kind w (Reacting.callbacks kind (Reacting.w_observers w)) ->
  Reacting.fan_out react kind
    (length (Reacting.callbacks kind (Reacting.w_observers w)))
    (length (Reacting.callbacks kind (Reacting.w_observers w))) w
  = (w,
     map (fun entry => Reacting.call kind (snd entry) (Reacting.w_status w))
         (Reacting.callbacks kind (Reacting.w_observers w)),
     Reacting.Completes).
Proof.
  intros Hquiet.
  pose proof (fan_out_quiet_prefix kind w
                (Reacting.callbacks kind (Reacting.w_observers w)) [] []) as H.
  cbn [app] in H. rewrite app_nil_r in H. rewrite H; [|reflexivity|exact Hquiet].
  cbn [length]. rewrite fan_out_end by reflexivity. rewrite app_nil_r. reflexivity.
Qed.

(** The loop over the error dict makes error calls only. *)
Lemma fan_out_error_calls (size remaining : nat) (w : Reacting.world)
    (n : notification) :
  n ∈ snd (fst (Reacting.fan_out react Reacting.ErrorCallbacks size remaining w)) ->
  exists callback code, n = ErrorNotified callback code.
Proof.
  revert w. induction remaining as [|remaining IH]; intros w; cbn [Reacting.fan_out].
  - destruct (negb _); cbn [fst snd]; intros H; inversion H.
  - destruct (negb _); cbn [fst snd]; [intros H; inversion H|].
    destruct (Reacting.callbacks Reacting.ErrorCallbacks (Reacting.w_observers w) !! _)
      as [[name callback]|]; cbn [fst snd]; [|intros H; inversion H].
    specialize (IH (Reacting.act
                      (Reacting.does (react Reacting.ErrorCallbacks callback w)) w)).
    destruct (Reacting.fan_out _ _ _ _ _) as [[w' calls] c]. cbn [fst snd] in IH.
    destruct (Reacting.ends (react Reacting.ErrorCallbacks callback w));
      cbn [fst snd Reacting.call];
      intros H; apply elem_of_cons in H as [->|H]; eauto; inversion H.
Qed.

End FanOut.

(** With quiet observers the method is [_on_can_message] as embedded
    first. *)
Lemma reacting_quiet_agrees
    (react : Reacting.dict_kind -> nat -> Reacting.world -> Reacting.reaction)
    (self : Motor) (obs : Observers) (frame : CANFrame) :
  (forall st,
      ProtocolDecoder.decode_feedback frame = Ok (Some st) ->
      quiet_at react Reacting.StatusCallbacks
        {| Reacting.w_status := st; Reacting.w_observers := obs |} (status_callbacks obs)
      /\ quiet_at react Reacting.ErrorCallbacks
           {| Reacting.w_status := st; Reacting.w_observers := obs |}
           (error_callbacks obs)) ->
  Reacting._on_can_message react self obs frame
  = {| Reacting.o_motor := fst (_on_can_message self obs frame);
       Reacting.o_observers := obs;
       Reacting.o_calls := snd (_on_can_message self obs frame);
       Reacting.o_exit := Reacting.Completes |}.
Proof.
  intros Hq. unfold Reacting._on_can_message, _on_can_message.
  destruct (negb _); [reflexivity|].
  destruct (ProtocolDecoder.decode_feedback frame) as [[st|]|]; try reflexivity.
  destruct (Hq st eq_refl) as [Hs He].
  pose proof (fan_out_quiet react Reacting.StatusCallbacks _ Hs) as Es.
  cbn [Reacting.callbacks Reacting.w_observers Reacting.w_status] in Es.
  rewrite Es. cbv beta iota zeta. cbn [Reacting.w_status Reacting.w_observers].
  destruct (has_error st); [|reflexivity].
  pose proof (fan_out_quiet react Reacting.ErrorCallbacks _ He) as Ee.
  cbn [Reacting.callbacks Reacting.w_observers Reacting.w_status] in Ee.
  rewrite Ee. reflexivity.
Qed.

(** X19 — [_on_can_message] changes nothing and calls nobody when the
    frame carries another id or does not decode.  When the frame carries
    the motor's id and decodes, and the status callbacks leave the motor
    alone, each of them is called exactly once with the status, in
    registration order, before any error callback.  When instead a status
    callback changes the number of status callbacks (it unsubscribes
    itself, say), the callbacks registered after it are not called, no
    error callback is called, and [RuntimeError] leaves the method;
    [last_status] is set all the same. *)
Theorem on_can_message_status_fanout
    (react : Reacting.dict_kind -> nat -> Reacting.world -> Reacting.reaction)
    (self : Motor) (obs : Observers) (frame : CANFrame) :
  (arbitration_id frame <> motor_id self
   \/ ProtocolDecoder.decode_feedback frame = Ok None ->
   Reacting._on_can_message react self obs frame
   = {| Reacting.o_motor := self; Reacting.o_observers := obs;
        Reacting.o_calls := []; Reacting.o_exit := Reacting.Completes |})
  /\ (forall st,
        arbitration_id frame = motor_id self ->
        ProtocolDecoder.decode_feedback frame = Ok (Some st) ->
        let w := {| Reacting.w_status := st; Reacting.w_observers := obs |} in
        (quiet_at react Reacting.StatusCallbacks w (status_callbacks obs) ->
         (exists error_calls,
            Reacting.o_calls (Reacting._on_can_message react self obs frame)
            = map (fun callback => StatusNotified callback st)
                  (map snd (status_callbacks obs))
              ++ error_calls
            /\ forall n, n ∈ error_calls ->
                 exists callback code, n = ErrorNotified callback code)
         /\ (has_error st = false ->
             Reacting._on_can_message react self obs frame
             = {| Reacting.o_motor := set_last_status self st;
                  Reacting.o_observers := obs;
                  Reacting.o_calls :=
                    map (fun callback => StatusNotified callback st)
                        (map snd (status_callbacks obs));
                  Reacting.o_exit := Reacting.Completes |}))
        /\ (forall before name callback after,
              status_callbacks obs = before ++ (name, callback) :: after ->
              quiet_at react Reacting.StatusCallbacks w before ->
              let r := react Reacting.StatusCallbacks callback w in
              Reacting.ends r <> Reacting.RaisesBaseException ->
              length (status_callbacks
                        (Reacting.w_observers (Reacting.act (Reacting.does r) w)))
              <> length (status_callbacks obs) ->
              Reacting._on_can_message react self obs frame
              = {| Reacting.o_motor :=
                     set_last_status self
                       (Reacting.w_status (Reacting.act (Reacting.does r) w));
                   Reacting.o_observers :=
                     Reacting.w_observers (Reacting.act (Reacting.does r) w);
                   Reacting.o_calls :=
                     map (fun callback => StatusNotified callback st)
                         (map snd before ++ [callback]);
                   Reacting.o_exit := Reacting.RuntimeError |})).
Proof.
  split.
  - unfold Reacting._on_can_message. intros [Hid|Hdec].
    + destruct (Z.eqb_spec (arbitration_id frame) (motor_id self)); [contradiction|].
      reflexivity.
    + rewrite Hdec. destruct (negb _); reflexivity.
  - intros st Hid Hdec w. split.
    + intros Hquiet.
      assert (Hrun : Reacting._on_can_message react self obs frame
                     = if has_error st then
                         let size := length (error_callbacks obs) in
                         let '(w', calls', c') :=
                           Reacting.fan_out react Reacting.ErrorCallbacks size size w in
                         {| Reacting.o_motor := set_last_status self (Reacting.w_status w');
                            Reacting.o_observers := Reacting.w_observers w';
                            Reacting.o_calls :=
                              map (fun callback => StatusNotified callback st)
                                  (map snd (status_callbacks obs)) ++ calls';
                            Reacting.o_exit := c' |}
                       else
                         {| Reacting.o_motor := set_last_status self st;
                            Reacting.o_observers := obs;
                            Reacting.o_calls :=
                              map (fun callback => StatusNotified callback st)
                                  (map snd (status_callbacks obs));
                            Reacting.o_exit := Reacting.Completes |}).
      { unfold Reacting._on_can_message. rewrite Hid, Z.eqb_refl, Hdec. cbn [negb].
        pose proof (fan_out_quiet react Reacting.StatusCallbacks w Hquiet) as Es.
        cbn [Reacting.callbacks Reacting.w_observers Reacting.w_status w] in Es.
        fold w. rewrite Es. cbv beta iota zeta.
        cbn [Reacting.w_status Reacting.w_observers w Reacting.call].
        rewrite map_map. reflexivity. }
      rewrite Hrun. split.
      * destruct (has_error st).
        -- cbv zeta.
           pose proof (fan_out_error_calls react (length (error_callbacks obs))
                         (length (error_callbacks obs)) w) as Hkind.
           destruct (Reacting.fan_out _ _ _ _ _) as [[w' calls'] c'].
           cbn [fst snd] in Hkind. exists calls'. split; [reflexivity|exact Hkind].
        -- exists []. split; [cbn [Reacting.o_calls]; rewrite app_nil_r; reflexivity|].
           intros n Hn. inversion Hn.
      * intros ->. reflexivity.
    + intros before name callback after Hcb Hquiet r Hends Hsize.
      unfold Reacting._on_can_message. rewrite Hid, Z.eqb_refl, Hdec. cbn [negb].
      fold w. rewrite Hcb.
      pose proof (fan_out_quiet_prefix react Reacting.StatusCallbacks w
                    before ((name, callback) :: after) []) as Hpre.
      cbn [app] in Hpre. rewrite Hpre; [|exact Hcb|exact Hquiet]. clear Hpre.
      cbn [length].
      rewrite (fan_out_step react Reacting.StatusCallbacks _ _ w name callback);
        [| cbn [Reacting.callbacks w Reacting.w_observers]; rewrite Hcb; reflexivity
         | cbn [Reacting.callbacks w Reacting.w_observers]; rewrite Hcb;
           apply list_lookup_middle; rewrite length_app; cbn [length]; lia ].
      fold r.
      rewrite fan_out_size_changed
        by (cbn [Reacting.callbacks]; rewrite <- Hcb; exact Hsize).
      assert (Hcalls : map (fun entry : string * nat =>
                              Reacting.call Reacting.StatusCallbacks (snd entry)
                                (Reacting.w_status w)) before
                       ++ [Reacting.call Reacting.StatusCallbacks callback
                             (Reacting.w_status w)]
                       = map (fun callback => StatusNotified callback st)
                             (map snd before ++ [callback])).
      { rewrite map_app, map_map. reflexivity. }
      destruct (Reacting.ends r); try contradiction; cbv beta iota zeta;
        rewrite Hcalls; reflexivity.
Qed.

Lemma on_can_message_status_fanout_witness :
  Reacting._on_can_message react_calm motor_1 observers_two frame_type1_motor_1
  = {| Reacting.o_motor := set_last_status motor_1 status_type1_motor_1;
       Reacting.o_observers := observers_two;
       Reacting.o_calls := [StatusNotified 10 status_type1_motor_1;
                            StatusNotified 11 status_type1_motor_1];
       Reacting.o_exit := Reacting.Completes |}
  /\ Reacting._on_can_message react_unsubscribe motor_1 observers_two frame_error_05
     = {| Reacting.o_motor := set_last_status motor_1 status_error_05;
          Reacting.o_observers := remove_status_callback observers_two "log";
          Reacting.o_calls := [StatusNotified 10 status_error_05];
          Reacting.o_exit := Reacting.RuntimeError |}.
Proof.
  assert (Hdec1 : ProtocolDecoder.decode_feedback frame_type1_motor_1
                  = Ok (Some status_type1_motor_1)) by (vm_compute; reflexivity).
  assert (Hdec5 : ProtocolDecoder.decode_feedback frame_error_05
                  = Ok (Some status_error_05)) by (vm_compute; reflexivity).
  destruct (on_can_message_status_fanout react_calm motor_1 observers_two
              frame_type1_motor_1) as [_ Hcalm].
  destruct (on_can_message_status_fanout react_unsubscribe motor_1 observers_two
              frame_error_05) as [_ Hloud].
  destruct (Hcalm _ eq_refl Hdec1) as [Hquiet _].
  destruct (Hloud _ eq_refl Hdec5) as [_ Hbreak].
  split.
  - apply Hquiet; [|reflexivity].
    repeat constructor; discriminate.
  - apply (Hbreak [] "log"%string 10%nat [("ui"%string, 11%nat)]).
    + reflexivity.
    + constructor.
    + discriminate.
    + cbn. lia.
Defined.

(** X20 — With callbacks that leave the motor alone, an error callback is
    called exactly when the frame carries the motor's id, has at least
    eight bytes, has key 5 and a non-zero error byte; it then receives the
    first matching error code of that byte.  The error code is read after
    the status callbacks have run, from the object they were handed: when
    the last status callback overwrites the status, the error callbacks are
    called exactly if the overwritten status has an error, with its code,
    and [last_status] shows the overwritten status. *)
Theorem on_can_message_error_notified
    (react : Reacting.dict_kind -> nat -> Reacting.world -> Reacting.reaction)
    (self : Motor) (obs : Observers) (frame : CANFrame) :
  ((forall st,
       ProtocolDecoder.decode_feedback frame = Ok (Some st) ->
       quiet_at react Reacting.StatusCallbacks
         {| Reacting.w_status := st; Reacting.w_observers := obs |} (status_callbacks obs)
       /\ quiet_at react Reacting.ErrorCallbacks
            {| Reacting.w_status := st; Reacting.w_observers := obs |}
            (error_callbacks obs)) ->
   forall callback code,
     ErrorNotified callback code
     ∈ Reacting.o_calls (Reacting._on_can_message react self obs frame)
     <-> arbitration_id frame = motor_id self
         /\ (8 <= length (data frame))%nat
         /\ frame_kind frame = Some 5
         /\ frame_byte frame 1 <> 0
         /\ code = first_matching_error (frame_byte frame 1)
         /\ callback ∈ map snd (error_callbacks obs))
  /\ (forall st before name callback f,
        arbitration_id frame = motor_id self ->
        ProtocolDecoder.decode_feedback frame = Ok (Some st) ->
        let w := {| Reacting.w_status := st; Reacting.w_observers := obs |} in
        status_callbacks obs = before ++ [(name, callback)] ->
        quiet_at react Reacting.StatusCallbacks w before ->
        Reacting.does (react Reacting.StatusCallbacks callback w) = Reacting.Mutate f ->
        Reacting.ends (react Reacting.StatusCallbacks callback w)
        <> Reacting.RaisesBaseException ->
        quiet_at react Reacting.ErrorCallbacks
          {| Reacting.w_status := f st; Reacting.w_observers := obs |}
          (error_callbacks obs) ->
        Reacting._on_can_message react self obs frame
        = {| Reacting.o_motor := set_last_status self (f st);
             Reacting.o_observers := obs;
             Reacting.o_calls :=
               map (fun callback => StatusNotified callback st)
                   (map snd (status_callbacks obs))
               ++ (if has_error (f st)
                   then map (fun callback => ErrorNotified callback (error_code (f st)))
                            (map snd (error_callbacks obs))
                   else []);
             Reacting.o_exit := Reacting.Completes |}).
Proof.
  split.
  - intros Hquiet callback code.
    rewrite (reacting_quiet_agrees react self obs frame Hquiet).
    cbn [Reacting.o_calls]. apply quiet_error_calls.
  - intros st before name callback f Hid Hdec w Hcb Hquiet Hdoes Hends Herr.
    unfold Reacting._on_can_message. rewrite Hid, Z.eqb_refl, Hdec. cbn [negb].
    fold w. rewrite Hcb.
    pose proof (fan_out_quiet_prefix react Reacting.StatusCallbacks w
                  before [(name, callback)] []) as Hpre.
    cbn [app] in Hpre. rewrite Hpre; [|exact Hcb|exact Hquiet]. clear Hpre.
    cbn [length].
    rewrite (fan_out_step react Reacting.StatusCallbacks _ _ w name callback);
      [| cbn [Reacting.callbacks w Reacting.w_observers]; rewrite Hcb; reflexivity
       | cbn [Reacting.callbacks w Reacting.w_observers]; rewrite Hcb;
         apply list_lookup_middle; rewrite length_app; cbn [length]; lia ].
    rewrite Hdoes. cbn [Reacting.act w Reacting.w_status Reacting.w_observers].
    rewrite fan_out_end
      by (cbn [Reacting.callbacks Reacting.w_observers]; rewrite Hcb; reflexivity).
    assert (Hcalls : map (fun entry : string * nat =>
                            Reacting.call Reacting.StatusCallbacks (snd entry) st) before
                     ++ [Reacting.call Reacting.StatusCallbacks callback st]
                     = map (fun callback => StatusNotified callback st)
                           (map snd (before ++ [(name, callback)]))).
    { rewrite !map_app, map_map. reflexivity. }
    pose proof (fan_out_quiet react Reacting.ErrorCallbacks _ Herr) as Ee.
    cbn [Reacting.callbacks Reacting.w_observers Reacting.w_status] in Ee.
    destruct (Reacting.ends (react Reacting.StatusCallbacks callback w));
      try contradiction; cbv beta iota zeta;
      cbn [Reacting.w_status Reacting.w_observers];
      rewrite Hcalls;
      (destruct (has_error (f st));
       [rewrite Ee; cbn [Reacting.call]; rewrite !map_map; reflexivity
       |rewrite app_nil_r; reflexivity]).
Qed.

Lemma on_can_message_error_notified_witness :
  ErrorNotified 20 OVER_VOLTAGE
  ∈ Reacting.o_calls (Reacting._on_can_message react_calm motor_1 observers_two
                        frame_error_05)
  /\ Reacting._on_can_message react_clear_error motor_1 observers_two frame_error_05
     = {| Reacting.o_motor := set_last_status motor_1 (clear_error status_error_05);
          Reacting.o_observers := observers_two;
          Reacting.o_calls := [StatusNotified 10 status_error_05;
                               StatusNotified 11 status_error_05];
          Reacting.o_exit := Reacting.Completes |}.
Proof.
  assert (Hdec5 : ProtocolDecoder.decode_feedback frame_error_05
                  = Ok (Some status_error_05)) by (vm_compute; reflexivity).
  destruct (on_can_message_error_notified react_calm motor_1 observers_two
              frame_error_05) as [Hiff _].
  destruct (on_can_message_error_notified react_clear_error motor_1 observers_two
              frame_error_05) as [_ Hmut].
  split.
  - apply Hiff.
    + intros st _. split; repeat constructor; discriminate.
    + split; [reflexivity|]. split; [cbn; lia|]. split; [reflexivity|].
      split; [cbn; lia|]. split; [reflexivity|].
      cbn. apply list_elem_of_here.
  - apply (Hmut status_error_05 [("log"%string, 10%nat)] "ui"%string 11%nat clear_error
             eq_refl Hdec5 eq_refl).
    + repeat constructor; discriminate.
    + reflexivity.
    + discriminate.
    + repeat constructor; discriminate.
Defined.
